(** * bqcdc: the BigQuery CDC demo scripts, embedded and verified

    A shallow embedding of the three command-line programs of the
    repository

    - [src/bigquery/init_bq.py]    (module [init_bq]),
    - [src/mysql/init_mysql.py]    (module [init_mysql]),
    - [src/mysql/update_mysql.py]  (module [update_mysql]),

    Every program is a sequence of calls into the outside world (the
    gcloud CLI, a MySQL server, the BigQuery API, the file system, the
    clock, two random sources, POSIX signals).  The outside world is a
    record [World]; a Python function becomes a function in the
    state-and-exception monad [M] over it.  Answers of the outside world
    that the programs cannot control are read from streams stored in the
    world, so that every theorem quantifies over all of them. *)

From Stdlib Require Import ZArith QArith Qround Lia Lqa.
From Stdlib Require Import String Ascii List.
From stdpp Require Import gmap strings list.

Close Scope Q_scope.
Local Open Scope string_scope.
Local Open Scope Z_scope.

(** ** Python strings *)

Module pystr.

(** [str.isspace] on the code points below 256. *)
Definition isspace (c : ascii) : bool :=
  let n := N_of_ascii c in
  ((9 <=? n) && (n <=? 13) || (28 <=? n) && (n <=? 32)
   || (n =? 133) || (n =? 160))%N.

Fixpoint lstrip (s : string) : string :=
  match s with
  | EmptyString => EmptyString
  | String c s' => if isspace c then lstrip s' else s
  end.

Fixpoint rstrip (s : string) : string :=
  match s with
  | EmptyString => EmptyString
  | String c s' =>
      match rstrip s' with
      | EmptyString => if isspace c then EmptyString else String c EmptyString
      | r => String c r
      end
  end.

(** [s.strip()] *)
Definition strip (s : string) : string := rstrip (lstrip s).

(** [s[n:]] for [0 <= n] *)
Fixpoint drop (n : nat) (s : string) : string :=
  match n, s with
  | O, _ => s
  | S _, EmptyString => EmptyString
  | S n', String _ s' => drop n' s'
  end.

(** [c in s] for a one-character [c] *)
Fixpoint mem (c : ascii) (s : string) : bool :=
  match s with
  | EmptyString => false
  | String d s' => if Ascii.eqb c d then true else mem c s'
  end.

(** [all(c in alphabet for c in s)] *)
Fixpoint all_in (alphabet s : string) : bool :=
  match s with
  | EmptyString => true
  | String c s' => mem c alphabet && all_in alphabet s'
  end.

(** [any(c in alphabet for c in s)] *)
Fixpoint any_in (alphabet s : string) : bool :=
  match s with
  | EmptyString => false
  | String c s' => mem c alphabet || any_in alphabet s'
  end.

(** [needle in s] *)
Fixpoint contains (needle s : string) : bool :=
  if String.prefix needle s then true
  else match s with
       | EmptyString => false
       | String _ s' => contains needle s'
       end.

(** What a text-mode [read()] does to line ends (universal newlines). *)
Fixpoint universal_newlines (s : string) : string :=
  match s with
  | EmptyString => EmptyString
  | String c s' =>
      if Ascii.eqb c "013"%char then
        match s' with
        | String d s'' =>
            if Ascii.eqb d "010"%char
            then String "010"%char (universal_newlines s'')
            else String "010"%char (universal_newlines s')
        | EmptyString => String "010"%char EmptyString
        end
      else String c (universal_newlines s')
  end.

(** [string.ascii_lowercase] and friends *)
Definition ascii_lowercase : string := "abcdefghijklmnopqrstuvwxyz".
Definition ascii_uppercase : string := "ABCDEFGHIJKLMNOPQRSTUVWXYZ".
Definition ascii_letters : string := ascii_lowercase ++ ascii_uppercase.
Definition digits : string := "0123456789".

End pystr.

(** ** Exceptions and results *)

Inductive exn : Type :=
| KeyError (key : string)
| IndexError
| RuntimeError (msg : string)
| TimeoutError (msg : string)
| FileNotFoundError (msg : string)
| MySQLError (msg : string)
| NotFound (msg : string)
| Conflict (msg : string)
| OtherException (msg : string)
| SystemExit (code : Z).

(** [str(e)] *)
Definition exn_str (e : exn) : string :=
  match e with
  | KeyError k => "'" ++ k ++ "'"
  | IndexError => "Cannot choose from an empty sequence"
  | RuntimeError m | TimeoutError m | FileNotFoundError m | MySQLError m
  | NotFound m | Conflict m | OtherException m => m
  | SystemExit _ => ""
  end.

(** [isinstance(e, Exception)]: [SystemExit] is the one [BaseException]
    here that is not. *)
Definition is_Exception (e : exn) : bool :=
  match e with
  | SystemExit _ => false
  | _ => true
  end.

(** The outcome of running a piece of Python: a value, a raised
    exception, or [OutOfFuel] when a loop of the model was cut short
    (never a behaviour of the program; it passes through [except] and
    [finally] untouched). *)
Inductive Res (A : Type) : Type :=
| Ok (a : A)
| Raise (e : exn)
| OutOfFuel.
Arguments Ok {A} a.
Arguments Raise {A} e.
Arguments OutOfFuel {A}.

(** ** The outside world *)

(** [subprocess.CompletedProcess], with [capture_output=True, text=True] *)
Record Completed : Type :=
  { returncode : Z; stdout : string; stderr : string }.

(** What [mysql.connector.connect] can do: hand out a connection, raise
    the connector's own error, or raise anything else. *)
Inductive ConnectReply : Type :=
| ConnectOk
| ConnectMySQLError (msg : string)
| ConnectOtherError (msg : string).

(** A row of the items table, keyed by its primary key [id] in the table
    map.  [price] is the [DECIMAL(10, 2)] column and counts hundredths;
    the two [DATETIME] columns count seconds. *)
Record Row : Type :=
  { description : string; price : Z; created_at : Z; updated_at : Z }.

(** The statements the two MySQL programs send. *)
Inductive Sql : Type :=
| CreateDatabaseIfNotExists (db : string)
| UseDatabase (db : string)
| CreateTableIfNotExists (tbl : string)
| SelectCount (tbl : string)
| TruncateTable (tbl : string)
| InsertItem (tbl : string) (id : Z) (desc : string) (hundredths : Z)
| SelectAll (tbl : string)
| SelectPriceDescription (tbl : string) (id : Z)
| UpdatePriceNow (tbl : string) (hundredths : Z) (id : Z).

Inductive SqlValue : Type :=
| VInt (n : Z)
| VDecimal (hundredths : Z)
| VStr (s : string)
| VDatetime (t : Z).

(** Everything a program does to the outside, in order. *)
Inductive Event : Type :=
| EvSubprocess (cmd : list string)
| EvSleep (seconds : Q)
| EvConnect (host user password : string) (database : option string)
| EvExecute (stmt : Sql)
| EvCommit
| EvCursorClose
| EvConnectionClose
| EvWriteFile (path content : string)
| EvChmod (path : string) (mode : N)
| EvSetEnv (name value : string)
| EvSignal (signame : string)
| EvGetDataset (ref : string)
| EvCreateDataset (ref location : string)
| EvGetTable (ref : string)
| EvQueryCreateTable (dataset_ref ref : string).

(** Network and CLI calls, as opposed to local effects. *)
Definition is_remote_call (e : Event) : bool :=
  match e with
  | EvSubprocess _ | EvConnect _ _ _ _ | EvExecute _ | EvCommit
  | EvGetDataset _ | EvCreateDataset _ _ | EvGetTable _
  | EvQueryCreateTable _ _ => true
  | _ => false
  end.

Record World : Type :=
  { (* what has happened so far, oldest first *)
    trace : list Event;
    (* wall-clock time in seconds *)
    clock : Q;
    (* answers the programs do not control, next answer at index 0 *)
    latency : nat -> N;               (* nanoseconds each call takes on top *)
    secrets_bits : nat -> N;          (* the OS entropy source *)
    random_bits : nat -> N;           (* the [random] module's generator *)
    subprocess_replies : nat -> Completed;
    connect_replies : nat -> ConnectReply;
    sql_faults : nat -> option string;  (* an injected server error *)
    bq_faults : nat -> option exn;      (* an injected API error *)
    signals : nat -> bool;              (* SIGINT/SIGTERM delivered? *)
    (* the file system: conf.yml as parsed, and the other files *)
    conf_yml : gmap string (gmap string string);
    files : gmap string string;
    (* the MySQL server (database -> table -> id -> row) and session *)
    mysql : gmap string (gmap string (gmap Z Row));
    current_db : option string;
    cursor_rows : list (list SqlValue);
    (* BigQuery: fully qualified names of the datasets and tables *)
    bq_datasets : gset string;
    bq_tables : gset string;
    (* the module-level flag of update_mysql.py *)
    running : bool }.

Definition set_conf_yml (x : gmap string (gmap string string)) (w : World) : World :=
  {| trace := trace w; clock := clock w; latency := latency w;
     secrets_bits := secrets_bits w; random_bits := random_bits w;
     subprocess_replies := subprocess_replies w;
     connect_replies := connect_replies w; sql_faults := sql_faults w;
     bq_faults := bq_faults w; signals := signals w; conf_yml := x;
     files := files w; mysql := mysql w; current_db := current_db w;
     cursor_rows := cursor_rows w; bq_datasets := bq_datasets w;
     bq_tables := bq_tables w; running := running w |}.
Definition set_trace (x : list Event) (w : World) : World :=
  {| trace := x; clock := clock w; latency := latency w;
     secrets_bits := secrets_bits w; random_bits := random_bits w;
     subprocess_replies := subprocess_replies w;
     connect_replies := connect_replies w; sql_faults := sql_faults w;
     bq_faults := bq_faults w; signals := signals w; conf_yml := conf_yml w;
     files := files w; mysql := mysql w; current_db := current_db w;
     cursor_rows := cursor_rows w; bq_datasets := bq_datasets w;
     bq_tables := bq_tables w; running := running w |}.
Definition set_clock (x : Q) (w : World) : World :=
  {| trace := trace w; clock := x; latency := latency w;
     secrets_bits := secrets_bits w; random_bits := random_bits w;
     subprocess_replies := subprocess_replies w;
     connect_replies := connect_replies w; sql_faults := sql_faults w;
     bq_faults := bq_faults w; signals := signals w; conf_yml := conf_yml w;
     files := files w; mysql := mysql w; current_db := current_db w;
     cursor_rows := cursor_rows w; bq_datasets := bq_datasets w;
     bq_tables := bq_tables w; running := running w |}.
Definition set_latency (x : nat -> N) (w : World) : World :=
  {| trace := trace w; clock := clock w; latency := x;
     secrets_bits := secrets_bits w; random_bits := random_bits w;
     subprocess_replies := subprocess_replies w;
     connect_replies := connect_replies w; sql_faults := sql_faults w;
     bq_faults := bq_faults w; signals := signals w; conf_yml := conf_yml w;
     files := files w; mysql := mysql w; current_db := current_db w;
     cursor_rows := cursor_rows w; bq_datasets := bq_datasets w;
     bq_tables := bq_tables w; running := running w |}.
Definition set_secrets_bits (x : nat -> N) (w : World) : World :=
  {| trace := trace w; clock := clock w; latency := latency w;
     secrets_bits := x; random_bits := random_bits w;
     subprocess_replies := subprocess_replies w;
     connect_replies := connect_replies w; sql_faults := sql_faults w;
     bq_faults := bq_faults w; signals := signals w; conf_yml := conf_yml w;
     files := files w; mysql := mysql w; current_db := current_db w;
     cursor_rows := cursor_rows w; bq_datasets := bq_datasets w;
     bq_tables := bq_tables w; running := running w |}.
Definition set_random_bits (x : nat -> N) (w : World) : World :=
  {| trace := trace w; clock := clock w; latency := latency w;
     secrets_bits := secrets_bits w; random_bits := x;
     subprocess_replies := subprocess_replies w;
     connect_replies := connect_replies w; sql_faults := sql_faults w;
     bq_faults := bq_faults w; signals := signals w; conf_yml := conf_yml w;
     files := files w; mysql := mysql w; current_db := current_db w;
     cursor_rows := cursor_rows w; bq_datasets := bq_datasets w;
     bq_tables := bq_tables w; running := running w |}.
Definition set_subprocess_replies (x : nat -> Completed) (w : World) : World :=
  {| trace := trace w; clock := clock w; latency := latency w;
     secrets_bits := secrets_bits w; random_bits := random_bits w;
     subprocess_replies := x; connect_replies := connect_replies w;
     sql_faults := sql_faults w; bq_faults := bq_faults w;
     signals := signals w; conf_yml := conf_yml w; files := files w;
     mysql := mysql w; current_db := current_db w;
     cursor_rows := cursor_rows w; bq_datasets := bq_datasets w;
     bq_tables := bq_tables w; running := running w |}.
Definition set_connect_replies (x : nat -> ConnectReply) (w : World) : World :=
  {| trace := trace w; clock := clock w; latency := latency w;
     secrets_bits := secrets_bits w; random_bits := random_bits w;
     subprocess_replies := subprocess_replies w; connect_replies := x;
     sql_faults := sql_faults w; bq_faults := bq_faults w;
     signals := signals w; conf_yml := conf_yml w; files := files w;
     mysql := mysql w; current_db := current_db w;
     cursor_rows := cursor_rows w; bq_datasets := bq_datasets w;
     bq_tables := bq_tables w; running := running w |}.
Definition set_sql_faults (x : nat -> option string) (w : World) : World :=
  {| trace := trace w; clock := clock w; latency := latency w;
     secrets_bits := secrets_bits w; random_bits := random_bits w;
     subprocess_replies := subprocess_replies w;
     connect_replies := connect_replies w; sql_faults := x;
     bq_faults := bq_faults w; signals := signals w; conf_yml := conf_yml w;
     files := files w; mysql := mysql w; current_db := current_db w;
     cursor_rows := cursor_rows w; bq_datasets := bq_datasets w;
     bq_tables := bq_tables w; running := running w |}.
Definition set_bq_faults (x : nat -> option exn) (w : World) : World :=
  {| trace := trace w; clock := clock w; latency := latency w;
     secrets_bits := secrets_bits w; random_bits := random_bits w;
     subprocess_replies := subprocess_replies w;
     connect_replies := connect_replies w; sql_faults := sql_faults w;
     bq_faults := x; signals := signals w; conf_yml := conf_yml w;
     files := files w; mysql := mysql w; current_db := current_db w;
     cursor_rows := cursor_rows w; bq_datasets := bq_datasets w;
     bq_tables := bq_tables w; running := running w |}.
Definition set_signals (x : nat -> bool) (w : World) : World :=
  {| trace := trace w; clock := clock w; latency := latency w;
     secrets_bits := secrets_bits w; random_bits := random_bits w;
     subprocess_replies := subprocess_replies w;
     connect_replies := connect_replies w; sql_faults := sql_faults w;
     bq_faults := bq_faults w; signals := x; conf_yml := conf_yml w;
     files := files w; mysql := mysql w; current_db := current_db w;
     cursor_rows := cursor_rows w; bq_datasets := bq_datasets w;
     bq_tables := bq_tables w; running := running w |}.
Definition set_files (x : gmap string string) (w : World) : World :=
  {| trace := trace w; clock := clock w; latency := latency w;
     secrets_bits := secrets_bits w; random_bits := random_bits w;
     subprocess_replies := subprocess_replies w;
     connect_replies := connect_replies w; sql_faults := sql_faults w;
     bq_faults := bq_faults w; signals := signals w; conf_yml := conf_yml w;
     files := x; mysql := mysql w; current_db := current_db w;
     cursor_rows := cursor_rows w; bq_datasets := bq_datasets w;
     bq_tables := bq_tables w; running := running w |}.
Definition set_mysql (x : gmap string (gmap string (gmap Z Row))) (w : World) : World :=
  {| trace := trace w; clock := clock w; latency := latency w;
     secrets_bits := secrets_bits w; random_bits := random_bits w;
     subprocess_replies := subprocess_replies w;
     connect_replies := connect_replies w; sql_faults := sql_faults w;
     bq_faults := bq_faults w; signals := signals w; conf_yml := conf_yml w;
     files := files w; mysql := x; current_db := current_db w;
     cursor_rows := cursor_rows w; bq_datasets := bq_datasets w;
     bq_tables := bq_tables w; running := running w |}.
Definition set_current_db (x : option string) (w : World) : World :=
  {| trace := trace w; clock := clock w; latency := latency w;
     secrets_bits := secrets_bits w; random_bits := random_bits w;
     subprocess_replies := subprocess_replies w;
     connect_replies := connect_replies w; sql_faults := sql_faults w;
     bq_faults := bq_faults w; signals := signals w; conf_yml := conf_yml w;
     files := files w; mysql := mysql w; current_db := x;
     cursor_rows := cursor_rows w; bq_datasets := bq_datasets w;
     bq_tables := bq_tables w; running := running w |}.
Definition set_cursor_rows (x : list (list SqlValue)) (w : World) : World :=
  {| trace := trace w; clock := clock w; latency := latency w;
     secrets_bits := secrets_bits w; random_bits := random_bits w;
     subprocess_replies := subprocess_replies w;
     connect_replies := connect_replies w; sql_faults := sql_faults w;
     bq_faults := bq_faults w; signals := signals w; conf_yml := conf_yml w;
     files := files w; mysql := mysql w; current_db := current_db w;
     cursor_rows := x; bq_datasets := bq_datasets w;
     bq_tables := bq_tables w; running := running w |}.
Definition set_bq_datasets (x : gset string) (w : World) : World :=
  {| trace := trace w; clock := clock w; latency := latency w;
     secrets_bits := secrets_bits w; random_bits := random_bits w;
     subprocess_replies := subprocess_replies w;
     connect_replies := connect_replies w; sql_faults := sql_faults w;
     bq_faults := bq_faults w; signals := signals w; conf_yml := conf_yml w;
     files := files w; mysql := mysql w; current_db := current_db w;
     cursor_rows := cursor_rows w; bq_datasets := x;
     bq_tables := bq_tables w; running := running w |}.
Definition set_bq_tables (x : gset string) (w : World) : World :=
  {| trace := trace w; clock := clock w; latency := latency w;
     secrets_bits := secrets_bits w; random_bits := random_bits w;
     subprocess_replies := subprocess_replies w;
     connect_replies := connect_replies w; sql_faults := sql_faults w;
     bq_faults := bq_faults w; signals := signals w; conf_yml := conf_yml w;
     files := files w; mysql := mysql w; current_db := current_db w;
     cursor_rows := cursor_rows w; bq_datasets := bq_datasets w;
     bq_tables := x; running := running w |}.
Definition set_running (x : bool) (w : World) : World :=
  {| trace := trace w; clock := clock w; latency := latency w;
     secrets_bits := secrets_bits w; random_bits := random_bits w;
     subprocess_replies := subprocess_replies w;
     connect_replies := connect_replies w; sql_faults := sql_faults w;
     bq_faults := bq_faults w; signals := signals w; conf_yml := conf_yml w;
     files := files w; mysql := mysql w; current_db := current_db w;
     cursor_rows := cursor_rows w; bq_datasets := bq_datasets w;
     bq_tables := bq_tables w; running := x |}.

(** The rest of a stream after its first answer. *)
Definition rest {A : Type} (s : nat -> A) : nat -> A := fun n => s (S n).

(** ** The monad of Python code *)

Definition M (A : Type) : Type := World -> Res A * World.

Definition ret {A : Type} (a : A) : M A := fun w => (Ok a, w).

Definition bind {A B : Type} (m : M A) (k : A -> M B) : M B :=
  fun w =>
    match m w with
    | (Ok a, w') => k a w'
    | (Raise e, w') => (Raise e, w')
    | (OutOfFuel, w') => (OutOfFuel, w')
    end.

Definition raise {A : Type} (e : exn) : M A := fun w => (Raise e, w).

Definition out_of_fuel {A : Type} : M A := fun w => (OutOfFuel, w).

Declare Scope py_scope.
Delimit Scope py_scope with py.
Notation "x <- m ;; k" := (bind m (fun x => k))
  (at level 100, m at next level, right associativity) : py_scope.
Notation "m ;; k" := (bind m (fun _ => k))
  (at level 100, right associativity) : py_scope.
Local Open Scope py_scope.

(** [try: m  except <handled>: h]; [handler e = None] when no clause
    matches [e]. *)
Definition try_except {A : Type} (m : M A) (handler : exn -> option (M A)) : M A :=
  fun w =>
    match m w with
    | (Raise e, w') =>
        match handler e with
        | Some h => h w'
        | None => (Raise e, w')
        end
    | r => r
    end.

(** [try: m  finally: cleanup] *)
Definition try_finally {A : Type} (m : M A) (cleanup : M unit) : M A :=
  fun w =>
    match m w with
    | (Ok a, w') => (_ <- cleanup ;; ret a) w'
    | (Raise e, w') => (_ <- cleanup ;; raise e) w'
    | (OutOfFuel, w') => (OutOfFuel, w')
    end.

Definition get {A : Type} (f : World -> A) : M A := fun w => (Ok (f w), w).
Definition modify (f : World -> World) : M unit := fun w => (Ok tt, f w).

(** [for x in xs: body x] *)
Fixpoint for_each {A : Type} (xs : list A) (body : A -> M unit) : M unit :=
  match xs with
  | [] => ret tt
  | x :: xs' => body x ;; for_each xs' body
  end.

(** [range(lo, hi)] *)
Definition range (lo hi : Z) : list Z :=
  map (fun k => lo + Z.of_nat k) (seq 0 (Z.to_nat (hi - lo))).

Definition emit (e : Event) : M unit :=
  modify (fun w => set_trace (trace w ++ [e]) w).

(** Time passes while a call is out. *)
Definition elapse : M unit :=
  modify (fun w =>
    set_latency (rest (latency w))
      (set_clock (clock w + (Z.of_N (latency w O) # 1000000000))%Q w)).

(** [time.time()] *)
Definition time_time : M Q := get clock.

(** [time.sleep(d)]: at least [d] seconds go by. *)
Definition time_sleep (d : Q) : M unit :=
  emit (EvSleep d) ;;
  modify (fun w => set_clock (clock w + d)%Q w) ;;
  elapse.

(** ** Random sources *)

Definition next_secret : M N :=
  fun w => (Ok (secrets_bits w O), set_secrets_bits (rest (secrets_bits w)) w).

Definition next_random : M N :=
  fun w => (Ok (random_bits w O), set_random_bits (rest (random_bits w)) w).

(** [secrets.choice(seq)]: [seq[randbelow(len(seq))]]. *)
Definition secrets_choice (seq : string) : M ascii :=
  match String.length seq with
  | O => raise IndexError
  | S _ as n =>
      r <- next_secret ;;
      match String.get (N.to_nat (r mod N.of_nat n)) seq with
      | Some c => ret c
      | None => raise IndexError
      end
  end.

(** [random.randint(a, b)]: [a + randbelow(b - a + 1)]. *)
Definition random_randint (a b : Z) : M Z :=
  r <- next_random ;;
  ret (a + Z.of_N r mod (b - a + 1))%Z.

(** [random.random()]: a multiple of 2^-53 in [0, 1). *)
Definition random_random : M Q :=
  r <- next_random ;;
  ret (Qmake (Z.of_N (r mod 2 ^ 53)%N) (2 ^ 53)%positive).

(** [random.uniform(a, b)]: [a + (b - a) * random()], computed exactly. *)
Definition random_uniform (a b : Q) : M Q :=
  u <- random_random ;;
  ret (a + (b - a) * u)%Q.

(** [round(x, 2)], as a count of hundredths, ties to even; [x] is a
    rational here, the binary rounding of a float is not modelled. *)
Definition round2 (x : Q) : Z :=
  let y := (x * 100)%Q in
  let f := Qfloor y in
  let r := (y - inject_Z f)%Q in
  match (r ?= 1 # 2)%Q with
  | Lt => f
  | Gt => f + 1
  | Eq => if Z.even f then f else f + 1
  end.

(** ** Files *)

Definition password_file : string := "mysql.password".

(** [with open(path, "w") as f: f.write(content)] *)
Definition write_file (path content : string) : M unit :=
  emit (EvWriteFile path content) ;;
  modify (fun w => set_files (<[path := content]> (files w)) w).

(** [with open(path, "r") as f: f.read()] *)
Definition read_file (path : string) : M string :=
  fs <- get files ;;
  match fs !! path with
  | Some content => ret (pystr.universal_newlines content)
  | None => raise (FileNotFoundError path)
  end.

(** [os.path.exists(path)] *)
Definition path_exists (path : string) : M bool :=
  fs <- get files ;;
  ret (bool_decide (is_Some (fs !! path))).

(** [load_config()] of all three programs: the parsed [conf.yml]. *)
Definition load_config : M (gmap string (gmap string string)) := get conf_yml.

(** [config[section][key]] *)
Definition conf_get (config : gmap string (gmap string string))
    (section key : string) : M string :=
  match config !! section with
  | None => raise (KeyError section)
  | Some sec =>
      match sec !! key with
      | None => raise (KeyError key)
      | Some v => ret v
      end
  end.

(** The credential bootstrap every [main] starts with.  The path is used
    as [conf.yml] gives it: [os.path.expanduser] is not modelled. *)
Definition activate_credentials (config : gmap string (gmap string string)) : M unit :=
  sa_path <- conf_get config "gcp" "service_account_path" ;;
  present <- path_exists sa_path ;;
  if present then emit (EvSetEnv "GOOGLE_APPLICATION_CREDENTIALS" sa_path)
  else ret tt.

Definition os_chmod (path : string) (mode : N) : M unit :=
  emit (EvChmod path mode).

(** ** Subprocesses *)

(** [subprocess.run(cmd, capture_output=True, text=True)] *)
Definition subprocess_run (cmd : list string) : M Completed :=
  emit (EvSubprocess cmd) ;;
  elapse ;;
  fun w => (Ok (subprocess_replies w O),
            set_subprocess_replies (rest (subprocess_replies w)) w).

(** ** The MySQL server, seen through one connection and one cursor *)

Definition pop_connect_reply : M ConnectReply :=
  fun w => (Ok (connect_replies w O),
            set_connect_replies (rest (connect_replies w)) w).

Definition pop_sql_fault : M (option string) :=
  fun w => (Ok (sql_faults w O), set_sql_faults (rest (sql_faults w)) w).

(** [mysql.connector.connect(host=, user=, password=, [database=], ...)] *)
Definition mysql_connect (host user password : string)
    (database : option string) : M unit :=
  emit (EvConnect host user password database) ;;
  elapse ;;
  reply <- pop_connect_reply ;;
  match reply with
  | ConnectMySQLError msg => raise (MySQLError msg)
  | ConnectOtherError msg => raise (OtherException msg)
  | ConnectOk =>
      server <- get mysql ;;
      match database with
      | None => modify (fun w => set_cursor_rows [] (set_current_db None w))
      | Some db =>
          match server !! db with
          | Some _ =>
              modify (fun w => set_cursor_rows [] (set_current_db (Some db) w))
          | None => raise (MySQLError ("Unknown database '" ++ db ++ "'"))
          end
      end
  end.

(** The server's [NOW()] / [CURRENT_TIMESTAMP], in whole seconds. *)
Definition server_now : M Z := now <- get clock ;; ret (Qfloor now).

(** The tables of the selected database. *)
Definition selected_tables : M (string * gmap string (gmap Z Row)) :=
  cur <- get current_db ;;
  server <- get mysql ;;
  match cur with
  | None => raise (MySQLError "No database selected")
  | Some db =>
      match server !! db with
      | Some tables => ret (db, tables)
      | None => raise (MySQLError ("Unknown database '" ++ db ++ "'"))
      end
  end.

Definition selected_table (tbl : string) : M (string * gmap Z Row) :=
  sel <- selected_tables ;;
      let '(db, tables) := sel in
  match tables !! tbl with
  | Some rows => ret (db, rows)
  | None => raise (MySQLError ("Table '" ++ tbl ++ "' doesn't exist"))
  end.

Definition store_table (db tbl : string) (rows : gmap Z Row) : M unit :=
  modify (fun w =>
    set_mysql (<[db := <[tbl := rows]> (default ∅ (mysql w !! db))]> (mysql w)) w).

Definition row_values (idr : Z * Row) : list SqlValue :=
  [VInt idr.1; VStr (description idr.2); VDecimal (price idr.2);
   VDatetime (created_at idr.2); VDatetime (updated_at idr.2)].

(** What the server does with a statement, and the rows it answers. *)
Definition mysql_run (stmt : Sql) : M (list (list SqlValue)) :=
  match stmt with
  | CreateDatabaseIfNotExists db =>
      server <- get mysql ;;
      match server !! db with
      | Some _ => ret []
      | None => modify (fun w => set_mysql (<[db := ∅]> (mysql w)) w) ;; ret []
      end
  | UseDatabase db =>
      server <- get mysql ;;
      match server !! db with
      | Some _ => modify (set_current_db (Some db)) ;; ret []
      | None => raise (MySQLError ("Unknown database '" ++ db ++ "'"))
      end
  | CreateTableIfNotExists tbl =>
      sel <- selected_tables ;;
      let '(db, tables) := sel in
      match tables !! tbl with
      | Some _ => ret []
      | None => store_table db tbl ∅ ;; ret []
      end
  | SelectCount tbl =>
      sel <- selected_table tbl ;;
      let '(_, rows) := sel in
      ret [[VInt (Z.of_nat (size rows))]]
  | TruncateTable tbl =>
      sel <- selected_table tbl ;;
      let '(db, _) := sel in
      store_table db tbl ∅ ;; ret []
  | InsertItem tbl id desc hundredths =>
      sel <- selected_table tbl ;;
      let '(db, rows) := sel in
      now <- server_now ;;
      match rows !! id with
      | Some _ => raise (MySQLError "Duplicate entry for key 'PRIMARY'")
      | None =>
          store_table db tbl
            (<[id := {| description := desc; price := hundredths;
                        created_at := now; updated_at := now |}]> rows) ;;
          ret []
      end
  | SelectAll tbl =>
      sel <- selected_table tbl ;;
      let '(_, rows) := sel in
      ret (row_values <$> map_to_list rows)
  | SelectPriceDescription tbl id =>
      sel <- selected_table tbl ;;
      let '(_, rows) := sel in
      match rows !! id with
      | Some r => ret [[VDecimal (price r); VStr (description r)]]
      | None => ret []
      end
  | UpdatePriceNow tbl hundredths id =>
      sel <- selected_table tbl ;;
      let '(db, rows) := sel in
      now <- server_now ;;
      store_table db tbl
        (alter (fun r => {| description := description r; price := hundredths;
                            created_at := created_at r; updated_at := now |})
               id rows) ;;
      ret []
  end.

(** [cursor.execute(stmt)] *)
Definition cursor_execute (stmt : Sql) : M unit :=
  emit (EvExecute stmt) ;;
  elapse ;;
  fault <- pop_sql_fault ;;
  match fault with
  | Some msg => raise (MySQLError msg)
  | None =>
      rows <- mysql_run stmt ;;
      modify (set_cursor_rows rows)
  end.

(** [cursor.fetchone()] *)
Definition cursor_fetchone : M (option (list SqlValue)) :=
  rows <- get cursor_rows ;;
  match rows with
  | [] => ret None
  | r :: rows' => modify (set_cursor_rows rows') ;; ret (Some r)
  end.

(** [cursor.fetchall()] *)
Definition cursor_fetchall : M (list (list SqlValue)) :=
  rows <- get cursor_rows ;;
  modify (set_cursor_rows []) ;;
  ret rows.

(** [connection.cursor()]: the connector checks that the connection is
    still up and raises its error when it is not. *)
Definition connection_cursor : M unit :=
  fault <- pop_sql_fault ;;
  match fault with
  | Some msg => raise (MySQLError msg)
  | None => ret tt
  end.

Definition connection_commit : M unit := emit EvCommit ;; elapse.
Definition cursor_close : M unit := emit EvCursorClose.
Definition connection_close : M unit := emit EvConnectionClose.

(** ** Running a script: the [if __name__ == "__main__"] block

    [main()] runs inside [try: ... except Exception: sys.exit(1)]; a
    normal return ends the process with status 0, and [sys.exit(code)]
    from inside [main] with [code]. *)
Definition run_script (main : M unit) (w : World) : option Z * World :=
  match main w with
  | (Ok _, w') => (Some 0, w')
  | (Raise (SystemExit code), w') => (Some code, w')
  | (Raise _, w') => (Some 1, w')
  | (OutOfFuel, w') => (None, w')
  end.

(** ** src/mysql/init_mysql.py *)

Module init_mysql.

Definition symbols : string := "!@#$%^&*()_+-=".

Definition alphabet : string :=
  pystr.ascii_letters ++ pystr.digits ++ symbols.

(** [''.join(secrets.choice(seq) for _ in range(n))] *)
Fixpoint join_choices (n : nat) (seq : string) : M string :=
  match n with
  | O => ret EmptyString
  | S n' =>
      c <- secrets_choice seq ;;
      s <- join_choices n' seq ;;
      ret (String c s)
  end.

Definition generate_password (length : nat) : M string :=
  password <- join_choices length alphabet ;;
  c1 <- secrets_choice pystr.ascii_uppercase ;;
  c2 <- secrets_choice pystr.ascii_lowercase ;;
  c3 <- secrets_choice pystr.digits ;;
  c4 <- secrets_choice symbols ;;
  ret (String c1 (String c2 (String c3 (String c4 (pystr.drop 4 password))))).

(** The default of the [length] parameter. *)
Definition default_length : nat := 24.

Definition run_gcloud (args : list string) (check : bool) : M Completed :=
  result <- subprocess_run ("gcloud" :: args) ;;
  if check && negb (returncode result =? 0)
  then raise (RuntimeError ("gcloud command failed: " ++ stderr result))
  else ret result.

Definition check_instance_exists (project_id instance_name : string) : M bool :=
  result <- run_gcloud ["sql"; "instances"; "describe"; instance_name;
                        "--project"; project_id;
                        "--format"; "value(name)"] false ;;
  ret (returncode result =? 0).

(** The [while] loop of [wait_for_instance_ready]; one unit of fuel per
    test of the loop condition. *)
Fixpoint poll_ready (fuel : nat) (project_id instance_name : string)
    (start_time max_wait : Q) : M bool :=
  match fuel with
  | O => out_of_fuel
  | S fuel' =>
      now <- time_time ;;
      if negb (Qle_bool max_wait (now - start_time)) then
        result <- run_gcloud ["sql"; "instances"; "describe"; instance_name;
                              "--project"; project_id;
                              "--format"; "value(state)"] false ;;
        let state := pystr.strip (stdout result) in
        if String.eqb state "RUNNABLE" then ret true
        else time_sleep 10 ;;
             poll_ready fuel' project_id instance_name start_time max_wait
      else raise (TimeoutError "Instance did not become ready in time")
  end.

(** More tests than a wait of [max_wait] seconds can hold: every round
    but the last sleeps 10 seconds. *)
Definition poll_fuel (max_wait : Q) : nat :=
  S (S (Z.to_nat (Qceiling (max_wait / 10)))).

Definition wait_for_instance_ready (project_id instance_name : string)
    (max_wait : Q) : M bool :=
  start_time <- time_time ;;
  poll_ready (poll_fuel max_wait) project_id instance_name start_time max_wait.

(** The default of the [max_wait] parameter. *)
Definition default_max_wait : Q := 600.

Definition get_instance_ip (project_id instance_name : string) : M string :=
  result <- run_gcloud ["sql"; "instances"; "describe"; instance_name;
                        "--project"; project_id;
                        "--format"; "value(ipAddresses[0].ipAddress)"] true ;;
  ret (pystr.strip (stdout result)).

Definition create_mysql_instance (config : gmap string (gmap string string))
    (password : string) : M string :=
  project_id <- conf_get config "gcp" "project_id" ;;
  region <- conf_get config "gcp" "region" ;;
  instance_name <- conf_get config "mysql" "instance_name" ;;
  tier <- conf_get config "mysql" "tier" ;;
  version <- conf_get config "mysql" "version" ;;
  exists_ <- check_instance_exists project_id instance_name ;;
  (if exists_ : bool then
     run_gcloud ["sql"; "users"; "set-password"; "root";
                 "--host"; "%";
                 "--instance"; instance_name;
                 "--project"; project_id;
                 "--password"; password] true ;;
     ret tt
   else
     run_gcloud ["sql"; "instances"; "create"; instance_name;
                 "--project"; project_id;
                 "--region"; region;
                 "--database-version"; version;
                 "--tier"; tier;
                 "--root-password"; password;
                 "--edition"; "enterprise";
                 "--availability-type"; "zonal";
                 "--storage-type"; "HDD";
                 "--storage-size"; "10";
                 "--no-assign-ip";
                 "--network";
                 "projects/" ++ project_id ++ "/global/networks/default"] true ;;
     wait_for_instance_ready project_id instance_name default_max_wait ;;
     ret tt) ;;
  run_gcloud ["sql"; "instances"; "patch"; instance_name;
              "--project"; project_id;
              "--assign-ip";
              "--quiet"] true ;;
  time_sleep 5 ;;
  run_gcloud ["sql"; "instances"; "patch"; instance_name;
              "--project"; project_id;
              "--authorized-networks"; "0.0.0.0/0";
              "--quiet"] true ;;
  wait_for_instance_ready project_id instance_name default_max_wait ;;
  get_instance_ip project_id instance_name.

Definition max_retries : Z := 10.
Definition retry_delay : Q := 10.

(** The [for attempt in range(max_retries)] loop that connects; falling
    out of it without [break] leaves [connection] unbound. *)
Fixpoint connect_with_retries (attempts : list Z)
    (host user password : string) : M unit :=
  match attempts with
  | [] => raise (OtherException "UnboundLocalError: connection")
  | attempt :: attempts' =>
      try_except (mysql_connect host user password None)
        (fun e =>
           match e with
           | MySQLError _ =>
               Some (if attempt <? max_retries - 1
                     then time_sleep retry_delay ;;
                          connect_with_retries attempts' host user password
                     else raise e)
           | _ => None
           end)
  end.

Definition descriptions : list string :=
  ["Wireless Mouse"; "Mechanical Keyboard"; "USB-C Hub";
   "Laptop Stand"; "Webcam HD"; "Noise-Canceling Headphones";
   "Portable SSD"; "Monitor Light Bar"; "Ergonomic Chair";
   "Standing Desk Mat"].

(** The body of [for i in range(1, 11)]. *)
Definition insert_sample (table_name : string) (i : Z) : M unit :=
  x <- random_uniform 10 500 ;;
  let price := round2 x in
  match descriptions !! Z.to_nat (i - 1) with
  | None => raise IndexError
  | Some desc => cursor_execute (InsertItem table_name i desc price)
  end.

(** The [try] block of [create_database_and_table]. *)
Definition seed (db_name table_name : string) : M unit :=
  cursor_execute (CreateDatabaseIfNotExists db_name) ;;
  cursor_execute (UseDatabase db_name) ;;
  cursor_execute (CreateTableIfNotExists table_name) ;;
  cursor_execute (SelectCount table_name) ;;
  first <- cursor_fetchone ;;
  match first with
  | Some (VInt count :: _) =>
      (if 0 <? count
       then cursor_execute (TruncateTable table_name)
       else ret tt) ;;
      for_each (range 1 11) (insert_sample table_name) ;;
      connection_commit ;;
      cursor_execute (SelectAll table_name) ;;
      cursor_fetchall ;;
      ret tt
  | _ => raise (OtherException "TypeError")
  end.

Definition create_database_and_table (host user password : string)
    (config : gmap string (gmap string string)) : M unit :=
  db_name <- conf_get config "mysql" "db_name" ;;
  table_name <- conf_get config "mysql" "table_name" ;;
  connect_with_retries (range 0 max_retries) host user password ;;
  connection_cursor ;;
  try_finally (seed db_name table_name)
    (cursor_close ;; connection_close).

Definition main : M unit :=
  config <- load_config ;;
  activate_credentials config ;;
  project_id <- conf_get config "gcp" "project_id" ;;
  run_gcloud ["config"; "set"; "project"; project_id] true ;;
  password <- generate_password default_length ;;
  write_file password_file password ;;
  os_chmod password_file 384 ;;
  host <- create_mysql_instance config password ;;
  user <- conf_get config "mysql" "root_user" ;;
  create_database_and_table host user password config ;;
  conf_get config "mysql" "instance_name" ;;
  conf_get config "mysql" "db_name" ;;
  conf_get config "mysql" "table_name" ;;
  ret tt.

End init_mysql.

(** ** src/mysql/update_mysql.py *)

Module update_mysql.

(** [signal_handler]: what SIGINT and SIGTERM run once installed. *)
Definition signal_handler : M unit := modify (set_running false).

(** Signals that arrived since the last window are handled now.  The
    handler only clears [running], which the program reads at the loop
    test alone, so one window per round of the loop loses nothing.
    Signals before the handlers are installed are not modelled. *)
Definition signal_window : M unit :=
  delivered <- (fun w => (Ok (signals w O), set_signals (rest (signals w)) w)) ;;
  if delivered : bool then signal_handler else ret tt.

Definition load_password : M string :=
  present <- path_exists password_file ;;
  if negb present
  then raise (FileNotFoundError
                ("Password file not found: " ++ password_file))
  else
    content <- read_file password_file ;;
    ret (pystr.strip content).

Definition get_instance_ip (project_id instance_name : string) : M string :=
  result <- subprocess_run ["gcloud"; "sql"; "instances"; "describe";
                            instance_name;
                            "--project"; project_id;
                            "--format"; "value(ipAddresses[0].ipAddress)"] ;;
  if negb (returncode result =? 0)
  then raise (RuntimeError ("Failed to get instance IP: " ++ stderr result))
  else ret (pystr.strip (stdout result)).

(** The dictionary [update_random_record] returns; prices in hundredths. *)
Record Update : Type :=
  { id : Z; item : string; old_price : Z; new_price : Z; timestamp : Q }.

Definition update_random_record (table_name : string) : M (option Update) :=
  record_id <- random_randint 1 10 ;;
  cursor_execute (SelectPriceDescription table_name record_id) ;;
  result <- cursor_fetchone ;;
  match result with
  | None | Some [] => ret None
  | Some [VDecimal old; VStr desc] =>
      x <- random_uniform 10 500 ;;
      let new := round2 x in
      cursor_execute (UpdatePriceNow table_name new record_id) ;;
      now <- time_time ;;
      ret (Some {| id := record_id; item := desc; old_price := old;
                   new_price := new; timestamp := now |})
  | Some _ => raise (OtherException "TypeError")
  end.

(** The [while running] loop; one unit of fuel per test of [running].
    Returns [update_count]. *)
Fixpoint mutation_loop (fuel : nat) (table_name : string)
    (update_count : Z) : M Z :=
  match fuel with
  | O => out_of_fuel
  | S fuel' =>
      go <- get running ;;
      if go : bool then
        result <- update_random_record table_name ;;
        let update_count :=
          match result with
          | Some _ => update_count + 1
          | None => update_count
          end in
        wait_time <- random_uniform 1 3 ;;
        time_sleep wait_time ;;
        signal_window ;;
        mutation_loop fuel' table_name update_count
      else ret update_count
  end.

(** [main] up to its [try]: handlers, settings, endpoint, password and
    connection.  Returns [table_name].  Taking the cursor from the fresh
    connection is taken to succeed here. *)
Definition main_setup : M string :=
  emit (EvSignal "SIGINT") ;;
  emit (EvSignal "SIGTERM") ;;
  config <- load_config ;;
  activate_credentials config ;;
  project_id <- conf_get config "gcp" "project_id" ;;
  instance_name <- conf_get config "mysql" "instance_name" ;;
  host <- get_instance_ip project_id instance_name ;;
  password <- load_password ;;
  db_name <- conf_get config "mysql" "db_name" ;;
  table_name <- conf_get config "mysql" "table_name" ;;
  user <- conf_get config "mysql" "root_user" ;;
  mysql_connect host user password (Some db_name) ;;
  signal_window ;;
  ret table_name.

(** The [try: ... except MySQLError: ... finally: ...] of [main]. *)
Definition main_updates (fuel : nat) (table_name : string) : M unit :=
  try_finally
    (try_except (mutation_loop fuel table_name 0 ;; ret tt)
       (fun e =>
          match e with
          | MySQLError _ => Some (ret tt)
          | _ => None
          end))
    (cursor_close ;; connection_close).

Definition main (fuel : nat) : M unit :=
  table_name <- main_setup ;;
  main_updates fuel table_name.

End update_mysql.

(** ** src/bigquery/init_bq.py *)

Definition pop_bq_fault : M (option exn) :=
  fun w => (Ok (bq_faults w O), set_bq_faults (rest (bq_faults w)) w).

(** One call of the BigQuery client: the API may fail on its own,
    otherwise the service answers from its state. *)
Definition bq_call {A : Type} (e : Event) (answer : M A) : M A :=
  emit e ;;
  elapse ;;
  fault <- pop_bq_fault ;;
  match fault with
  | Some err => raise err
  | None => answer
  end.

(** [client.get_dataset(ref)] *)
Definition client_get_dataset (ref : string) : M unit :=
  bq_call (EvGetDataset ref)
    (ds <- get bq_datasets ;;
     if decide (ref ∈ ds) then ret tt
     else raise (NotFound ("Not found: Dataset " ++ ref))).

(** [client.create_dataset(dataset, timeout=30)] *)
Definition client_create_dataset (ref location : string) : M unit :=
  bq_call (EvCreateDataset ref location)
    (ds <- get bq_datasets ;;
     if decide (ref ∈ ds)
     then raise (Conflict ("Already Exists: Dataset " ++ ref))
     else modify (fun w => set_bq_datasets ({[ref]} ∪ bq_datasets w) w)).

(** [client.get_table(ref)] *)
Definition client_get_table (ref : string) : M unit :=
  bq_call (EvGetTable ref)
    (ts <- get bq_tables ;;
     if decide (ref ∈ ts) then ret tt
     else raise (NotFound ("Not found: Table " ++ ref))).

(** [client.query(ddl).result()] for the [CREATE TABLE] statement. *)
Definition client_query_create_table (dataset_ref ref : string) : M unit :=
  bq_call (EvQueryCreateTable dataset_ref ref)
    (ds <- get bq_datasets ;;
     ts <- get bq_tables ;;
     if decide (dataset_ref ∈ ds) then
       if decide (ref ∈ ts)
       then raise (Conflict ("Already Exists: Table " ++ ref))
       else modify (fun w => set_bq_tables ({[ref]} ∪ bq_tables w) w)
     else raise (NotFound ("Not found: Dataset " ++ dataset_ref))).

Module init_bq.

Definition create_dataset_if_not_exists
    (project_id dataset_id location : string) : M bool :=
  let dataset_ref := project_id ++ "." ++ dataset_id in
  try_except (client_get_dataset dataset_ref ;; ret true)
    (fun e =>
       match e with
       | NotFound _ =>
           Some (try_except
                   (client_create_dataset dataset_ref location ;; ret true)
                   (fun e' =>
                      match e' with
                      | Conflict _ => Some (ret true)
                      | _ => None
                      end))
       | _ => None
       end).

Definition create_table_if_not_exists
    (project_id dataset_id table_id : string) : M bool :=
  let table_ref := project_id ++ "." ++ dataset_id ++ "." ++ table_id in
  try_except (client_get_table table_ref ;; ret true)
    (fun e =>
       match e with
       | NotFound _ =>
           Some (try_except
                   (client_query_create_table
                      (project_id ++ "." ++ dataset_id) table_ref ;;
                    ret true)
                   (fun e' =>
                      if is_Exception e' then
                        Some (if pystr.contains "Already Exists" (exn_str e')
                              then ret true
                              else raise e')
                      else None))
       | _ => None
       end).

Definition verify_table (project_id dataset_id table_id : string) : M bool :=
  let table_ref := project_id ++ "." ++ dataset_id ++ "." ++ table_id in
  try_except (client_get_table table_ref ;; ret true)
    (fun e =>
       match e with
       | NotFound _ => Some (ret false)
       | _ => None
       end).

(** The construction of the client, [bigquery.Client(project=...)],
    is taken to succeed; the API calls are those of the three functions
    above. *)
Definition main : M unit :=
  config <- load_config ;;
  activate_credentials config ;;
  project_id <- conf_get config "gcp" "project_id" ;;
  dataset_id <- conf_get config "bigquery" "dataset" ;;
  table_id <- conf_get config "bigquery" "table_name" ;;
  location <- conf_get config "bigquery" "location" ;;
  created <- create_dataset_if_not_exists project_id dataset_id location ;;
  (if negb created then raise (SystemExit 1) else ret tt) ;;
  created <- create_table_if_not_exists project_id dataset_id table_id ;;
  (if negb created then raise (SystemExit 1) else ret tt) ;;
  verify_table project_id dataset_id table_id ;;
  ret tt.

End init_bq.

(** ** Vocabulary of the specifications *)

(** The describe command of the readiness poll. *)
Definition describe_state_cmd (project_id instance_name : string) : list string :=
  ["gcloud"; "sql"; "instances"; "describe"; instance_name;
   "--project"; project_id; "--format"; "value(state)"].

(** The state the [k]-th next subprocess will report. *)
Definition observed_state (w : World) (k : nat) : string :=
  pystr.strip (stdout (subprocess_replies w k)).

(** The world after one round of the readiness poll that did not see
    RUNNABLE: a describe and a sleep of 10 seconds. *)
Definition poll_round (project_id instance_name : string) (w : World) : World :=
  snd ((init_mysql.run_gcloud
          ["sql"; "instances"; "describe"; instance_name;
           "--project"; project_id; "--format"; "value(state)"] false ;;
        time_sleep 10) w).

Fixpoint after_rounds (project_id instance_name : string) (n : nat)
    (w : World) : World :=
  match n with
  | O => w
  | S n' => after_rounds project_id instance_name n'
              (poll_round project_id instance_name w)
  end.

(** What [n] such rounds leave in the trace. *)
Fixpoint rounds_trace (project_id instance_name : string) (n : nat) : list Event :=
  match n with
  | O => []
  | S n' => EvSubprocess (describe_state_cmd project_id instance_name)
            :: EvSleep 10
            :: rounds_trace project_id instance_name n'
  end.

(** No server error is injected from here on. *)
Definition no_sql_faults (w : World) : Prop :=
  forall k, sql_faults w k = None.

(** The rows of a table, if the database and the table exist. *)
Definition table_rows (w : World) (db tbl : string) : option (gmap Z Row) :=
  tables ← mysql w !! db; tables !! tbl.

(** The statement the seeding sends for id [i] at price [p] (in
    hundredths): the description is the [i-1]-th of the fixed list. *)
Definition insert_event (tbl : string) (i p : Z) : Event :=
  EvExecute
    (InsertItem tbl i
       (default "" (init_mysql.descriptions !! Z.to_nat (i - 1))) p).

(** The row [r] carries description [d] and price [p]. *)
Definition row_has (d : string) (p : Z) (r : Row) : Prop :=
  description r = d /\ price r = p.

(** What [n] failed connection attempts, each followed by a sleep of
    10 seconds, leave in the trace. *)
Fixpoint retries_trace (host user password : string) (n : nat) : list Event :=
  match n with
  | O => []
  | S n' => EvConnect host user password None
            :: EvSleep 10
            :: retries_trace host user password n'
  end.

(** A world in which nothing has happened yet and nothing goes wrong:
    a complete [conf.yml], an empty server, no latency, no faults, no
    signals, every subprocess reporting RUNNABLE with status 0. *)
Definition quiet_world : World :=
  {| trace := [];
     clock := 0;
     latency := fun _ => 0%N;
     secrets_bits := fun _ => 0%N;
     random_bits := fun _ => 0%N;
     subprocess_replies :=
       fun _ => {| returncode := 0; stdout := "RUNNABLE"; stderr := "" |};
     connect_replies := fun _ => ConnectOk;
     sql_faults := fun _ => None;
     bq_faults := fun _ => None;
     signals := fun _ => false;
     conf_yml :=
       {[ "gcp" := {[ "project_id" := "demo-project";
                      "region" := "us-central1";
                      "service_account_path" := "~/sa.json" ]};
          "bigquery" := {[ "dataset" := "cdc_demo";
                           "table_name" := "items";
                           "location" := "US" ]};
          "mysql" := {[ "instance_name" := "cdc-mysql";
                        "tier" := "db-f1-micro";
                        "version" := "MYSQL_8_0";
                        "db_name" := "shop";
                        "table_name" := "items";
                        "root_user" := "root" ]} ]};
     files := ∅;
     mysql := ∅;
     current_db := None;
     cursor_rows := [];
     bq_datasets := ∅;
     bq_tables := ∅;
     running := true |}.

(** [quiet_world] with a server that refuses the first two connection
    attempts, as an instance still starting up does. *)
Definition cold_start_world : World :=
  set_connect_replies
    (fun k => if (k <? 2)%nat
              then ConnectMySQLError "Can't connect to MySQL server"
              else ConnectOk)
    quiet_world.

(** [quiet_world] with the demo dataset and table already in BigQuery. *)
Definition provisioned_warehouse : World :=
  set_bq_tables {[ "demo-project.cdc_demo.items" ]}
    (set_bq_datasets {[ "demo-project.cdc_demo" ]} quiet_world).

(** [provisioned_warehouse] seen through a lookup that misses the table:
    another process created it in the meantime. *)
Definition raced_warehouse : World :=
  set_bq_faults
    (fun k => if (k =? 0)%nat
              then Some (NotFound "Not found: Table demo-project.cdc_demo.items")
              else None)
    provisioned_warehouse.

(** A warehouse with the demo dataset and no table, whose creation query
    fails with a conflict that is worded differently from the service's
    own "Already Exists". *)
Definition table_conflict_world : World :=
  set_bq_faults
    (fun k => if (k =? 1)%nat
              then Some (Conflict "409 already exists: table items")
              else None)
    (set_bq_datasets {[ "demo-project.cdc_demo" ]} quiet_world).

(** The same warehouse, whose creation query is refused for lack of
    permission with a text that happens to hold "Already Exists". *)
Definition table_denied_world : World :=
  set_bq_faults
    (fun k => if (k =? 1)%nat
              then Some (OtherException
                           "403 Access Denied: job Already Exists check failed")
              else None)
    (set_bq_datasets {[ "demo-project.cdc_demo" ]} quiet_world).

(** [quiet_world] with a connection on the demo database, whose items
    table holds one row, the one with id 1. *)
Definition seeded_world : World :=
  set_current_db (Some "shop")
    (set_mysql
       {[ "shop" :=
            {[ "items" :=
                 {[ 1 := {| description := "Wireless Mouse"; price := 2599;
                            created_at := 0; updated_at := 0 |} ]} ]} ]}
       quiet_world).

(** A mutation step starts with the select of the chosen row. *)
Definition is_mutation_step (e : Event) : bool :=
  match e with
  | EvExecute (SelectPriceDescription _ _) => true
  | _ => false
  end.

(** How many mutation steps a stretch of the trace holds. *)
Definition mutation_steps (evs : list Event) : nat :=
  length (List.filter is_mutation_step evs).

(** The world after the pause that ends a round of the mutation loop:
    the random sleep and the signals that arrived meanwhile. *)
Definition after_pause (w : World) : World :=
  snd ((wait_time <- random_uniform 1 3 ;;
        time_sleep wait_time ;;
        update_mysql.signal_window) w).

(** [seeded_world] with the password file in place and a server that
    answers every statement with an error. *)
Definition server_gone_world : World :=
  set_sql_faults (fun _ => Some "MySQL server has gone away")
    (set_files {[ password_file := "Aa0!Aa0!Aa0!Aa0!Aa0!Aa0!" ]} seeded_world).

(** [config[section][key]] raises [KeyError]: the section or the key in
    it is absent. *)
Definition missing (config : gmap string (gmap string string))
    (section_key : string * string) : Prop :=
  (sec ← config !! section_key.1; sec !! section_key.2) = None.

(** The settings each program reads. *)
Definition init_bq_keys : list (string * string) :=
  [("gcp", "service_account_path"); ("gcp", "project_id");
   ("bigquery", "dataset"); ("bigquery", "table_name");
   ("bigquery", "location")].





Definition any_event (e : Event) : bool := true.
Definition local_event (e : Event) : bool := negb (is_remote_call e).

(** From [w] to [w'] only events that [P] admits were added. *)
Definition added_events (P : Event -> bool) (w w' : World) : Prop :=
  exists evs, trace w' = (trace w ++ evs)%list /\ forallb P evs = true.

(** [m] always comes back, with a value or an [Exception], and adds only
    events that [P] admits. *)
Definition runs_within {A : Type} (P : Event -> bool) (m : M A) : Prop :=
  forall w,
    added_events P w (snd (m w))
    /\ match fst (m w) with
       | Ok _ => True
       | Raise e => is_Exception e = true
       | OutOfFuel => False
       end.

(** Started in [w], [m] raises an [Exception], and adds only events
    that [P] admits. *)
Definition fails_at {A : Type} (P : Event -> bool) (m : M A) (w : World) : Prop :=
  added_events P w (snd (m w))
  /\ exists e, fst (m w) = Raise e /\ is_Exception e = true.

Definition fails_within {A : Type} (P : Event -> bool) (m : M A) : Prop :=
  forall w, fails_at P m w.


(** [r'] is [r] up to price and update time. *)
Definition row_kept (r r' : Row) : Prop :=
  description r' = description r /\ created_at r' = created_at r.

(** The same ids, each row kept. *)
Definition rows_kept (rows rows' : gmap Z Row) : Prop :=
  forall i, option_Forall2 row_kept (rows !! i) (rows' !! i).

(** The same tables, each with its rows kept. *)
Definition tables_kept (ts ts' : gmap string (gmap Z Row)) : Prop :=
  forall t, option_Forall2 rows_kept (ts !! t) (ts' !! t).

(** The same databases, each with its tables kept. *)
Definition server_kept (m m' : gmap string (gmap string (gmap Z Row))) : Prop :=
  forall db, option_Forall2 tables_kept (m !! db) (m' !! db).

(** [m] leaves the server with the databases, tables and rows it found,
    up to prices and update times. *)
Definition keeps_server {A : Type} (m : M A) : Prop :=
  forall w, server_kept (mysql w) (mysql (snd (m w))).

(** Events other than the release of cursor and connection. *)
Definition not_release (e : Event) : bool :=
  match e with
  | EvCursorClose | EvConnectionClose => false
  | _ => true
  end.

(** Events other than talking to the MySQL server. *)
Definition not_database (e : Event) : bool :=
  match e with
  | EvConnect _ _ _ _ | EvExecute _ | EvCommit => false
  | _ => true
  end.

(** [m] writes no file. *)
Definition keeps_files {A : Type} (m : M A) : Prop :=
  forall w, files (snd (m w)) = files w.

(** A gcloud call that creates a Cloud SQL instance. *)
Definition creates_instance (e : Event) : bool :=
  match e with
  | EvSubprocess cmd =>
      bool_decide (take 4 cmd = ["gcloud"; "sql"; "instances"; "create"])
  | _ => false
  end.

Definition no_instance_create (e : Event) : bool := negb (creates_instance e).

(** Every price on the server lies between [lo] and [hi] hundredths. *)
Definition prices_within (lo hi : Z)
    (m : gmap string (gmap string (gmap Z Row))) : Prop :=
  forall db tables t rows i r,
    m !! db = Some tables -> tables !! t = Some rows -> rows !! i = Some r ->
    lo <= price r <= hi.

(** The prices of the catalogue: 10.00 to 500.00. *)
Definition catalogue_prices (w : World) : Prop :=
  prices_within 1000 50000 (mysql w).

(** [m] leaves a server whose prices are catalogue prices that way. *)
Definition keeps_prices {A : Type} (m : M A) : Prop :=
  forall w, catalogue_prices w -> catalogue_prices (snd (m w)).

(** The price a statement writes, if it writes one, is a catalogue price. *)
Definition priced_in_range (stmt : Sql) : Prop :=
  match stmt with
  | InsertItem _ _ _ p | UpdatePriceNow _ p _ => 1000 <= p <= 50000
  | _ => True
  end.

(** The two gcloud commands that carry a password. *)
Definition sets_password (cmd : list string) : bool :=
  bool_decide (take 4 cmd = ["gcloud"; "sql"; "users"; "set-password"]).

Definition creates_with_password (cmd : list string) : bool :=
  bool_decide (take 4 cmd = ["gcloud"; "sql"; "instances"; "create"]).

(** An event that carries no password and touches no file. *)
Definition password_free (e : Event) : bool :=
  match e with
  | EvConnect _ _ _ _ | EvWriteFile _ _ | EvChmod _ _ => false
  | EvSubprocess cmd =>
      negb (sets_password cmd) && negb (creates_with_password cmd)
  | _ => true
  end.

(** An event that touches no file and, if it carries a password,
    carries [pw]: as the value of [--password] or [--root-password] of
    the two gcloud commands, or as the password of a connection. *)
Definition uses_password (pw : string) (e : Event) : bool :=
  match e with
  | EvConnect _ _ password _ => bool_decide (password = pw)
  | EvWriteFile _ _ | EvChmod _ _ => false
  | EvSubprocess cmd =>
      if sets_password cmd
      then bool_decide (cmd !! 11%nat = Some "--password"
                        /\ cmd !! 12%nat = Some pw)
      else if creates_with_password cmd
      then bool_decide (cmd !! 13%nat = Some "--root-password"
                        /\ cmd !! 14%nat = Some pw)
      else true
  | _ => true
  end.

(** From [w] to [w'], the first event that has to do with a password
    saves a 24-character password to the password file, the next one
    restricts the file to its owner, and what follows uses that
    password. *)
Definition password_first (w w' : World) : Prop :=
  exists pre post,
    trace w' = (trace w ++ pre ++ post)%list
    /\ forallb password_free pre = true
    /\ (post = []
        \/ exists pw rest,
             String.length pw = 24%nat
             /\ post = EvWriteFile password_file pw
                       :: EvChmod password_file 384 :: rest
             /\ forallb (uses_password pw) rest = true).

(** Events other than a connection attempt. *)
Definition no_connect (e : Event) : bool :=
  match e with
  | EvConnect _ _ _ _ => false
  | _ => true
  end.

(** Whatever way [m] ends, also when the model's fuel runs out, it adds
    only events that [P] admits. *)
Definition emits {A : Type} (P : Event -> bool) (m : M A) : Prop :=
  forall w, added_events P w (snd (m w)).


(** * Theorems *)

(** ** Strings *)

Section StringFacts.

Lemma mem_app c a b : pystr.mem c (a ++ b) = pystr.mem c a || pystr.mem c b.
Proof.
  induction a as [|d a IH]; simpl; [reflexivity|].
  destruct (Ascii.eqb c d); [reflexivity | exact IH].
Qed.

Lemma get_mem s : forall i, (i < String.length s)%nat ->
  exists c, String.get i s = Some c /\ pystr.mem c s = true.
Proof.
  induction s as [|d s IH]; intros i Hi; simpl in *; [lia|].
  destruct i as [|i].
  - exists d. split; [reflexivity|]. now rewrite Ascii.eqb_refl.
  - destruct (IH i) as (c & Hg & Hm); [lia|].
    exists c. split; [exact Hg|]. rewrite Hm. now destruct (Ascii.eqb c d).
Qed.

Lemma all_in_drop alphabet n : forall s,
  pystr.all_in alphabet s = true -> pystr.all_in alphabet (pystr.drop n s) = true.
Proof.
  induction n as [|n IH]; intros [|c s] H; simpl in *; try done.
  apply andb_prop in H as [_ H]. now apply IH.
Qed.

Lemma length_drop n : forall s,
  String.length (pystr.drop n s) = (String.length s - n)%nat.
Proof.
  induction n as [|n IH]; intros [|c s]; simpl; try done.
Qed.

Lemma all_in_weaken a b s :
  (forall c, pystr.mem c a = true -> pystr.mem c b = true) ->
  pystr.all_in a s = true -> pystr.all_in b s = true.
Proof.
  intros Hab. induction s as [|c s IH]; simpl; [done|].
  intros H. apply andb_prop in H as [H1 H2].
  rewrite (Hab _ H1), (IH H2). reflexivity.
Qed.

End StringFacts.

(** ** The password generator *)

Section Password.
Import init_mysql.

Lemma secrets_choice_ok seq w :
  seq <> EmptyString ->
  exists c, secrets_choice seq w
            = (Ok c, set_secrets_bits (rest (secrets_bits w)) w)
            /\ pystr.mem c seq = true.
Proof.
  intros Hne. unfold secrets_choice.
  destruct (String.length seq) as [|n] eqn:Hlen.
  { destruct seq; [done | discriminate]. }
  destruct (get_mem seq (N.to_nat (secrets_bits w O mod N.of_nat (S n))))
    as (c & Hg & Hm).
  { rewrite Hlen.
    pose proof (N.mod_upper_bound (secrets_bits w O) (N.of_nat (S n))). lia. }
  exists c. split; [|exact Hm].
  unfold bind, next_secret. now rewrite Hg.
Qed.

Lemma join_choices_ok seq n :
  seq <> EmptyString ->
  forall w, exists s w',
    join_choices n seq w = (Ok s, w')
    /\ String.length s = n /\ pystr.all_in seq s = true.
Proof.
  intros Hne. induction n as [|n IH]; intros w; simpl.
  - by exists EmptyString, w.
  - destruct (secrets_choice_ok seq w Hne) as (c & Hc & Hm).
    destruct (IH (set_secrets_bits (rest (secrets_bits w)) w))
      as (s & w' & Hs & Hl & Ha).
    exists (String c s), w'. unfold bind. rewrite Hc, Hs. simpl.
    by rewrite Hl, Hm, Ha.
Qed.

Lemma uppercase_in_alphabet c :
  pystr.mem c pystr.ascii_uppercase = true -> pystr.mem c alphabet = true.
Proof.
  intros H. unfold alphabet, pystr.ascii_letters.
  rewrite !mem_app, H. by rewrite !orb_true_r.
Qed.

Lemma lowercase_in_alphabet c :
  pystr.mem c pystr.ascii_lowercase = true -> pystr.mem c alphabet = true.
Proof.
  intros H. unfold alphabet, pystr.ascii_letters.
  by rewrite !mem_app, H.
Qed.

Lemma digits_in_alphabet c :
  pystr.mem c pystr.digits = true -> pystr.mem c alphabet = true.
Proof.
  intros H. unfold alphabet.
  rewrite !mem_app, H. by rewrite !orb_true_r.
Qed.

Lemma symbols_in_alphabet c :
  pystr.mem c symbols = true -> pystr.mem c alphabet = true.
Proof.
  intros H. unfold alphabet.
  rewrite !mem_app, H. by rewrite !orb_true_r.
Qed.

(** What [generate_password] returns, for any [length]. *)
Lemma generate_password_shape n w :
  exists original w0 c1 c2 c3 c4 w',
    join_choices n alphabet w = (Ok original, w0)
    /\ String.length original = n
    /\ pystr.all_in alphabet original = true
    /\ generate_password n w
       = (Ok (String c1 (String c2 (String c3 (String c4
                (pystr.drop 4 original))))), w')
    /\ pystr.mem c1 pystr.ascii_uppercase = true
    /\ pystr.mem c2 pystr.ascii_lowercase = true
    /\ pystr.mem c3 pystr.digits = true
    /\ pystr.mem c4 symbols = true.
Proof.
  destruct (join_choices_ok alphabet n ltac:(done) w)
    as (original & w0 & Hj & Hl & Ha).
  destruct (secrets_choice_ok pystr.ascii_uppercase w0 ltac:(done))
    as (c1 & H1 & M1).
  set (w1 := set_secrets_bits _ w0) in H1.
  destruct (secrets_choice_ok pystr.ascii_lowercase w1 ltac:(done))
    as (c2 & H2 & M2).
  set (w2 := set_secrets_bits _ w1) in H2.
  destruct (secrets_choice_ok pystr.digits w2 ltac:(done))
    as (c3 & H3 & M3).
  set (w3 := set_secrets_bits _ w2) in H3.
  destruct (secrets_choice_ok symbols w3 ltac:(done))
    as (c4 & H4 & M4).
  set (w4 := set_secrets_bits _ w3) in H4.
  exists original, w0, c1, c2, c3, c4, w4.
  repeat split; try assumption.
  unfold generate_password, bind. by rewrite Hj, H1, H2, H3, H4.
Qed.

End Password.

(** C3: every password the generator returns (at its default length) has
    exactly 24 characters, all of them uppercase letters, lowercase
    letters, digits or symbols of [!@#$%^&*()_+-=]; its first four
    characters are an uppercase letter, a lowercase letter, a digit and
    one of these symbols, put in place of the first four characters of
    the 24 drawn first; so it holds a character of each of the four
    kinds. *)
Theorem generate_password_complex (w : World) :
  exists original w0 c1 c2 c3 c4 password w',
    init_mysql.join_choices 24 init_mysql.alphabet w = (Ok original, w0)
    /\ init_mysql.generate_password init_mysql.default_length w
       = (Ok password, w')
    /\ password = String c1 (String c2 (String c3 (String c4
                    (pystr.drop 4 original))))
    /\ String.length original = 24%nat
    /\ String.length password = 24%nat
    /\ pystr.all_in
         "abcdefghijklmnopqrstuvwxyzABCDEFGHIJKLMNOPQRSTUVWXYZ0123456789!@#$%^&*()_+-="
         password = true
    /\ pystr.mem c1 "ABCDEFGHIJKLMNOPQRSTUVWXYZ" = true
    /\ pystr.mem c2 "abcdefghijklmnopqrstuvwxyz" = true
    /\ pystr.mem c3 "0123456789" = true
    /\ pystr.mem c4 "!@#$%^&*()_+-=" = true
    /\ pystr.any_in "ABCDEFGHIJKLMNOPQRSTUVWXYZ" password = true
    /\ pystr.any_in "abcdefghijklmnopqrstuvwxyz" password = true
    /\ pystr.any_in "0123456789" password = true
    /\ pystr.any_in "!@#$%^&*()_+-=" password = true.
Proof.
  destruct (generate_password_shape 24 w)
    as (original & w0 & c1 & c2 & c3 & c4 & w' & Hj & Hl & Ha & Hg
        & M1 & M2 & M3 & M4).
  exists original, w0, c1, c2, c3, c4,
    (String c1 (String c2 (String c3 (String c4 (pystr.drop 4 original))))), w'.
  split; [exact Hj|]. split; [exact Hg|]. split; [reflexivity|].
  split; [exact Hl|].
  split.
  { cbn [String.length]. rewrite length_drop, Hl. reflexivity. }
  split.
  { change (pystr.all_in init_mysql.alphabet
              (String c1 (String c2 (String c3 (String c4
                 (pystr.drop 4 original))))) = true).
    cbn [pystr.all_in].
    rewrite (uppercase_in_alphabet _ M1), (lowercase_in_alphabet _ M2),
      (digits_in_alphabet _ M3), (symbols_in_alphabet _ M4).
    by rewrite all_in_drop. }
  change "ABCDEFGHIJKLMNOPQRSTUVWXYZ" with pystr.ascii_uppercase.
  change "abcdefghijklmnopqrstuvwxyz" with pystr.ascii_lowercase.
  change "0123456789" with pystr.digits.
  change "!@#$%^&*()_+-=" with init_mysql.symbols.
  repeat split; try assumption; cbn [pystr.any_in].
  - by rewrite M1.
  - rewrite M2. by rewrite orb_true_r.
  - rewrite M3. by rewrite !orb_true_r.
  - rewrite M4. by rewrite !orb_true_r.
Qed.

(** ** The password file *)

Section PasswordFile.
Import init_mysql.






(** Reading back what was just written. *)
Lemma load_password_after_write (s : string) (w : World) :
  exists w2,
    (write_file password_file s ;; os_chmod password_file 384 ;;
     update_mysql.load_password) w
    = (Ok (pystr.strip (pystr.universal_newlines s)), w2)
    /\ files w2 = <[password_file := s]> (files w)
    /\ trace w2 = (trace w ++ [EvWriteFile password_file s;
                               EvChmod password_file 384])%list.
Proof.
  unfold write_file, os_chmod, update_mysql.load_password, path_exists,
    read_file, emit, modify, get, bind, ret. cbn -[lookup insert].
  repeat (rewrite lookup_insert_eq; cbn -[lookup insert]).
  eexists. split; [reflexivity|]. cbn -[lookup insert].
  split; [reflexivity|]. by rewrite <- app_assoc.
Qed.

End PasswordFile.

(** ** The readiness poll *)

Section ReadinessPoll.
Import init_mysql.
Variables project_id instance_name : string.

Local Abbreviation round := (poll_round project_id instance_name).
Local Abbreviation rounds := (after_rounds project_id instance_name).
Local Abbreviation describe :=
  (EvSubprocess (describe_state_cmd project_id instance_name)).

Lemma latency_nonneg (n : N) : (0 <= Z.of_N n # 1000000000)%Q.
Proof. unfold Qle. simpl. lia. Qed.

Lemma clock_round w : (clock w + 10 <= clock (round w))%Q.
Proof.
  cbn. unfold rest.
  pose proof (latency_nonneg (latency w 0%nat)) as H0.
  pose proof (latency_nonneg (latency w 1%nat)) as H1.
  set (a := (Z.of_N (latency w 0%nat) # 1000000000)%Q) in *.
  set (b := (Z.of_N (latency w 1%nat) # 1000000000)%Q) in *.
  clearbody a b. generalize (clock w). intros c. lra.
Qed.

Lemma trace_round w : trace (round w) = (trace w ++ [describe; EvSleep 10])%list.
Proof. cbn. by rewrite <- app_assoc. Qed.

Lemma observed_round w k : observed_state (round w) k = observed_state w (S k).
Proof. reflexivity. Qed.

Lemma trace_rounds n : forall w,
  trace (rounds n w)
  = (trace w ++ rounds_trace project_id instance_name n)%list.
Proof.
  induction n as [|n IH]; intros w; simpl.
  - by rewrite app_nil_r.
  - rewrite IH, trace_round, <- app_assoc. reflexivity.
Qed.

Lemma clock_rounds n : forall w,
  (clock w + 10 * inject_Z (Z.of_nat n) <= clock (rounds n w))%Q.
Proof.
  induction n as [|n IH]; intros w.
  - change (inject_Z (Z.of_nat 0)) with 0%Q. cbn [after_rounds]. lra.
  - cbn [after_rounds]. specialize (IH (round w)).
    pose proof (clock_round w).
    rewrite Nat2Z.inj_succ. unfold Z.succ. rewrite inject_Z_plus.
    change (inject_Z 1) with 1%Q. lra.
Qed.

(** One test of the loop condition and what follows it. *)
Lemma poll_ready_step fuel start_time max_wait w :
  poll_ready (S fuel) project_id instance_name start_time max_wait w
  = if Qle_bool max_wait (clock w - start_time)
    then (Raise (TimeoutError "Instance did not become ready in time"), w)
    else if String.eqb (observed_state w 0) "RUNNABLE"
         then (Ok true,
               snd (run_gcloud
                      ["sql"; "instances"; "describe"; instance_name;
                       "--project"; project_id;
                       "--format"; "value(state)"] false w))
         else poll_ready fuel project_id instance_name start_time max_wait
                (round w).
Proof.
  cbn [poll_ready]. unfold bind at 1. cbn [time_time get].
  destruct (Qle_bool max_wait (clock w - start_time)); [reflexivity|].
  cbn [negb]. unfold observed_state.
  unfold bind at 1. cbn.
  destruct (String.eqb _ "RUNNABLE"); reflexivity.
Qed.

Lemma poll_ready_correct start_time max_wait : forall f w,
  (max_wait - (clock w - start_time) <= 10 * inject_Z (Z.of_nat f))%Q ->
  exists n, (n <= f)%nat
    /\ (forall k, (k < n)%nat ->
          observed_state w k <> "RUNNABLE"
          /\ (clock (rounds k w) - start_time < max_wait)%Q)
    /\ ((observed_state w n = "RUNNABLE"
         /\ (clock (rounds n w) - start_time < max_wait)%Q
         /\ exists w',
              poll_ready (S f) project_id instance_name start_time max_wait w
              = (Ok true, w')
              /\ trace w'
                 = (trace w ++ rounds_trace project_id instance_name n
                    ++ [describe])%list)
        \/ ((max_wait <= clock (rounds n w) - start_time)%Q
            /\ poll_ready (S f) project_id instance_name start_time max_wait w
               = (Raise (TimeoutError "Instance did not become ready in time"),
                  rounds n w))).
Proof.
  induction f as [|f IH]; intros w Hfuel.
  - exists O. split; [lia|]. split; [intros k Hk; lia|]. right.
    assert (Hle : (max_wait <= clock w - start_time)%Q).
    { change (inject_Z (Z.of_nat 0)) with 0%Q in Hfuel. lra. }
    split; [exact Hle|].
    rewrite poll_ready_step.
    apply Qle_bool_iff in Hle. cbn [after_rounds]. by rewrite Hle.
  - rewrite poll_ready_step.
    destruct (Qle_bool max_wait (clock w - start_time)) eqn:Hb.
    { exists O. split; [lia|]. split; [intros k Hk; lia|]. right.
      split; [by apply Qle_bool_iff|reflexivity]. }
    assert (Hlt : (clock w - start_time < max_wait)%Q).
    { apply Qnot_le_lt. intros Hle. apply Qle_bool_iff in Hle. congruence. }
    destruct (String.eqb (observed_state w 0) "RUNNABLE") eqn:Hs.
    { exists O. split; [lia|]. split; [intros k Hk; lia|]. left.
      split; [by apply String.eqb_eq|]. split; [exact Hlt|].
      eexists. split; [reflexivity|]. cbn. reflexivity. }
    destruct (IH (round w)) as (n & Hn & Hbefore & Hend).
    { pose proof (clock_round w).
      rewrite Nat2Z.inj_succ in Hfuel. unfold Z.succ in Hfuel.
      rewrite inject_Z_plus in Hfuel. change (inject_Z 1) with 1%Q in Hfuel. lra. }
    exists (S n). split; [lia|]. split.
    { intros [|k] Hk.
      - split; [|exact Hlt]. by apply String.eqb_neq.
      - cbn [after_rounds]. rewrite <- observed_round. apply Hbefore. lia. }
    cbn [after_rounds rounds_trace].
    destruct Hend as [(Ho & Hc & w' & Hrun & Htr)|(Hc & Hrun)].
    + left. split; [exact Ho|]. split; [exact Hc|].
      exists w'. split; [exact Hrun|].
      rewrite Htr, trace_round, <- app_assoc. reflexivity.
    + right. split; [exact Hc|exact Hrun].
Qed.

Lemma rounds_add n : forall m w, rounds (n + m) w = rounds m (rounds n w).
Proof. induction n as [|n IH]; intros m w; simpl; [reflexivity|apply IH]. Qed.

Lemma clock_rounds_mono n m w :
  (n <= m)%nat -> (clock (rounds n w) <= clock (rounds m w))%Q.
Proof.
  intros Hnm. replace m with (n + (m - n))%nat by lia.
  rewrite rounds_add.
  pose proof (clock_rounds (m - n) (rounds n w)) as H.
  assert (0 <= inject_Z (Z.of_nat (m - n)))%Q.
  { change 0%Q with (inject_Z 0). rewrite <- Zle_Qle. lia. }
  lra.
Qed.

Lemma wait_for_instance_ready_unfold max_wait w :
  wait_for_instance_ready project_id instance_name max_wait w
  = poll_ready (poll_fuel max_wait) project_id instance_name
      (clock w) max_wait w.
Proof. reflexivity. Qed.

End ReadinessPoll.

(** C4: [wait_for_instance_ready] with its budget of 600 seconds always
    comes back.  It makes describe calls with a sleep of 10 seconds after
    each one that did not report RUNNABLE, and nothing else.  It returns
    [True] at the first describe that reports RUNNABLE, and it raises
    [TimeoutError] exactly when no describe that starts within the 600
    seconds reports RUNNABLE; at most 60 describes start within them. *)
Theorem wait_for_instance_ready_polls (project_id instance_name : string)
    (w : World) :
  let elapsed k :=
    (clock (after_rounds project_id instance_name k w) - clock w)%Q in
  let run :=
    init_mysql.wait_for_instance_ready project_id instance_name
      init_mysql.default_max_wait w in
  let timeout := TimeoutError "Instance did not become ready in time" in
  (exists n, (n <= 60)%nat
     /\ (forall k, (k < n)%nat ->
           observed_state w k <> "RUNNABLE" /\ (elapsed k < 600)%Q)
     /\ ((observed_state w n = "RUNNABLE" /\ (elapsed n < 600)%Q
          /\ fst run = Ok true
          /\ trace (snd run)
             = (trace w ++ rounds_trace project_id instance_name n
                ++ [EvSubprocess
                      (describe_state_cmd project_id instance_name)])%list)
         \/ ((600 <= elapsed n)%Q
             /\ fst run = Raise timeout
             /\ trace (snd run)
                = (trace w ++ rounds_trace project_id instance_name n)%list)))
  /\ (fst run = Raise timeout <->
      forall k, (elapsed k < 600)%Q -> observed_state w k <> "RUNNABLE").
Proof.
  intros elapsed run timeout.
  assert (Hrun : run = init_mysql.poll_ready 62 project_id instance_name
                         (clock w) 600 w) by reflexivity.
  destruct (poll_ready_correct project_id instance_name (clock w) 600 61 w)
    as (n & Hn & Hbefore & Hend).
  { change (inject_Z (Z.of_nat 61)) with 61%Q. lra. }
  fold (elapsed n) in Hend.
  assert (Hn60 : (n <= 60)%nat).
  { destruct n as [|n]; [lia|].
    destruct (Hbefore n ltac:(lia)) as [_ Hlt].
    pose proof (clock_rounds project_id instance_name n w) as Hc.
    destruct (le_lt_dec 60 n) as [Hge|]; [|lia]. exfalso.
    assert (60 <= inject_Z (Z.of_nat n))%Q.
    { change 60%Q with (inject_Z 60). rewrite <- Zle_Qle. lia. }
    lra. }
  assert (Hparts :
    (observed_state w n = "RUNNABLE" /\ (elapsed n < 600)%Q
     /\ fst run = Ok true
     /\ trace (snd run)
        = (trace w ++ rounds_trace project_id instance_name n
           ++ [EvSubprocess (describe_state_cmd project_id instance_name)])%list)
    \/ ((600 <= elapsed n)%Q
        /\ fst run = Raise timeout
        /\ trace (snd run)
           = (trace w ++ rounds_trace project_id instance_name n)%list)).
  { destruct Hend as [(Ho & Hc & w' & Hr & Htr)|(Hc & Hr)].
    - left. rewrite Hrun, Hr. auto.
    - right. rewrite Hrun, Hr. cbn [fst snd].
      rewrite (trace_rounds project_id instance_name). auto. }
  split.
  { exists n. split; [exact Hn60|]. split; [exact Hbefore|exact Hparts]. }
  split.
  - intros Hraise k Hk.
    destruct Hparts as [(_ & _ & Hok & _)|(Hc & _)]; [congruence|].
    destruct (le_lt_dec n k) as [Hge|Hlt]; [|by apply Hbefore].
    exfalso. unfold elapsed in *.
    pose proof (clock_rounds_mono project_id instance_name n k w Hge). lra.
  - intros Hnever.
    destruct Hparts as [(Ho & Hc & _)|(_ & Hr & _)]; [|exact Hr].
    exfalso. exact (Hnever n Hc Ho).
Qed.

(** ** Random prices *)

Section Prices.

Lemma random_unit (r : N) :
  (0 <= Z.of_N (r mod 2 ^ 53)%N # 2 ^ 53 < 1)%Q.
Proof.
  pose proof (N.mod_upper_bound r (2 ^ 53)%N ltac:(done)) as Hlt.
  unfold Qle, Qlt. cbn [Qnum Qden].
  change (Z.pos (2 ^ 53)) with (Z.of_N (2 ^ 53)%N).
  set (m := (r mod 2 ^ 53)%N) in *. set (B := (2 ^ 53)%N) in *.
  clearbody m B. lia.
Qed.

Lemma random_uniform_range (a b : Q) (w : World) :
  (a <= b)%Q ->
  exists x, random_uniform a b w
            = (Ok x, set_random_bits (rest (random_bits w)) w)
            /\ (a <= x <= b)%Q.
Proof.
  intros Hab. eexists. split; [reflexivity|].
  pose proof (random_unit (random_bits w O)) as [H0 H1].
  set (u := (Z.of_N _ # _)%Q) in *. clearbody u. nra.
Qed.

(** [round2] picks a nearest count of hundredths. *)
Lemma round2_nearest (x : Q) :
  (inject_Z (round2 x) - (1 # 2) <= x * 100
   <= inject_Z (round2 x) + (1 # 2))%Q.
Proof.
  unfold round2.
  pose proof (Qfloor_le (x * 100)) as Hlo.
  pose proof (Qlt_floor (x * 100)) as Hhi.
  rewrite inject_Z_plus in Hhi. change (inject_Z 1) with 1%Q in Hhi.
  set (f := Qfloor (x * 100)) in *.
  destruct (Qcompare_spec (x * 100 - inject_Z f) (1 # 2)) as [E|E|E].
  - destruct (Z.even f).
    + lra.
    + rewrite inject_Z_plus. change (inject_Z 1) with 1%Q. lra.
  - lra.
  - rewrite inject_Z_plus. change (inject_Z 1) with 1%Q. lra.
Qed.

(** Rounding keeps a price between whole bounds. *)
Lemma round2_between (lo hi : Z) (x : Q) :
  (inject_Z lo <= x * 100 <= inject_Z hi)%Q -> lo <= round2 x <= hi.
Proof.
  intros [Hlo Hhi].
  pose proof (round2_nearest x) as [Hn1 Hn2].
  split.
  - apply Z.lt_pred_le. unfold Z.pred.
    rewrite Zlt_Qlt, inject_Z_plus. change (inject_Z (-1)) with (-1)%Q. lra.
  - apply Z.lt_succ_r. unfold Z.succ.
    rewrite Zlt_Qlt, inject_Z_plus. change (inject_Z 1) with 1%Q. lra.
Qed.

(** [round(random.uniform(10.0, 500.0), 2)] *)
Lemma random_price (w : World) :
  exists x, random_uniform 10 500 w
            = (Ok x, set_random_bits (rest (random_bits w)) w)
            /\ 1000 <= round2 x <= 50000.
Proof.
  destruct (random_uniform_range 10 500 w ltac:(done)) as (x & Hx & Hr).
  exists x. split; [exact Hx|].
  apply round2_between.
  change (inject_Z 1000) with 1000%Q. change (inject_Z 50000) with 50000%Q.
  lra.
Qed.

End Prices.

(** ** The MySQL server: one statement at a time *)

Ltac simp := cbn -[lookup insert alter size map_to_list Qfloor empty].

(** Run the code in the goal as far as the hypotheses decide it. *)
Ltac run :=
  unfold cursor_execute, cursor_fetchone, cursor_fetchall, mysql_run,
    selected_table, selected_tables, store_table, server_now,
    pop_sql_fault, elapse, emit, modify, get, bind, ret, raise;
  simp;
  repeat (match goal with
          | H : ?l = _ |- _ => progress (rewrite H)
          end; simp).

Ltac finish := eexists; split; [reflexivity|]; by simp.

Lemma bind_ok {A B : Type} (m : M A) (k : A -> M B) w a w' :
  m w = (Ok a, w') -> bind m k w = k a w'.
Proof. intros H. unfold bind. by rewrite H. Qed.

Lemma bind_raise {A B : Type} (m : M A) (k : A -> M B) w e w' :
  m w = (Raise e, w') -> bind m k w = (Raise e, w').
Proof. intros H. unfold bind. by rewrite H. Qed.

Lemma no_sql_faults_rest w w' :
  no_sql_faults w -> sql_faults w' = rest (sql_faults w) -> no_sql_faults w'.
Proof. intros H E k. rewrite E. apply H. Qed.

Section Statements.

Lemma execute_fault stmt w msg :
  sql_faults w O = Some msg ->
  exists w', cursor_execute stmt w = (Raise (MySQLError msg), w')
    /\ trace w' = (trace w ++ [EvExecute stmt])%list
    /\ mysql w' = mysql w
    /\ sql_faults w' = rest (sql_faults w)
    /\ signals w' = signals w
    /\ running w' = running w.
Proof. intros Hf. run. finish. Qed.

Lemma execute_create_database db w :
  sql_faults w O = None ->
  exists w', cursor_execute (CreateDatabaseIfNotExists db) w = (Ok tt, w')
    /\ trace w' = (trace w ++ [EvExecute (CreateDatabaseIfNotExists db)])%list
    /\ mysql w' = match mysql w !! db with
                  | Some _ => mysql w
                  | None => <[db := ∅]> (mysql w)
                  end
    /\ sql_faults w' = rest (sql_faults w).
Proof. intros Hf. run. destruct (mysql w !! db) eqn:E; run; finish. Qed.

Lemma execute_use db tables w :
  sql_faults w O = None ->
  mysql w !! db = Some tables ->
  exists w', cursor_execute (UseDatabase db) w = (Ok tt, w')
    /\ trace w' = (trace w ++ [EvExecute (UseDatabase db)])%list
    /\ mysql w' = mysql w
    /\ current_db w' = Some db
    /\ sql_faults w' = rest (sql_faults w).
Proof. intros Hf Hdb. run. finish. Qed.

Lemma execute_create_table tbl db tables w :
  sql_faults w O = None ->
  current_db w = Some db ->
  mysql w !! db = Some tables ->
  exists w', cursor_execute (CreateTableIfNotExists tbl) w = (Ok tt, w')
    /\ trace w' = (trace w ++ [EvExecute (CreateTableIfNotExists tbl)])%list
    /\ mysql w' = match tables !! tbl with
                  | Some _ => mysql w
                  | None => <[db := <[tbl := ∅]> tables]> (mysql w)
                  end
    /\ current_db w' = Some db
    /\ sql_faults w' = rest (sql_faults w).
Proof.
  intros Hf Hcur Hdb. run. destruct (tables !! tbl) eqn:E; run; finish.
Qed.

Lemma execute_select_count tbl db tables rows w :
  sql_faults w O = None ->
  current_db w = Some db ->
  mysql w !! db = Some tables ->
  tables !! tbl = Some rows ->
  exists w', cursor_execute (SelectCount tbl) w = (Ok tt, w')
    /\ cursor_rows w' = [[VInt (Z.of_nat (size rows))]]
    /\ trace w' = (trace w ++ [EvExecute (SelectCount tbl)])%list
    /\ mysql w' = mysql w
    /\ current_db w' = Some db
    /\ sql_faults w' = rest (sql_faults w).
Proof. intros Hf Hcur Hdb Htbl. run. finish. Qed.

Lemma execute_truncate tbl db tables rows w :
  sql_faults w O = None ->
  current_db w = Some db ->
  mysql w !! db = Some tables ->
  tables !! tbl = Some rows ->
  exists w', cursor_execute (TruncateTable tbl) w = (Ok tt, w')
    /\ trace w' = (trace w ++ [EvExecute (TruncateTable tbl)])%list
    /\ mysql w' = <[db := <[tbl := ∅]> tables]> (mysql w)
    /\ current_db w' = Some db
    /\ sql_faults w' = rest (sql_faults w).
Proof. intros Hf Hcur Hdb Htbl. run. finish. Qed.

Lemma execute_insert tbl id desc hundredths db tables rows w :
  sql_faults w O = None ->
  current_db w = Some db ->
  mysql w !! db = Some tables ->
  tables !! tbl = Some rows ->
  rows !! id = None ->
  exists w' now,
    cursor_execute (InsertItem tbl id desc hundredths) w = (Ok tt, w')
    /\ trace w'
       = (trace w ++ [EvExecute (InsertItem tbl id desc hundredths)])%list
    /\ mysql w'
       = <[db := <[tbl := <[id := {| description := desc;
                                     price := hundredths;
                                     created_at := now;
                                     updated_at := now |}]> rows]> tables]>
           (mysql w)
    /\ current_db w' = Some db
    /\ sql_faults w' = rest (sql_faults w).
Proof.
  intros Hf Hcur Hdb Htbl Hid. run. eexists _, _.
  split; [reflexivity|]. by simp.
Qed.

Lemma execute_insert_duplicate tbl id desc hundredths db tables rows r w :
  sql_faults w O = None ->
  current_db w = Some db ->
  mysql w !! db = Some tables ->
  tables !! tbl = Some rows ->
  rows !! id = Some r ->
  exists w' msg,
    cursor_execute (InsertItem tbl id desc hundredths) w
    = (Raise (MySQLError msg), w')
    /\ mysql w' = mysql w.
Proof.
  intros Hf Hcur Hdb Htbl Hid. run. eexists _, _.
  split; [reflexivity|]. by simp.
Qed.

Lemma execute_select_all tbl db tables rows w :
  sql_faults w O = None ->
  current_db w = Some db ->
  mysql w !! db = Some tables ->
  tables !! tbl = Some rows ->
  exists w', cursor_execute (SelectAll tbl) w = (Ok tt, w')
    /\ cursor_rows w' = row_values <$> map_to_list rows
    /\ trace w' = (trace w ++ [EvExecute (SelectAll tbl)])%list
    /\ mysql w' = mysql w
    /\ current_db w' = Some db
    /\ sql_faults w' = rest (sql_faults w).
Proof. intros Hf Hcur Hdb Htbl. run. finish. Qed.

Lemma execute_select_price tbl id db tables rows w :
  sql_faults w O = None ->
  current_db w = Some db ->
  mysql w !! db = Some tables ->
  tables !! tbl = Some rows ->
  exists w', cursor_execute (SelectPriceDescription tbl id) w = (Ok tt, w')
    /\ cursor_rows w'
       = match rows !! id with
         | Some r => [[VDecimal (price r); VStr (description r)]]
         | None => []
         end
    /\ trace w'
       = (trace w ++ [EvExecute (SelectPriceDescription tbl id)])%list
    /\ mysql w' = mysql w
    /\ current_db w' = Some db
    /\ sql_faults w' = rest (sql_faults w)
    /\ random_bits w' = random_bits w
    /\ signals w' = signals w
    /\ running w' = running w.
Proof.
  intros Hf Hcur Hdb Htbl. run. destruct (rows !! id) eqn:E; run; finish.
Qed.

Lemma execute_update tbl id hundredths db tables rows w :
  sql_faults w O = None ->
  current_db w = Some db ->
  mysql w !! db = Some tables ->
  tables !! tbl = Some rows ->
  exists w' now,
    cursor_execute (UpdatePriceNow tbl hundredths id) w = (Ok tt, w')
    /\ trace w'
       = (trace w ++ [EvExecute (UpdatePriceNow tbl hundredths id)])%list
    /\ mysql w'
       = <[db := <[tbl := alter (fun r =>
                                   {| description := description r;
                                      price := hundredths;
                                      created_at := created_at r;
                                      updated_at := now |}) id rows]> tables]>
           (mysql w)
    /\ current_db w' = Some db
    /\ sql_faults w' = rest (sql_faults w)
    /\ random_bits w' = random_bits w
    /\ signals w' = signals w
    /\ running w' = running w.
Proof.
  intros Hf Hcur Hdb Htbl. run. eexists _, _.
  split; [reflexivity|]. by simp.
Qed.

Lemma fetchone_some r rs w :
  cursor_rows w = r :: rs ->
  cursor_fetchone w = (Ok (Some r), set_cursor_rows rs w).
Proof. intros H. run. reflexivity. Qed.

Lemma fetchone_none w :
  cursor_rows w = [] -> cursor_fetchone w = (Ok None, w).
Proof. intros H. run. reflexivity. Qed.

End Statements.

(** ** Seeding *)

Section Seeding.
Import init_mysql.
Variables db tbl : string.

Lemma insert_sample_ok i desc tables rows w :
  no_sql_faults w ->
  current_db w = Some db ->
  mysql w !! db = Some tables ->
  tables !! tbl = Some rows ->
  rows !! i = None ->
  descriptions !! Z.to_nat (i - 1) = Some desc ->
  exists w' p r,
    insert_sample tbl i w = (Ok tt, w')
    /\ 1000 <= p <= 50000
    /\ row_has desc p r
    /\ trace w' = (trace w ++ [insert_event tbl i p])%list
    /\ mysql w' = <[db := <[tbl := <[i := r]> rows]> tables]> (mysql w)
    /\ current_db w' = Some db
    /\ no_sql_faults w'.
Proof.
  intros Hnf Hcur Hdb Htbl Hfree Hdesc.
  destruct (random_price w) as (x & Hx & Hrange).
  destruct (execute_insert tbl i desc (round2 x) db tables rows
              (set_random_bits (rest (random_bits w)) w))
    as (w' & now & Hrun & Htr & Hmy & Hcur' & Hsf); try done.
  { apply Hnf. }
  exists w', (round2 x),
    {| description := desc; price := round2 x;
       created_at := now; updated_at := now |}.
  unfold insert_sample. rewrite (bind_ok _ _ _ _ _ Hx), Hdesc, Hrun.
  split; [done|]. split; [done|]. split; [by split|].
  unfold insert_event. rewrite Hdesc.
  split; [done|]. split; [done|]. split; [done|].
  intros k. rewrite Hsf. apply Hnf.
Qed.

(** The loop over the ids: every id gets its row, nothing else moves. *)
Lemma insert_samples_ok ids : forall tables rows w,
  NoDup ids ->
  (forall i, i ∈ ids ->
     rows !! i = None /\ is_Some (descriptions !! Z.to_nat (i - 1))) ->
  no_sql_faults w ->
  current_db w = Some db ->
  mysql w !! db = Some tables ->
  tables !! tbl = Some rows ->
  exists w' prices rows',
    for_each ids (insert_sample tbl) w = (Ok tt, w')
    /\ length prices = length ids
    /\ Forall (fun p => 1000 <= p <= 50000) prices
    /\ trace w' = (trace w ++ zip_with (insert_event tbl) ids prices)%list
    /\ mysql w' = <[db := <[tbl := rows']> tables]> (mysql w)
    /\ current_db w' = Some db
    /\ no_sql_faults w'
    /\ (forall j, j ∉ ids -> rows' !! j = rows !! j)
    /\ (forall k i p, ids !! k = Some i -> prices !! k = Some p ->
          exists r d, rows' !! i = Some r
                      /\ descriptions !! Z.to_nat (i - 1) = Some d
                      /\ row_has d p r).
Proof.
  induction ids as [|i ids IH]; intros tables rows w Hnd Hids Hnf Hcur Hdb Htbl.
  - exists w, [], rows. cbn [for_each]. unfold ret.
    split; [done|]. split; [done|]. split; [done|].
    split; [by rewrite app_nil_r|].
    split.
    { rewrite (insert_id tables tbl rows Htbl).
      by rewrite (insert_id (mysql w) db tables Hdb). }
    repeat split; done.
  - apply NoDup_cons in Hnd as [Hi Hnd].
    destruct (Hids i ltac:(left)) as [Hfree [desc Hdesc]].
    destruct (insert_sample_ok i desc tables rows w)
      as (w1 & p & r & Hrun & Hp & Hr & Htr & Hmy & Hcur1 & Hnf1); try done.
    destruct (IH (<[tbl := <[i := r]> rows]> tables) (<[i := r]> rows) w1)
      as (w' & prices & rows' & Hrun' & Hlen & Hps & Htr' & Hmy' & Hcur'
          & Hnf' & Hframe & Hrows); try done.
    { intros j Hj. split.
      - rewrite lookup_insert_ne; [|intros ->; done].
        apply Hids. by right.
      - apply Hids. by right. }
    { rewrite Hmy. apply lookup_insert_eq. }
    { apply lookup_insert_eq. }
    exists w', (p :: prices), rows'.
    cbn [for_each]. rewrite (bind_ok _ _ _ _ _ Hrun), Hrun'.
    split; [done|]. split; [by cbn; rewrite Hlen|].
    split; [by constructor|].
    split; [by rewrite Htr', Htr, <- app_assoc|].
    split; [by rewrite Hmy', Hmy, !insert_insert_eq|].
    split; [done|]. split; [done|]. split.
    { intros j Hj. apply not_elem_of_cons in Hj as [Hji Hj].
      rewrite (Hframe j Hj). by rewrite lookup_insert_ne. }
    intros [|k] i' p' Hk Hp'; cbn in Hk, Hp'.
    + injection Hk as <-. injection Hp' as <-.
      exists r, desc. rewrite (Hframe i Hi), lookup_insert_eq. done.
    + by apply (Hrows k).
Qed.

End Seeding.

Section SeedingRun.
Import init_mysql.
Variables db tbl : string.

Lemma range_elem lo hi i :
  i ∈ range lo hi <-> lo <= i < hi.
Proof.
  unfold range. rewrite list_elem_of_fmap. split.
  - intros (k & -> & Hk). apply elem_of_seq in Hk. lia.
  - intros Hi. exists (Z.to_nat (i - lo)). split; [lia|].
    apply elem_of_seq. lia.
Qed.

Lemma range_NoDup lo hi : NoDup (range lo hi).
Proof.
  unfold range. apply NoDup_fmap_2; [|apply NoDup_seq].
  intros a b Hab. lia.
Qed.

Lemma range_lookup lo hi (k : nat) :
  (Z.of_nat k < hi - lo) -> range lo hi !! k = Some (lo + Z.of_nat k).
Proof.
  intros Hk. unfold range. rewrite list_lookup_fmap.
  rewrite lookup_seq_lt; [reflexivity|lia].
Qed.

Lemma commit_ok w :
  exists w', connection_commit w = (Ok tt, w')
    /\ trace w' = (trace w ++ [EvCommit])%list
    /\ mysql w' = mysql w
    /\ current_db w' = current_db w
    /\ sql_faults w' = sql_faults w.
Proof. unfold connection_commit. run. finish. Qed.

(** The table is created if need be and empty once the count has been
    looked at. *)
Lemma seed_prepare w :
  no_sql_faults w ->
  let old := default ∅ (table_rows w db tbl) in
  exists w' tables,
    (cursor_execute (CreateDatabaseIfNotExists db) ;;
     cursor_execute (UseDatabase db) ;;
     cursor_execute (CreateTableIfNotExists tbl) ;;
     cursor_execute (SelectCount tbl) ;;
     cursor_fetchone) w
    = (Ok (Some [VInt (Z.of_nat (size old))]), w')
    /\ trace w'
       = (trace w ++ [EvExecute (CreateDatabaseIfNotExists db);
                      EvExecute (UseDatabase db);
                      EvExecute (CreateTableIfNotExists tbl);
                      EvExecute (SelectCount tbl)])%list
    /\ mysql w' !! db = Some tables
    /\ tables !! tbl = Some old
    /\ current_db w' = Some db
    /\ no_sql_faults w'.
Proof.
  intros Hnf old.
  destruct (execute_create_database db w (Hnf O))
    as (w1 & Hrun1 & Htr1 & Hmy1 & Hsf1).
  pose proof (no_sql_faults_rest _ _ Hnf Hsf1) as Hnf1.
  set (tables1 := default ∅ (mysql w !! db)).
  assert (Hdb1 : mysql w1 !! db = Some tables1).
  { rewrite Hmy1. unfold tables1.
    destruct (mysql w !! db) eqn:E; [exact E|apply lookup_insert_eq]. }
  destruct (execute_use db tables1 w1 (Hnf1 O) Hdb1)
    as (w2 & Hrun2 & Htr2 & Hmy2 & Hcur2 & Hsf2).
  pose proof (no_sql_faults_rest _ _ Hnf1 Hsf2) as Hnf2.
  rewrite <- Hmy2 in Hdb1.
  destruct (execute_create_table tbl db tables1 w2 (Hnf2 O) Hcur2 Hdb1)
    as (w3 & Hrun3 & Htr3 & Hmy3 & Hcur3 & Hsf3).
  pose proof (no_sql_faults_rest _ _ Hnf2 Hsf3) as Hnf3.
  assert (Hold : old = default ∅ (tables1 !! tbl)).
  { unfold old, table_rows, tables1.
    destruct (mysql w !! db) as [ts|]; cbn; [reflexivity|].
    by rewrite lookup_empty. }
  set (tables3 := match tables1 !! tbl with
                  | Some _ => tables1
                  | None => <[tbl := ∅]> tables1
                  end).
  assert (Hdb3 : mysql w3 !! db = Some tables3).
  { rewrite Hmy3. unfold tables3.
    destruct (tables1 !! tbl); [exact Hdb1|apply lookup_insert_eq]. }
  assert (Htbl3 : tables3 !! tbl = Some old).
  { rewrite Hold. unfold tables3.
    destruct (tables1 !! tbl) eqn:E; [exact E|apply lookup_insert_eq]. }
  destruct (execute_select_count tbl db tables3 old w3 (Hnf3 O) Hcur3
              Hdb3 Htbl3)
    as (w4 & Hrun4 & Hrows4 & Htr4 & Hmy4 & Hcur4 & Hsf4).
  pose proof (no_sql_faults_rest _ _ Hnf3 Hsf4) as Hnf4.
  exists (set_cursor_rows [] w4), tables3.
  rewrite (bind_ok _ _ _ _ _ Hrun1), (bind_ok _ _ _ _ _ Hrun2),
    (bind_ok _ _ _ _ _ Hrun3), (bind_ok _ _ _ _ _ Hrun4).
  rewrite (fetchone_some _ _ _ Hrows4).
  split; [reflexivity|]. simp.
  split.
  { rewrite Htr4, Htr3, Htr2, Htr1. by rewrite <- !app_assoc. }
  split; [by rewrite Hmy4|]. split; [done|]. split; [done|].
  exact Hnf4.
Qed.

Lemma seed_assoc w :
  seed db tbl w
  = (first <- (cursor_execute (CreateDatabaseIfNotExists db) ;;
               cursor_execute (UseDatabase db) ;;
               cursor_execute (CreateTableIfNotExists tbl) ;;
               cursor_execute (SelectCount tbl) ;;
               cursor_fetchone) ;;
     match first with
     | Some (VInt count :: _) =>
         (if 0 <? count
          then cursor_execute (TruncateTable tbl)
          else ret tt) ;;
         for_each (range 1 11) (insert_sample tbl) ;;
         connection_commit ;;
         cursor_execute (SelectAll tbl) ;;
         cursor_fetchall ;;
         ret tt
     | _ => raise (OtherException "TypeError")
     end) w.
Proof.
  unfold seed, bind.
  destruct (cursor_execute (CreateDatabaseIfNotExists db) w)
    as [[| |] w1]; try reflexivity.
  destruct (cursor_execute (UseDatabase db) w1)
    as [[| |] w2]; try reflexivity.
  destruct (cursor_execute (CreateTableIfNotExists tbl) w2)
    as [[| |] w3]; try reflexivity.
  destruct (cursor_execute (SelectCount tbl) w3)
    as [[| |] w4]; reflexivity.
Qed.

(** The count decides whether to truncate; either way the table is
    empty afterwards. *)
Lemma seed_clear old tables w :
  no_sql_faults w ->
  current_db w = Some db ->
  mysql w !! db = Some tables ->
  tables !! tbl = Some old ->
  exists w' tables',
    (if 0 <? Z.of_nat (size old)
     then cursor_execute (TruncateTable tbl)
     else ret tt) w = (Ok tt, w')
    /\ trace w'
       = (trace w ++ if 0 <? Z.of_nat (size old)
                     then [EvExecute (TruncateTable tbl)] else [])%list
    /\ mysql w' !! db = Some tables'
    /\ tables' !! tbl = Some ∅
    /\ current_db w' = Some db
    /\ no_sql_faults w'.
Proof.
  intros Hnf Hcur Hdb Htbl.
  destruct (0 <? Z.of_nat (size old)) eqn:E.
  - destruct (execute_truncate tbl db tables old w (Hnf O) Hcur Hdb Htbl)
      as (w' & Hrun & Htr & Hmy & Hcur' & Hsf).
    exists w', (<[tbl := ∅]> tables).
    split; [done|]. split; [done|].
    split; [rewrite Hmy; apply lookup_insert_eq|].
    split; [apply lookup_insert_eq|]. split; [done|].
    by eapply no_sql_faults_rest.
  - exists w, tables. unfold ret.
    split; [done|]. split; [by rewrite app_nil_r|].
    split; [done|]. split; [|done].
    rewrite Htbl. f_equal. apply map_size_empty_inv.
    apply Z.ltb_ge in E. lia.
Qed.

End SeedingRun.

(** The statements the seeding sends for the ten ids, spelled out. *)
Lemma insert_events_spelled tbl prices :
  zip_with (insert_event tbl) [1; 2; 3; 4; 5; 6; 7; 8; 9; 10] prices
  = zip_with (fun item p => EvExecute (InsertItem tbl item.1 item.2 p))
      [(1, "Wireless Mouse"); (2, "Mechanical Keyboard"); (3, "USB-C Hub");
       (4, "Laptop Stand"); (5, "Webcam HD");
       (6, "Noise-Canceling Headphones"); (7, "Portable SSD");
       (8, "Monitor Light Bar"); (9, "Ergonomic Chair");
       (10, "Standing Desk Mat")]
      prices.
Proof.
  do 10 (destruct prices as [|? prices]; [reflexivity|]). reflexivity.
Qed.

(** C1: if the server raises no error, the seeding step ([seed], the
    [try] block of [create_database_and_table]) succeeds; after creating
    database and table it truncates the table exactly when it held rows,
    then inserts ten rows with the ids 1 to 10 in ascending order, the
    descriptions being "Wireless Mouse", "Mechanical Keyboard",
    "USB-C Hub", "Laptop Stand", "Webcam HD",
    "Noise-Canceling Headphones", "Portable SSD", "Monitor Light Bar",
    "Ergonomic Chair" and "Standing Desk Mat" in this order and every
    price lying in [10.00, 500.00] as a count of hundredths, commits
    once after the tenth insert, and leaves a table of exactly these ten
    rows. *)
Theorem seed_inserts_ten_rows (db tbl : string) (w : World) :
  no_sql_faults w ->
  let old := default ∅ (table_rows w db tbl) in
  let items :=
    [(1, "Wireless Mouse"); (2, "Mechanical Keyboard"); (3, "USB-C Hub");
     (4, "Laptop Stand"); (5, "Webcam HD");
     (6, "Noise-Canceling Headphones"); (7, "Portable SSD");
     (8, "Monitor Light Bar"); (9, "Ergonomic Chair");
     (10, "Standing Desk Mat")] in
  exists w' prices rows,
    init_mysql.seed db tbl w = (Ok tt, w')
    /\ length prices = 10%nat
    /\ Forall (fun p => 1000 <= p <= 50000) prices
    /\ trace w'
       = (trace w
          ++ [EvExecute (CreateDatabaseIfNotExists db);
              EvExecute (UseDatabase db);
              EvExecute (CreateTableIfNotExists tbl);
              EvExecute (SelectCount tbl)]
          ++ (if 0 <? Z.of_nat (size old)
              then [EvExecute (TruncateTable tbl)] else [])
          ++ zip_with (fun item p => EvExecute (InsertItem tbl item.1 item.2 p))
               items prices
          ++ [EvCommit; EvExecute (SelectAll tbl)])%list
    /\ table_rows w' db tbl = Some rows
    /\ size rows = 10%nat
    /\ (forall i, is_Some (rows !! i) <-> 1 <= i <= 10)
    /\ (forall (k : nat) i d,
          items !! k = Some (i, d) ->
          exists r p,
            rows !! i = Some r
            /\ prices !! k = Some p
            /\ description r = d /\ price r = p).
Proof.
  intros Hnf old items.
  destruct (seed_prepare db tbl w Hnf)
    as (w1 & tables1 & Hrun1 & Htr1 & Hdb1 & Htbl1 & Hcur1 & Hnf1).
  fold old in Hrun1, Htbl1.
  destruct (seed_clear db tbl old tables1 w1 Hnf1 Hcur1 Hdb1 Htbl1)
    as (w2 & tables2 & Hrun2 & Htr2 & Hdb2 & Htbl2 & Hcur2 & Hnf2).
  destruct (insert_samples_ok db tbl (range 1 11) tables2 ∅ w2)
    as (w3 & prices & rows & Hrun3 & Hlen & Hprices & Htr3 & Hmy3 & Hcur3
        & Hnf3 & Hframe & Hrows); try done.
  { apply range_NoDup. }
  { intros i Hi. apply range_elem in Hi. split; [apply lookup_empty|].
    apply lookup_lt_is_Some. cbn. lia. }
  change (length (range 1 11)) with 10%nat in Hlen.
  destruct (commit_ok w3) as (w4 & Hrun4 & Htr4 & Hmy4 & Hcur4 & Hsf4).
  assert (Hdb4 : mysql w4 !! db = Some (<[tbl := rows]> tables2)).
  { rewrite Hmy4, Hmy3. apply lookup_insert_eq. }
  destruct (execute_select_all tbl db (<[tbl := rows]> tables2) rows w4)
    as (w5 & Hrun5 & Hrows5 & Htr5 & Hmy5 & Hcur5 & Hsf5).
  { rewrite Hsf4. apply Hnf3. }
  { by rewrite Hcur4. }
  { exact Hdb4. }
  { apply lookup_insert_eq. }
  exists (set_cursor_rows [] w5), prices, rows.
  split.
  { rewrite seed_assoc, (bind_ok _ _ _ _ _ Hrun1).
    rewrite (bind_ok _ _ _ _ _ Hrun2), (bind_ok _ _ _ _ _ Hrun3),
      (bind_ok _ _ _ _ _ Hrun4), (bind_ok _ _ _ _ _ Hrun5).
    reflexivity. }
  split; [exact Hlen|]. split; [exact Hprices|].
  split.
  { cbn [trace set_cursor_rows].
    rewrite Htr5, Htr4, Htr3, Htr2, Htr1.
    change (range 1 11) with [1; 2; 3; 4; 5; 6; 7; 8; 9; 10].
    rewrite insert_events_spelled. by rewrite <- !app_assoc. }
  split.
  { unfold table_rows. cbn [mysql set_cursor_rows].
    rewrite Hmy5, Hdb4. cbn. apply lookup_insert_eq. }
  assert (Hdom : forall i, is_Some (rows !! i) <-> 1 <= i <= 10).
  { intros i. split.
    - intros Hi. destruct (decide (i ∈ range 1 11)) as [Hin|Hout].
      + apply range_elem in Hin. lia.
      + rewrite (Hframe i Hout), lookup_empty in Hi. by destruct Hi.
    - intros Hi.
      destruct (lookup_lt_is_Some_2 prices (Z.to_nat (i - 1))) as [p Hp];
        [lia|].
      destruct (Hrows (Z.to_nat (i - 1)) i p) as (r & d & Hr & _);
        [|exact Hp|by exists r].
      rewrite range_lookup; [f_equal; lia|lia]. }
  split.
  { rewrite <- size_dom.
    assert (Hd : dom rows = list_to_set (range 1 11)).
    { apply set_eq. intros i.
      rewrite elem_of_dom, Hdom, elem_of_list_to_set, range_elem. lia. }
    rewrite Hd, size_list_to_set; [reflexivity|apply range_NoDup]. }
  split; [exact Hdom|].
  intros k i d Hk.
  assert (Hlt : (k < 10)%nat).
  { apply lookup_lt_Some in Hk. exact Hk. }
  destruct (lookup_lt_is_Some_2 prices k) as [p Hp]; [lia|].
  destruct (Hrows k (Z.of_nat k + 1) p) as (r & d' & Hr & Hd & Hdp & Hpp);
    [|exact Hp|].
  { rewrite range_lookup; [f_equal; lia|lia]. }
  replace (Z.to_nat (Z.of_nat k + 1 - 1)) with k in Hd by lia.
  assert (Hid : i = Z.of_nat k + 1 /\ d = d').
  { do 10 (destruct k as [|k];
             [cbn in Hk, Hd; injection Hk as <- <-; injection Hd as <-;
              done|]).
    lia. }
  destruct Hid as [-> ->]. exists r, p. done.
Qed.

(** C1 on a fresh server, and on a server whose table already holds a
    row: there the table is truncated first, and ten rows remain. *)
Lemma seed_inserts_ten_rows_witness :
  no_sql_faults quiet_world
  /\ (exists w' rows,
        init_mysql.seed "shop" "items" quiet_world = (Ok tt, w')
        /\ table_rows w' "shop" "items" = Some rows
        /\ size rows = 10%nat)
  /\ no_sql_faults seeded_world
  /\ size <$> table_rows seeded_world "shop" "items" = Some 1%nat
  /\ (exists w' rows,
        init_mysql.seed "shop" "items" seeded_world = (Ok tt, w')
        /\ EvExecute (TruncateTable "items") ∈ trace w'
        /\ table_rows w' "shop" "items" = Some rows
        /\ size rows = 10%nat).
Proof.
  split; [intros k; reflexivity|]. split.
  { destruct (seed_inserts_ten_rows "shop" "items" quiet_world)
      as (w' & prices & rows & Hrun & _ & _ & _ & Hrows & Hsize & _);
      [intros k; reflexivity|].
    exists w', rows. split; [exact Hrun|]. split; [exact Hrows|exact Hsize]. }
  split; [intros k; reflexivity|]. split; [vm_compute; reflexivity|].
  destruct (seed_inserts_ten_rows "shop" "items" seeded_world)
    as (w' & prices & rows & Hrun & _ & _ & Htr & Hrows & Hsize & _);
    [intros k; reflexivity|].
  exists w', rows. split; [exact Hrun|].
  split; [|split; [exact Hrows|exact Hsize]].
  change (0 <? Z.of_nat (size (default ∅
                                 (table_rows seeded_world "shop" "items"))))
    with true in Htr.
  clear -Htr. rewrite Htr. set_solver.
Defined.

(** ** The mutation step *)

Section MutationStep.
Import update_mysql.
Variables db tbl : string.

Lemma randint_1_10 w :
  random_randint 1 10 w
  = (Ok (1 + Z.of_N (random_bits w O) mod 10),
     set_random_bits (rest (random_bits w)) w).
Proof. reflexivity. Qed.

Lemma alter_present (f : Row -> Row) (i : Z) (r : Row) (rows : gmap Z Row) :
  rows !! i = Some r -> alter f i rows = <[i := f r]> rows.
Proof.
  intros Hi. apply map_eq. intros j. rewrite lookup_alter.
  destruct (decide (i = j)) as [->|Hne].
  - by rewrite lookup_insert_eq, Hi.
  - by rewrite lookup_insert_ne.
Qed.

Lemma alter_absent (f : Row -> Row) (i : Z) (rows : gmap Z Row) :
  rows !! i = None -> alter f i rows = rows.
Proof.
  intros Hi. apply map_eq. intros j. rewrite lookup_alter.
  destruct (decide (i = j)) as [->|Hne]; [by rewrite Hi|done].
Qed.

(** The chosen id has a row: it is read, repriced and stamped. *)
Lemma update_found tables rows r w :
  sql_faults w 0%nat = None ->
  sql_faults w 1%nat = None ->
  current_db w = Some db ->
  mysql w !! db = Some tables ->
  tables !! tbl = Some rows ->
  rows !! (1 + Z.of_N (random_bits w O) mod 10) = Some r ->
  let record_id := 1 + Z.of_N (random_bits w O) mod 10 in
  exists w' new now seen,
    update_random_record tbl w
    = (Ok (Some {| id := record_id; item := description r;
                   old_price := price r; new_price := new;
                   timestamp := seen |}), w')
    /\ 1000 <= new <= 50000
    /\ trace w'
       = (trace w ++ [EvExecute (SelectPriceDescription tbl record_id);
                      EvExecute (UpdatePriceNow tbl new record_id)])%list
    /\ mysql w'
       = <[db := <[tbl := <[record_id :=
                              {| description := description r;
                                 price := new;
                                 created_at := created_at r;
                                 updated_at := now |}]> rows]> tables]>
           (mysql w)
    /\ current_db w' = Some db
    /\ sql_faults w' = rest (rest (sql_faults w))
    /\ signals w' = signals w
    /\ running w' = running w.
Proof.
  intros Hf0 Hf1 Hcur Hdb Htbl Hrow record_id.
  set (w1 := set_random_bits (rest (random_bits w)) w).
  destruct (execute_select_price tbl record_id db tables rows w1)
    as (w2 & Hrun2 & Hrows2 & Htr2 & Hmy2 & Hcur2 & Hsf2 & Hrb2 & Hsg2 & Hrn2);
    try done.
  fold record_id in Hrow. rewrite Hrow in Hrows2.
  set (w3 := set_cursor_rows [] w2).
  destruct (random_price w3) as (x & Hx & Hrange).
  set (w4 := set_random_bits (rest (random_bits w3)) w3) in Hx.
  destruct (execute_update tbl record_id (round2 x) db tables rows w4)
    as (w5 & now & Hrun5 & Htr5 & Hmy5 & Hcur5 & Hsf5 & Hrb5 & Hsg5 & Hrn5).
  { cbn. rewrite Hsf2. exact Hf1. }
  { by cbn. }
  { cbn. by rewrite Hmy2. }
  { done. }
  exists w5, (round2 x), now, (clock w5).
  split.
  { unfold update_random_record.
    rewrite (bind_ok _ _ _ _ _ (randint_1_10 w)).
    fold record_id w1. rewrite (bind_ok _ _ _ _ _ Hrun2).
    rewrite (bind_ok _ _ _ _ _ (fetchone_some _ _ _ Hrows2)).
    fold w3. rewrite (bind_ok _ _ _ _ _ Hx).
    rewrite (bind_ok _ _ _ _ _ Hrun5). reflexivity. }
  split; [exact Hrange|].
  split; [rewrite Htr5; cbn; rewrite Htr2; cbn; by rewrite <- app_assoc|].
  split.
  { rewrite Hmy5. cbn. rewrite Hmy2. cbn.
    by rewrite (alter_present _ _ _ _ Hrow). }
  split; [done|].
  split; [rewrite Hsf5; cbn; by rewrite Hsf2|].
  split; [rewrite Hsg5; cbn; by rewrite Hsg2|].
  rewrite Hrn5. cbn. by rewrite Hrn2.
Qed.

(** The chosen id has no row: nothing is updated. *)
Lemma update_missing tables rows w :
  sql_faults w 0%nat = None ->
  current_db w = Some db ->
  mysql w !! db = Some tables ->
  tables !! tbl = Some rows ->
  rows !! (1 + Z.of_N (random_bits w O) mod 10) = None ->
  let record_id := 1 + Z.of_N (random_bits w O) mod 10 in
  exists w',
    update_random_record tbl w = (Ok None, w')
    /\ trace w'
       = (trace w ++ [EvExecute (SelectPriceDescription tbl record_id)])%list
    /\ mysql w' = mysql w
    /\ current_db w' = Some db
    /\ sql_faults w' = rest (sql_faults w)
    /\ signals w' = signals w
    /\ running w' = running w.
Proof.
  intros Hf0 Hcur Hdb Htbl Hrow record_id.
  set (w1 := set_random_bits (rest (random_bits w)) w).
  destruct (execute_select_price tbl record_id db tables rows w1)
    as (w2 & Hrun2 & Hrows2 & Htr2 & Hmy2 & Hcur2 & Hsf2 & Hrb2 & Hsg2 & Hrn2);
    try done.
  fold record_id in Hrow. rewrite Hrow in Hrows2.
  exists w2. split.
  { unfold update_random_record.
    rewrite (bind_ok _ _ _ _ _ (randint_1_10 w)).
    fold record_id w1. rewrite (bind_ok _ _ _ _ _ Hrun2).
    rewrite (bind_ok _ _ _ _ _ (fetchone_none _ Hrows2)). reflexivity. }
  done.
Qed.

End MutationStep.

(** C2: [update_random_record] chooses an id in 1..10.  If the table has
    a row with that id, the step updates exactly this row: the table
    afterwards is the old one with that row's price replaced by a new
    price in [10.00, 500.00] (in hundredths) and its [updated_at]
    replaced, id, description and [created_at] as before, every other
    row as before, none added or removed.  If the table has no row with
    that id, the step returns [None] without raising and leaves the
    server as it was. *)
Theorem update_random_record_one_row (db tbl : string)
    (tables : gmap string (gmap Z Row)) (rows : gmap Z Row) (w : World) :
  no_sql_faults w ->
  current_db w = Some db ->
  mysql w !! db = Some tables ->
  tables !! tbl = Some rows ->
  let record_id := 1 + Z.of_N (random_bits w O) mod 10 in
  1 <= record_id <= 10
  /\ match rows !! record_id with
     | Some r =>
         exists w' new now seen rows',
           update_mysql.update_random_record tbl w
           = (Ok (Some {| update_mysql.id := record_id;
                          update_mysql.item := description r;
                          update_mysql.old_price := price r;
                          update_mysql.new_price := new;
                          update_mysql.timestamp := seen |}), w')
           /\ 1000 <= new <= 50000
           /\ table_rows w' db tbl = Some rows'
           /\ rows' !! record_id
              = Some {| description := description r; price := new;
                        created_at := created_at r; updated_at := now |}
           /\ (forall j, j <> record_id -> rows' !! j = rows !! j)
           /\ dom rows' = dom rows
           /\ mysql w' = <[db := <[tbl := rows']> tables]> (mysql w)
     | None =>
         exists w',
           update_mysql.update_random_record tbl w = (Ok None, w')
           /\ mysql w' = mysql w
           /\ (forall e, e ∈ trace w' -> e ∉ trace w ->
                 e = EvExecute (SelectPriceDescription tbl record_id))
     end.
Proof.
  intros Hnf Hcur Hdb Htbl record_id. split.
  { unfold record_id.
    pose proof (Z.mod_pos_bound (Z.of_N (random_bits w O)) 10 ltac:(lia)).
    lia. }
  destruct (rows !! record_id) as [r|] eqn:Hrow.
  - destruct (update_found db tbl tables rows r w (Hnf 0%nat) (Hnf 1%nat)
                Hcur Hdb Htbl Hrow)
      as (w' & new & now & seen & Hrun & Hnew & Htr & Hmy & _).
    exists w', new, now, seen, (<[record_id := {| description := description r;
             price := new; created_at := created_at r;
             updated_at := now |}]> rows).
    split; [exact Hrun|]. split; [exact Hnew|].
    split.
    { unfold table_rows. rewrite Hmy, lookup_insert_eq. cbn.
      apply lookup_insert_eq. }
    split; [apply lookup_insert_eq|].
    split; [intros j Hj; by rewrite lookup_insert_ne|].
    split; [|exact Hmy].
    apply set_eq. intros j. rewrite !elem_of_dom.
    destruct (decide (j = record_id)) as [->|Hne].
    + rewrite lookup_insert_eq, Hrow. split; eauto.
    + by rewrite lookup_insert_ne.
  - destruct (update_missing db tbl tables rows w (Hnf 0%nat) Hcur Hdb Htbl
                Hrow)
      as (w' & Hrun & Htr & Hmy & _).
    exists w'. split; [exact Hrun|]. split; [exact Hmy|].
    intros e He Hne. rewrite Htr in He.
    apply elem_of_app in He as [He|He]; [done|].
    by apply list_elem_of_singleton in He.
Qed.

(** C2 on a table that holds the row with id 1, which the first random
    number picks. *)
Lemma update_random_record_one_row_witness :
  no_sql_faults seeded_world
  /\ current_db seeded_world = Some "shop"
  /\ exists w' u,
       update_mysql.update_random_record "items" seeded_world
       = (Ok (Some u), w')
       /\ update_mysql.id u = 1
       /\ 1000 <= update_mysql.new_price u <= 50000.
Proof.
  split; [intros k; reflexivity|]. split; [reflexivity|].
  pose proof (update_random_record_one_row "shop" "items"
                {[ "items" :=
                     {[ 1 := {| description := "Wireless Mouse"; price := 2599;
                                created_at := 0; updated_at := 0 |} ]} ]}
                {[ 1 := {| description := "Wireless Mouse"; price := 2599;
                           created_at := 0; updated_at := 0 |} ]}
                seeded_world) as H.
  destruct H as [_ H];
    [intros k; reflexivity|reflexivity|reflexivity|reflexivity|].
  change (Z.of_N (random_bits seeded_world 0%nat)) with 0 in H.
  change (1 + 0 mod 10) with 1 in H.
  rewrite lookup_singleton_eq in H.
  destruct H as (w' & new & now & seen & rows' & Hrun & Hnew & _).
  eexists w', _. split; [exact Hrun|]. split; [reflexivity|exact Hnew].
Defined.

(** ** The connection loop of the seeding *)

Section ConnectLoop.
Import init_mysql.
Variables host user password : string.

Local Abbreviation connect_event := (EvConnect host user password None).

Ltac run_connect :=
  cbn [connect_with_retries];
  unfold try_except, mysql_connect, pop_connect_reply, time_sleep; run.

Lemma attempt_ok a l w :
  connect_replies w O = ConnectOk ->
  exists w', connect_with_retries (a :: l) host user password w = (Ok tt, w')
    /\ trace w' = (trace w ++ [connect_event])%list
    /\ mysql w' = mysql w
    /\ current_db w' = None
    /\ sql_faults w' = sql_faults w
    /\ random_bits w' = random_bits w.
Proof. intros H. run_connect. finish. Qed.

Lemma attempt_other a l msg w :
  connect_replies w O = ConnectOtherError msg ->
  exists w', connect_with_retries (a :: l) host user password w
             = (Raise (OtherException msg), w')
    /\ trace w' = (trace w ++ [connect_event])%list.
Proof. intros H. run_connect. finish. Qed.

Lemma attempt_last a l msg w :
  connect_replies w O = ConnectMySQLError msg ->
  (a <? max_retries - 1) = false ->
  exists w', connect_with_retries (a :: l) host user password w
             = (Raise (MySQLError msg), w')
    /\ trace w' = (trace w ++ [connect_event])%list.
Proof. intros H Ha. run_connect. finish. Qed.

Lemma attempt_retry a l msg w :
  connect_replies w O = ConnectMySQLError msg ->
  (a <? max_retries - 1) = true ->
  exists w', connect_with_retries (a :: l) host user password w
             = connect_with_retries l host user password w'
    /\ trace w' = (trace w ++ [connect_event; EvSleep retry_delay])%list
    /\ connect_replies w' = rest (connect_replies w).
Proof.
  intros H Ha. run_connect. eexists. split; [reflexivity|]. simp.
  by rewrite <- app_assoc.
Qed.

(** The attempts numbered [a], [a + 1], ..., [max_retries - 1]. *)
Lemma retries_from m : forall (a : nat) w,
  (a + S m = 10)%nat ->
  let run :=
    connect_with_retries (map (fun k => 0 + Z.of_nat k) (seq a (S m)))
      host user password w in
  exists n, (n <= m)%nat
    /\ (forall k, (k < n)%nat ->
          exists msg, connect_replies w k = ConnectMySQLError msg)
    /\ trace (snd run)
       = (trace w ++ retries_trace host user password n
          ++ [connect_event])%list
    /\ match connect_replies w n with
       | ConnectOk => fst run = Ok tt
       | ConnectOtherError msg => fst run = Raise (OtherException msg)
       | ConnectMySQLError msg =>
           n = m /\ fst run = Raise (MySQLError msg)
       end.
Proof.
  induction m as [|m IH]; intros a w Ham run; subst run;
    rewrite <- cons_seq, map_cons;
    destruct (connect_replies w O) as [|msg|msg] eqn:Hr.
  - destruct (attempt_ok (0 + Z.of_nat a)
                (map (fun k => 0 + Z.of_nat k) (seq (S a) 0)) w Hr)
      as (w' & -> & Htr & _).
    exists O. rewrite Hr. repeat split; try done. lia.
  - destruct (attempt_last (0 + Z.of_nat a)
                (map (fun k => 0 + Z.of_nat k) (seq (S a) 0)) msg w Hr)
      as (w' & -> & Htr).
    { apply Z.ltb_ge. unfold max_retries. lia. }
    exists O. rewrite Hr. repeat split; try done. lia.
  - destruct (attempt_other (0 + Z.of_nat a)
                (map (fun k => 0 + Z.of_nat k) (seq (S a) 0)) msg w Hr)
      as (w' & -> & Htr).
    exists O. rewrite Hr. repeat split; try done. lia.
  - destruct (attempt_ok (0 + Z.of_nat a)
                (map (fun k => 0 + Z.of_nat k) (seq (S a) (S m))) w Hr)
      as (w' & -> & Htr & _).
    exists O. rewrite Hr. repeat split; try done; lia.
  - destruct (attempt_retry (0 + Z.of_nat a)
                (map (fun k => 0 + Z.of_nat k) (seq (S a) (S m))) msg w Hr)
      as (w' & -> & Htr & Hcr).
    { apply Z.ltb_lt. unfold max_retries. lia. }
    destruct (IH (S a) w' ltac:(lia)) as (n & Hn & Hbefore & Htr' & Hend).
    exists (S n). split; [lia|]. split.
    { intros [|k] Hk; [by exists msg|].
      destruct (Hbefore k ltac:(lia)) as [msg' Hk']. exists msg'.
      by rewrite Hcr in Hk'. }
    split.
    { rewrite Htr', Htr.
      cbn [retries_trace]. by rewrite <- !app_assoc. }
    rewrite Hcr in Hend. unfold rest in Hend.
    destruct (connect_replies w (S n)); [done|idtac|done].
    destruct Hend as [-> Hend]. done.
  - destruct (attempt_other (0 + Z.of_nat a)
                (map (fun k => 0 + Z.of_nat k) (seq (S a) (S m))) msg w Hr)
      as (w' & -> & Htr).
    exists O. rewrite Hr. repeat split; try done; lia.
Qed.

End ConnectLoop.

Lemma conf_get_ok (config : gmap string (gmap string string))
    (section key : string) (sec : gmap string string) (v : string) (w : World) :
  config !! section = Some sec -> sec !! key = Some v ->
  conf_get config section key w = (Ok v, w).
Proof. intros Hs Hk. unfold conf_get. by rewrite Hs, Hk. Qed.

Lemma conf_get_no_section (config : gmap string (gmap string string))
    (section key : string) (w : World) :
  config !! section = None ->
  conf_get config section key w = (Raise (KeyError section), w).
Proof. intros Hs. unfold conf_get. by rewrite Hs. Qed.

Lemma conf_get_no_key (config : gmap string (gmap string string))
    (section key : string) (sec : gmap string string) (w : World) :
  config !! section = Some sec -> sec !! key = None ->
  conf_get config section key w = (Raise (KeyError key), w).
Proof. intros Hs Hk. unfold conf_get. by rewrite Hs, Hk. Qed.

(** C6: the connection loop of the seeding makes at most 10 connection
    attempts.  Every attempt that fails with the connector's error,
    except the tenth, is followed by a sleep of 10 seconds and the next
    attempt; the first successful attempt ends the loop, and what
    follows at once is the cursor and the seeding statements; the
    connector's error is re-raised only when it is the tenth attempt
    that fails (and then without a sleep). *)
Theorem connect_retries_ten_attempts (host user password : string)
    (config : gmap string (gmap string string)) (sec : gmap string string)
    (db_name table_name : string) (w : World) :
  config !! "mysql" = Some sec ->
  sec !! "db_name" = Some db_name ->
  sec !! "table_name" = Some table_name ->
  let loop :=
    init_mysql.connect_with_retries [0; 1; 2; 3; 4; 5; 6; 7; 8; 9]
      host user password w in
  let whole :=
    init_mysql.create_database_and_table host user password config w in
  exists n, (n <= 9)%nat
    /\ (forall k, (k < n)%nat ->
          exists msg, connect_replies w k = ConnectMySQLError msg)
    /\ trace (snd loop)
       = (trace w ++ retries_trace host user password n
          ++ [EvConnect host user password None])%list
    /\ match connect_replies w n with
       | ConnectOk =>
           fst loop = Ok tt
           /\ whole = (connection_cursor ;;
                       try_finally (init_mysql.seed db_name table_name)
                         (cursor_close ;; connection_close)) (snd loop)
       | ConnectOtherError msg =>
           fst loop = Raise (OtherException msg)
           /\ whole = (Raise (OtherException msg), snd loop)
       | ConnectMySQLError msg =>
           n = 9%nat
           /\ fst loop = Raise (MySQLError msg)
           /\ whole = (Raise (MySQLError msg), snd loop)
       end.
Proof.
  intros Hsec Hdb Htbl loop whole.
  assert (Hwhole : whole
    = (init_mysql.connect_with_retries (range 0 init_mysql.max_retries)
         host user password ;;
       connection_cursor ;;
       try_finally (init_mysql.seed db_name table_name)
         (cursor_close ;; connection_close)) w).
  { unfold whole, init_mysql.create_database_and_table.
    rewrite (bind_ok _ _ _ _ _ (conf_get_ok _ _ _ _ _ w Hsec Hdb)).
    by rewrite (bind_ok _ _ _ _ _ (conf_get_ok _ _ _ _ _ w Hsec Htbl)). }
  destruct (retries_from host user password 9 0 w eq_refl)
    as (n & Hn & Hbefore & Htr & Hend).
  change (init_mysql.connect_with_retries _ host user password w)
    with loop in Htr, Hend.
  exists n. split; [exact Hn|]. split; [exact Hbefore|]. split; [exact Htr|].
  change (range 0 init_mysql.max_retries)
    with [0; 1; 2; 3; 4; 5; 6; 7; 8; 9] in Hwhole.
  unfold bind at 1 in Hwhole. fold loop in Hwhole.
  destruct loop as [res w1]. cbn [fst snd] in *.
  destruct (connect_replies w n) as [|msg|msg].
  - subst res. done.
  - destruct Hend as (-> & ->). done.
  - subst res. done.
Qed.

(** C6 at a world whose server refuses the first two attempts: two
    failed attempts, each followed by a sleep of 10 seconds, and a third
    attempt that connects. *)
Lemma connect_retries_ten_attempts_witness :
  conf_yml cold_start_world !! "mysql"
  = Some {[ "instance_name" := "cdc-mysql"; "tier" := "db-f1-micro";
            "version" := "MYSQL_8_0"; "db_name" := "shop";
            "table_name" := "items"; "root_user" := "root" ]}
  /\ init_mysql.connect_with_retries [0; 1; 2; 3; 4; 5; 6; 7; 8; 9]
       "10.0.0.1" "root" "secret" cold_start_world
     = (Ok tt,
        snd (init_mysql.connect_with_retries [0; 1; 2; 3; 4; 5; 6; 7; 8; 9]
               "10.0.0.1" "root" "secret" cold_start_world))
  /\ trace (snd (init_mysql.connect_with_retries
                   [0; 1; 2; 3; 4; 5; 6; 7; 8; 9]
                   "10.0.0.1" "root" "secret" cold_start_world))
     = [EvConnect "10.0.0.1" "root" "secret" None; EvSleep 10;
        EvConnect "10.0.0.1" "root" "secret" None; EvSleep 10;
        EvConnect "10.0.0.1" "root" "secret" None].
Proof.
  split; [reflexivity|].
  destruct (connect_retries_ten_attempts "10.0.0.1" "root" "secret"
              (conf_yml cold_start_world)
              {[ "instance_name" := "cdc-mysql"; "tier" := "db-f1-micro";
                 "version" := "MYSQL_8_0"; "db_name" := "shop";
                 "table_name" := "items"; "root_user" := "root" ]}
              "shop" "items" cold_start_world)
    as (n & Hn & Hbefore & Htr & Hend); [reflexivity..|].
  destruct n as [|[|[|n]]].
  - cbn in Hend. destruct Hend as [Hn9 _]. discriminate Hn9.
  - cbn in Hend. destruct Hend as [Hn9 _]. discriminate Hn9.
  - cbn -[init_mysql.connect_with_retries] in Hend.
    destruct Hend as [Hok _]. split; [|exact Htr].
    destruct (init_mysql.connect_with_retries _ _ _ _ _) as [res w1].
    cbn [fst snd] in *. by subst res.
  - destruct (Hbefore 2%nat ltac:(lia)) as [msg Hmsg]. discriminate Hmsg.
Defined.

(** ** The warehouse initializer *)

Ltac run_bq :=
  unfold client_get_dataset, client_create_dataset, client_get_table,
    client_query_create_table, bq_call, pop_bq_fault;
  run.

Section Warehouse.
Import init_bq.

(** *** The client calls *)

Lemma get_dataset_fault ref e w :
  bq_faults w O = Some e ->
  exists w', client_get_dataset ref w = (Raise e, w')
    /\ trace w' = (trace w ++ [EvGetDataset ref])%list
    /\ bq_datasets w' = bq_datasets w /\ bq_tables w' = bq_tables w
    /\ bq_faults w' = rest (bq_faults w).
Proof. intros H. run_bq. finish. Qed.

Lemma get_dataset_present ref w :
  bq_faults w O = None -> ref ∈ bq_datasets w ->
  exists w', client_get_dataset ref w = (Ok tt, w')
    /\ trace w' = (trace w ++ [EvGetDataset ref])%list
    /\ bq_datasets w' = bq_datasets w /\ bq_tables w' = bq_tables w
    /\ bq_faults w' = rest (bq_faults w).
Proof. intros H Hin. run_bq. rewrite decide_True by done. finish. Qed.

Lemma get_dataset_absent ref w :
  bq_faults w O = None -> ref ∉ bq_datasets w ->
  exists w' msg, client_get_dataset ref w = (Raise (NotFound msg), w')
    /\ trace w' = (trace w ++ [EvGetDataset ref])%list
    /\ bq_datasets w' = bq_datasets w /\ bq_tables w' = bq_tables w
    /\ bq_faults w' = rest (bq_faults w).
Proof.
  intros H Hin. run_bq. rewrite decide_False by done.
  eexists _, _. split; [reflexivity|]. by simp.
Qed.

Lemma create_dataset_fault ref location e w :
  bq_faults w O = Some e ->
  exists w', client_create_dataset ref location w = (Raise e, w')
    /\ trace w' = (trace w ++ [EvCreateDataset ref location])%list
    /\ bq_datasets w' = bq_datasets w /\ bq_tables w' = bq_tables w
    /\ bq_faults w' = rest (bq_faults w).
Proof. intros H. run_bq. finish. Qed.

Lemma create_dataset_present ref location w :
  bq_faults w O = None -> ref ∈ bq_datasets w ->
  exists w' msg,
    client_create_dataset ref location w = (Raise (Conflict msg), w')
    /\ trace w' = (trace w ++ [EvCreateDataset ref location])%list
    /\ bq_datasets w' = bq_datasets w /\ bq_tables w' = bq_tables w
    /\ bq_faults w' = rest (bq_faults w).
Proof.
  intros H Hin. run_bq. rewrite decide_True by done.
  eexists _, _. split; [reflexivity|]. by simp.
Qed.

Lemma create_dataset_absent ref location w :
  bq_faults w O = None -> ref ∉ bq_datasets w ->
  exists w', client_create_dataset ref location w = (Ok tt, w')
    /\ trace w' = (trace w ++ [EvCreateDataset ref location])%list
    /\ bq_datasets w' = {[ref]} ∪ bq_datasets w
    /\ bq_tables w' = bq_tables w
    /\ bq_faults w' = rest (bq_faults w).
Proof. intros H Hin. run_bq. rewrite decide_False by done. finish. Qed.

Lemma get_table_fault ref e w :
  bq_faults w O = Some e ->
  exists w', client_get_table ref w = (Raise e, w')
    /\ trace w' = (trace w ++ [EvGetTable ref])%list
    /\ bq_datasets w' = bq_datasets w /\ bq_tables w' = bq_tables w
    /\ bq_faults w' = rest (bq_faults w).
Proof. intros H. run_bq. finish. Qed.

Lemma get_table_present ref w :
  bq_faults w O = None -> ref ∈ bq_tables w ->
  exists w', client_get_table ref w = (Ok tt, w')
    /\ trace w' = (trace w ++ [EvGetTable ref])%list
    /\ bq_datasets w' = bq_datasets w /\ bq_tables w' = bq_tables w
    /\ bq_faults w' = rest (bq_faults w).
Proof. intros H Hin. run_bq. rewrite decide_True by done. finish. Qed.

Lemma get_table_absent ref w :
  bq_faults w O = None -> ref ∉ bq_tables w ->
  exists w' msg, client_get_table ref w = (Raise (NotFound msg), w')
    /\ trace w' = (trace w ++ [EvGetTable ref])%list
    /\ bq_datasets w' = bq_datasets w /\ bq_tables w' = bq_tables w
    /\ bq_faults w' = rest (bq_faults w).
Proof.
  intros H Hin. run_bq. rewrite decide_False by done.
  eexists _, _. split; [reflexivity|]. by simp.
Qed.

Lemma create_table_absent dsref ref w :
  bq_faults w O = None -> dsref ∈ bq_datasets w -> ref ∉ bq_tables w ->
  exists w', client_query_create_table dsref ref w = (Ok tt, w')
    /\ trace w' = (trace w ++ [EvQueryCreateTable dsref ref])%list
    /\ bq_datasets w' = bq_datasets w
    /\ bq_tables w' = {[ref]} ∪ bq_tables w
    /\ bq_faults w' = rest (bq_faults w).
Proof.
  intros H Hds Hin. run_bq.
  rewrite decide_True by done. rewrite decide_False by done. finish.
Qed.

Lemma create_table_present dsref ref w :
  bq_faults w O = None -> dsref ∈ bq_datasets w -> ref ∈ bq_tables w ->
  exists w',
    client_query_create_table dsref ref w
    = (Raise (Conflict ("Already Exists: Table " ++ ref)), w')
    /\ trace w' = (trace w ++ [EvQueryCreateTable dsref ref])%list
    /\ bq_datasets w' = bq_datasets w /\ bq_tables w' = bq_tables w
    /\ bq_faults w' = rest (bq_faults w).
Proof.
  intros H Hds Hin. run_bq. rewrite !decide_True by done. finish.
Qed.

(** *** [create_dataset_if_not_exists] *)

Lemma dataset_found project_id dataset_id location w w1 :
  client_get_dataset (project_id ++ "." ++ dataset_id) w = (Ok tt, w1) ->
  create_dataset_if_not_exists project_id dataset_id location w
  = (Ok true, w1).
Proof.
  intros Hget. unfold create_dataset_if_not_exists, try_except.
  by rewrite (bind_ok _ _ _ _ _ Hget).
Qed.

Lemma dataset_get_fails project_id dataset_id location e w w1 :
  client_get_dataset (project_id ++ "." ++ dataset_id) w = (Raise e, w1) ->
  (forall msg, e <> NotFound msg) ->
  create_dataset_if_not_exists project_id dataset_id location w
  = (Raise e, w1).
Proof.
  intros Hget Hne. unfold create_dataset_if_not_exists, try_except.
  rewrite (bind_raise _ _ _ _ _ Hget).
  destruct e; try reflexivity. by destruct (Hne msg).
Qed.

Lemma dataset_created project_id dataset_id location msg w w1 w2 :
  client_get_dataset (project_id ++ "." ++ dataset_id) w
  = (Raise (NotFound msg), w1) ->
  client_create_dataset (project_id ++ "." ++ dataset_id) location w1
  = (Ok tt, w2) ->
  create_dataset_if_not_exists project_id dataset_id location w
  = (Ok true, w2).
Proof.
  intros Hget Hcreate. unfold create_dataset_if_not_exists, try_except.
  rewrite (bind_raise _ _ _ _ _ Hget).
  by rewrite (bind_ok _ _ _ _ _ Hcreate).
Qed.

Lemma dataset_conflict project_id dataset_id location msg msg' w w1 w2 :
  client_get_dataset (project_id ++ "." ++ dataset_id) w
  = (Raise (NotFound msg), w1) ->
  client_create_dataset (project_id ++ "." ++ dataset_id) location w1
  = (Raise (Conflict msg'), w2) ->
  create_dataset_if_not_exists project_id dataset_id location w
  = (Ok true, w2).
Proof.
  intros Hget Hcreate. unfold create_dataset_if_not_exists, try_except.
  rewrite (bind_raise _ _ _ _ _ Hget).
  by rewrite (bind_raise _ _ _ _ _ Hcreate).
Qed.

Lemma dataset_create_fails project_id dataset_id location msg e w w1 w2 :
  client_get_dataset (project_id ++ "." ++ dataset_id) w
  = (Raise (NotFound msg), w1) ->
  client_create_dataset (project_id ++ "." ++ dataset_id) location w1
  = (Raise e, w2) ->
  (forall msg', e <> Conflict msg') ->
  create_dataset_if_not_exists project_id dataset_id location w
  = (Raise e, w2).
Proof.
  intros Hget Hcreate Hne. unfold create_dataset_if_not_exists, try_except.
  rewrite (bind_raise _ _ _ _ _ Hget).
  rewrite (bind_raise _ _ _ _ _ Hcreate).
  destruct e; try reflexivity. by destruct (Hne msg0).
Qed.

(** *** [create_table_if_not_exists] *)

Lemma table_found project_id dataset_id table_id w w1 :
  client_get_table (project_id ++ "." ++ dataset_id ++ "." ++ table_id) w
  = (Ok tt, w1) ->
  create_table_if_not_exists project_id dataset_id table_id w = (Ok true, w1).
Proof.
  intros Hget. unfold create_table_if_not_exists, try_except.
  by rewrite (bind_ok _ _ _ _ _ Hget).
Qed.

Lemma table_get_fails project_id dataset_id table_id e w w1 :
  client_get_table (project_id ++ "." ++ dataset_id ++ "." ++ table_id) w
  = (Raise e, w1) ->
  (forall msg, e <> NotFound msg) ->
  create_table_if_not_exists project_id dataset_id table_id w = (Raise e, w1).
Proof.
  intros Hget Hne. unfold create_table_if_not_exists, try_except.
  rewrite (bind_raise _ _ _ _ _ Hget).
  destruct e; try reflexivity. by destruct (Hne msg).
Qed.

Lemma table_created project_id dataset_id table_id msg w w1 w2 :
  client_get_table (project_id ++ "." ++ dataset_id ++ "." ++ table_id) w
  = (Raise (NotFound msg), w1) ->
  client_query_create_table (project_id ++ "." ++ dataset_id)
    (project_id ++ "." ++ dataset_id ++ "." ++ table_id) w1
  = (Ok tt, w2) ->
  create_table_if_not_exists project_id dataset_id table_id w = (Ok true, w2).
Proof.
  intros Hget Hcreate. unfold create_table_if_not_exists, try_except.
  rewrite (bind_raise _ _ _ _ _ Hget).
  by rewrite (bind_ok _ _ _ _ _ Hcreate).
Qed.

Lemma table_create_raises project_id dataset_id table_id msg e w w1 w2 :
  client_get_table (project_id ++ "." ++ dataset_id ++ "." ++ table_id) w
  = (Raise (NotFound msg), w1) ->
  client_query_create_table (project_id ++ "." ++ dataset_id)
    (project_id ++ "." ++ dataset_id ++ "." ++ table_id) w1
  = (Raise e, w2) ->
  create_table_if_not_exists project_id dataset_id table_id w
  = (if is_Exception e && pystr.contains "Already Exists" (exn_str e)
     then Ok true else Raise e, w2).
Proof.
  intros Hget Hcreate. unfold create_table_if_not_exists, try_except.
  rewrite (bind_raise _ _ _ _ _ Hget).
  rewrite (bind_raise _ _ _ _ _ Hcreate).
  destruct (is_Exception e); [|reflexivity].
  cbn [andb]. by destruct (pystr.contains _ _).
Qed.

(** The service's own conflict message is one the table path accepts. *)
Lemma prefix_app needle s : String.prefix needle (needle ++ s) = true.
Proof.
  induction needle as [|c n IH]; simpl.
  - by destruct s.
  - destruct (ascii_dec c c) as [_|Hne]; [exact IH|by destruct Hne].
Qed.

Lemma contains_prefix needle s : pystr.contains needle (needle ++ s) = true.
Proof.
  pose proof (prefix_app needle s) as H.
  destruct (needle ++ s)%string; cbn [pystr.contains]; by rewrite H.
Qed.

End Warehouse.
(** C5 as stated fails for the table.  A conflict of the creation query
    whose text does not hold "Already Exists" is raised to the caller,
    not treated as success; and a failure of the creation query that is
    no conflict but whose text holds "Already Exists" is treated as
    success, although no table was created. *)
Lemma table_conflict_counterexample :
  fst (init_bq.create_table_if_not_exists "demo-project" "cdc_demo" "items"
         table_conflict_world)
  = Raise (Conflict "409 already exists: table items")
  /\ fst (init_bq.create_table_if_not_exists "demo-project" "cdc_demo"
            "items" table_conflict_world) <> Ok true
  /\ fst (init_bq.create_table_if_not_exists "demo-project" "cdc_demo"
            "items" table_denied_world) = Ok true
  /\ bq_tables (snd (init_bq.create_table_if_not_exists "demo-project"
                       "cdc_demo" "items" table_denied_world)) = ∅.
Proof.
  assert (H : fst (init_bq.create_table_if_not_exists "demo-project"
                     "cdc_demo" "items" table_conflict_world)
              = Raise (Conflict "409 already exists: table items"))
    by (vm_compute; reflexivity).
  split; [exact H|]. split; [rewrite H; discriminate|].
  split; vm_compute; reflexivity.
Qed.

(** C5, amended: dataset creation and table creation of the warehouse
    initializer are idempotent.  (1) Against a resource that exists,
    each returns [True] after the one lookup call, without a creation
    call and without changing the service.  (2) When the lookup reports
    "not found" and the creation call then raises an already-exists
    conflict, each returns [True]: for the dataset the conflict is an
    exception of class [Conflict]; for the table it is an exception
    whose text contains "Already Exists", as the service's own conflict
    does.  (3) Any other exception of the creation call is raised to the
    caller: for the dataset one that is not of class [Conflict], for the
    table one whose text does not contain "Already Exists". *)
Theorem ensure_resources_idempotent
    (project_id dataset_id table_id location : string) (w : World) :
  let dataset_ref := project_id ++ "." ++ dataset_id in
  let table_ref := project_id ++ "." ++ dataset_id ++ "." ++ table_id in
  let ensure_dataset :=
    init_bq.create_dataset_if_not_exists project_id dataset_id location in
  let ensure_table :=
    init_bq.create_table_if_not_exists project_id dataset_id table_id in
  (* (1) the resource exists *)
  (bq_faults w O = None -> dataset_ref ∈ bq_datasets w ->
   fst (ensure_dataset w) = Ok true
   /\ trace (snd (ensure_dataset w)) = (trace w ++ [EvGetDataset dataset_ref])%list
   /\ bq_datasets (snd (ensure_dataset w)) = bq_datasets w)
  /\ (bq_faults w O = None -> table_ref ∈ bq_tables w ->
      fst (ensure_table w) = Ok true
      /\ trace (snd (ensure_table w)) = (trace w ++ [EvGetTable table_ref])%list
      /\ bq_tables (snd (ensure_table w)) = bq_tables w)
  (* (2) the creation call conflicts *)
  /\ (forall msg msg' w1 w2,
        client_get_dataset dataset_ref w = (Raise (NotFound msg), w1) ->
        client_create_dataset dataset_ref location w1
        = (Raise (Conflict msg'), w2) ->
        ensure_dataset w = (Ok true, w2))
  /\ (forall msg e w1 w2,
        client_get_table table_ref w = (Raise (NotFound msg), w1) ->
        client_query_create_table dataset_ref table_ref w1 = (Raise e, w2) ->
        is_Exception e = true ->
        pystr.contains "Already Exists" (exn_str e) = true ->
        ensure_table w = (Ok true, w2))
  /\ (forall msg w1,
        client_get_table table_ref w = (Raise (NotFound msg), w1) ->
        bq_faults w1 O = None ->
        dataset_ref ∈ bq_datasets w1 -> table_ref ∈ bq_tables w1 ->
        fst (ensure_table w) = Ok true)
  (* (3) the creation call fails otherwise *)
  /\ (forall msg e w1 w2,
        client_get_dataset dataset_ref w = (Raise (NotFound msg), w1) ->
        client_create_dataset dataset_ref location w1 = (Raise e, w2) ->
        (forall msg', e <> Conflict msg') ->
        ensure_dataset w = (Raise e, w2))
  /\ (forall msg e w1 w2,
        client_get_table table_ref w = (Raise (NotFound msg), w1) ->
        client_query_create_table dataset_ref table_ref w1 = (Raise e, w2) ->
        is_Exception e && pystr.contains "Already Exists" (exn_str e) = false ->
        ensure_table w = (Raise e, w2)).
Proof.
  intros dataset_ref table_ref ensure_dataset ensure_table.
  repeat apply conj.
  - intros Hf Hin.
    destruct (get_dataset_present dataset_ref w Hf Hin)
      as (w1 & Hget & Htr & Hds & _).
    unfold ensure_dataset.
    rewrite (dataset_found _ _ _ _ _ Hget). done.
  - intros Hf Hin.
    destruct (get_table_present table_ref w Hf Hin)
      as (w1 & Hget & Htr & _ & Hts & _).
    unfold ensure_table.
    rewrite (table_found _ _ _ _ _ Hget). done.
  - intros msg msg' w1 w2 Hget Hcreate.
    exact (dataset_conflict _ _ _ _ _ _ _ _ Hget Hcreate).
  - intros msg e w1 w2 Hget Hcreate He Htext.
    unfold ensure_table.
    rewrite (table_create_raises _ _ _ _ _ _ _ _ Hget Hcreate).
    by rewrite He, Htext.
  - intros msg w1 Hget Hf Hds Hts.
    destruct (create_table_present dataset_ref table_ref w1 Hf Hds Hts)
      as (w2 & Hcreate & _).
    unfold ensure_table.
    rewrite (table_create_raises _ _ _ _ _ _ _ _ Hget Hcreate).
    cbn [is_Exception exn_str andb fst].
    replace (pystr.contains _ _) with true; [done|].
    symmetry. exact (contains_prefix "Already Exists" (": Table " ++ table_ref)).
  - intros msg e w1 w2 Hget Hcreate Hne.
    exact (dataset_create_fails _ _ _ _ _ _ _ _ Hget Hcreate Hne).
  - intros msg e w1 w2 Hget Hcreate Hno.
    unfold ensure_table.
    rewrite (table_create_raises _ _ _ _ _ _ _ _ Hget Hcreate).
    by rewrite Hno.
Qed.

(** C5 on a warehouse that is already set up: both calls succeed and
    only look the resource up; and on one where the table appears
    between lookup and creation: the creation query conflicts, and the
    call succeeds all the same. *)
Lemma ensure_resources_idempotent_witness :
  fst (init_bq.create_dataset_if_not_exists "demo-project" "cdc_demo" "US"
         provisioned_warehouse) = Ok true
  /\ trace (snd (init_bq.create_dataset_if_not_exists "demo-project"
                   "cdc_demo" "US" provisioned_warehouse))
     = [EvGetDataset "demo-project.cdc_demo"]
  /\ fst (init_bq.create_table_if_not_exists "demo-project" "cdc_demo" "items"
            provisioned_warehouse) = Ok true
  /\ trace (snd (init_bq.create_table_if_not_exists "demo-project"
                   "cdc_demo" "items" provisioned_warehouse))
     = [EvGetTable "demo-project.cdc_demo.items"]
  /\ fst (client_query_create_table "demo-project.cdc_demo"
            "demo-project.cdc_demo.items"
            (snd (client_get_table "demo-project.cdc_demo.items"
                    raced_warehouse)))
     = Raise (Conflict "Already Exists: Table demo-project.cdc_demo.items")
  /\ fst (init_bq.create_table_if_not_exists "demo-project" "cdc_demo" "items"
            raced_warehouse) = Ok true.
Proof.
  destruct (ensure_resources_idempotent "demo-project" "cdc_demo" "items" "US"
              provisioned_warehouse) as (Hd & Ht & _).
  destruct Hd as (Hd1 & Hd2 & _);
    [reflexivity|vm_compute; reflexivity|].
  destruct Ht as (Ht1 & Ht2 & _);
    [reflexivity|vm_compute; reflexivity|].
  destruct (ensure_resources_idempotent "demo-project" "cdc_demo" "items" "US"
              raced_warehouse) as (_ & _ & _ & _ & Hrace & _).
  pose proof (Hrace "Not found: Table demo-project.cdc_demo.items"
                (snd (client_get_table "demo-project.cdc_demo.items"
                        raced_warehouse))) as Hrace'.
  split; [exact Hd1|]. split; [exact Hd2|].
  split; [exact Ht1|]. split; [exact Ht2|].
  split; [vm_compute; reflexivity|].
  apply Hrace'; vm_compute; reflexivity.
Defined.

(** ** The mutation loop *)

Section MutationLoop.
Import update_mysql.
Variable tbl : string.

Lemma mutation_steps_app evs evs' :
  mutation_steps (evs ++ evs')
  = (mutation_steps evs + mutation_steps evs')%nat.
Proof. unfold mutation_steps. by rewrite List.filter_app, length_app. Qed.

(** *** What the server can answer *)

Lemma selected_tables_cases v :
  (exists db tables, selected_tables v = (Ok (db, tables), v))
  \/ (exists msg, selected_tables v = (Raise (MySQLError msg), v)).
Proof.
  unfold selected_tables, bind, get, ret, raise.
  destruct (current_db v) as [db|]; [|right; eauto].
  destruct (mysql v !! db) as [tables|]; [left|right]; eauto.
Qed.

Lemma selected_table_cases t v :
  (exists db rows, selected_table t v = (Ok (db, rows), v))
  \/ (exists msg, selected_table t v = (Raise (MySQLError msg), v)).
Proof.
  unfold selected_table.
  destruct (selected_tables_cases v) as [(db & tables & H)|(msg & H)].
  - rewrite (bind_ok _ _ _ _ _ H).
    destruct (tables !! t) as [rows|]; [left|right]; eauto.
  - rewrite (bind_raise _ _ _ _ _ H). right. eauto.
Qed.

(** The two statements of a mutation step either answer or raise the
    connector's error; they touch neither trace, flag nor signals. *)
Lemma select_price_answers t i v :
  exists res v',
    mysql_run (SelectPriceDescription t i) v = (res, v')
    /\ trace v' = trace v /\ signals v' = signals v
    /\ running v' = running v
    /\ ((res = Ok [])
        \/ (exists p d, res = Ok [[VDecimal p; VStr d]])
        \/ (exists msg, res = Raise (MySQLError msg))).
Proof.
  cbn [mysql_run].
  destruct (selected_table_cases t v) as [(db & rows & H)|(msg & H)].
  - rewrite (bind_ok _ _ _ _ _ H). cbn beta iota.
    destruct (rows !! i) as [r|]; eexists _, _;
      (split; [reflexivity|]); repeat (split; [reflexivity|]); eauto.
  - rewrite (bind_raise _ _ _ _ _ H). eexists _, _.
    split; [reflexivity|]. repeat (split; [reflexivity|]). eauto.
Qed.

Lemma update_price_answers t p i v :
  exists res v',
    mysql_run (UpdatePriceNow t p i) v = (res, v')
    /\ trace v' = trace v /\ signals v' = signals v
    /\ running v' = running v
    /\ ((res = Ok []) \/ (exists msg, res = Raise (MySQLError msg))).
Proof.
  cbn [mysql_run].
  destruct (selected_table_cases t v) as [(db & rows & H)|(msg & H)].
  - rewrite (bind_ok _ _ _ _ _ H). cbn beta iota.
    eexists _, _. split; [reflexivity|]. repeat (split; [reflexivity|]).
    eauto.
  - rewrite (bind_raise _ _ _ _ _ H). eexists _, _.
    split; [reflexivity|]. repeat (split; [reflexivity|]). eauto.
Qed.

(** A statement on its way to the server. *)
Lemma execute_unfold stmt w :
  exists v,
    trace v = (trace w ++ [EvExecute stmt])%list
    /\ signals v = signals w /\ running v = running w
    /\ cursor_execute stmt w
       = match sql_faults w O with
         | Some msg => (Raise (MySQLError msg), v)
         | None => (rows <- mysql_run stmt ;; modify (set_cursor_rows rows)) v
         end.
Proof.
  eexists. split; [|split; [|split]]; cycle 3.
  - unfold cursor_execute, pop_sql_fault, elapse, emit, modify.
    unfold bind at 1 2 3. cbn -[mysql_run bind].
    destruct (sql_faults w O); reflexivity.
  - reflexivity.
  - reflexivity.
  - reflexivity.
Qed.

(** A mutation step sends its select and then either returns or
    raises the connector's error; it leaves flag and signals alone. *)
Lemma update_outcome w :
  exists res w',
    update_random_record tbl w = (res, w')
    /\ exists evs,
    trace w' = (trace w ++ evs)%list
    /\ mutation_steps evs = 1%nat
    /\ (forall e, e ∈ evs -> exists stmt, e = EvExecute stmt)
    /\ signals w' = signals w
    /\ running w' = running w
    /\ ((exists r, res = Ok r) \/ (exists msg, res = Raise (MySQLError msg))).
Proof.
  set (i := 1 + Z.of_N (random_bits w O) mod 10).
  set (w1 := set_random_bits (rest (random_bits w)) w).
  assert (Hone : forall (e : Event), e = EvExecute (SelectPriceDescription tbl i) ->
            mutation_steps [e] = 1%nat
            /\ (forall e', e' ∈ [e] -> exists stmt, e' = EvExecute stmt)).
  { intros e ->. split; [reflexivity|].
    intros e' He'. apply list_elem_of_singleton in He' as ->. eauto. }
  assert (Htwo : forall (e1 e2 : Event) p,
            e1 = EvExecute (SelectPriceDescription tbl i) ->
            e2 = EvExecute (UpdatePriceNow tbl p i) ->
            mutation_steps [e1; e2] = 1%nat
            /\ (forall e', e' ∈ [e1; e2] -> exists stmt, e' = EvExecute stmt)).
  { intros e1 e2 p -> ->. split; [reflexivity|].
    intros e' He'. apply elem_of_cons in He' as [->|He']; [eauto|].
    apply list_elem_of_singleton in He' as ->. eauto. }
  unfold update_random_record.
  rewrite (bind_ok _ _ _ _ _ (randint_1_10 w)). fold i w1.
  destruct (execute_unfold (SelectPriceDescription tbl i) w1)
    as (v & Htr & Hsg & Hrn & Hexec).
  destruct (sql_faults w1 O) as [msg|].
  { rewrite (bind_raise _ _ _ _ _ Hexec). eexists _, _.
    split; [reflexivity|]. exists [EvExecute (SelectPriceDescription tbl i)].
    destruct (Hone _ eq_refl) as [H1 H2].
    split; [exact Htr|]. split; [exact H1|]. split; [exact H2|].
    split; [exact Hsg|]. split; [exact Hrn|]. right. eauto. }
  destruct (select_price_answers tbl i v)
    as (res & v' & Hrun & Htr' & Hsg' & Hrn' & Hres).
  destruct Hres as [->|[(p & d & ->)|(msg & ->)]].
  - (* no such row *)
    rewrite (bind_ok _ _ _ _ _ Hrun) in Hexec. unfold modify in Hexec.
    rewrite (bind_ok _ _ _ _ _ Hexec).
    rewrite (bind_ok _ _ _ _ _
               (fetchone_none (set_cursor_rows [] v') eq_refl)).
    eexists _, _. split; [reflexivity|].
    exists [EvExecute (SelectPriceDescription tbl i)].
    destruct (Hone _ eq_refl) as [H1 H2].
    split; [cbn; by rewrite Htr', Htr|]. split; [exact H1|].
    split; [exact H2|]. split; [cbn; by rewrite Hsg', Hsg|].
    split; [cbn; by rewrite Hrn', Hrn|]. left. eauto.
  - (* the row is there *)
    rewrite (bind_ok _ _ _ _ _ Hrun) in Hexec. unfold modify in Hexec.
    rewrite (bind_ok _ _ _ _ _ Hexec).
    rewrite (bind_ok _ _ _ _ _
               (fetchone_some [VDecimal p; VStr d] []
                  (set_cursor_rows [[VDecimal p; VStr d]] v') eq_refl)).
    set (v2 := set_cursor_rows [] _).
    destruct (random_price v2) as (x & Hx & _).
    rewrite (bind_ok _ _ _ _ _ Hx).
    set (v3 := set_random_bits _ v2).
    destruct (execute_unfold (UpdatePriceNow tbl (round2 x) i) v3)
      as (v4 & Htr4 & Hsg4 & Hrn4 & Hexec4).
    destruct (Htwo _ _ (round2 x) eq_refl eq_refl) as [H1 H2].
    assert (Htr3 : trace v3
                   = (trace w ++ [EvExecute (SelectPriceDescription tbl i)])%list).
    { cbn. by rewrite Htr', Htr. }
    assert (Hsg3 : signals v3 = signals w) by (cbn; by rewrite Hsg', Hsg).
    assert (Hrn3 : running v3 = running w) by (cbn; by rewrite Hrn', Hrn).
    destruct (sql_faults v3 O) as [msg|].
    { rewrite (bind_raise _ _ _ _ _ Hexec4). eexists _, _.
      split; [reflexivity|]. eexists.
      split; [by rewrite Htr4, Htr3, <- app_assoc|].
      split; [exact H1|]. split; [exact H2|].
      split; [by rewrite Hsg4|]. split; [by rewrite Hrn4|]. right. eauto. }
    destruct (update_price_answers tbl (round2 x) i v4)
      as (res & v5 & Hrun5 & Htr5 & Hsg5 & Hrn5 & Hres5).
    destruct Hres5 as [->|(msg & ->)].
    + rewrite (bind_ok _ _ _ _ _ Hrun5) in Hexec4. unfold modify in Hexec4.
      rewrite (bind_ok _ _ _ _ _ Hexec4).
      eexists _, _. split; [reflexivity|]. eexists.
      split; [cbn; by rewrite Htr5, Htr4, Htr3, <- app_assoc|].
      split; [exact H1|]. split; [exact H2|].
      split; [cbn; by rewrite Hsg5, Hsg4|].
      split; [cbn; by rewrite Hrn5, Hrn4|]. left. eauto.
    + rewrite (bind_raise _ _ _ _ _ Hrun5) in Hexec4.
      rewrite (bind_raise _ _ _ _ _ Hexec4).
      eexists _, _. split; [reflexivity|]. eexists.
      split; [by rewrite Htr5, Htr4, Htr3, <- app_assoc|].
      split; [exact H1|]. split; [exact H2|].
      split; [by rewrite Hsg5, Hsg4|].
      split; [by rewrite Hrn5, Hrn4|]. right. eauto.
  - (* the select fails on the server *)
    rewrite (bind_raise _ _ _ _ _ Hrun) in Hexec.
    rewrite (bind_raise _ _ _ _ _ Hexec).
    eexists _, _. split; [reflexivity|].
    exists [EvExecute (SelectPriceDescription tbl i)].
    destruct (Hone _ eq_refl) as [H1 H2].
    split; [by rewrite Htr', Htr|]. split; [exact H1|].
    split; [exact H2|]. split; [by rewrite Hsg', Hsg|].
    split; [by rewrite Hrn', Hrn|]. right. eauto.
Qed.

(** *** The pause between two rounds *)

Lemma pause_runs {A : Type} (k : M A) w :
  (wait_time <- random_uniform 1 3 ;;
   time_sleep wait_time ;;
   signal_window ;;
   k) w
  = k (after_pause w).
Proof.
  unfold after_pause, random_uniform, random_random, next_random,
    time_sleep, signal_window, signal_handler, elapse, emit, modify, bind,
    ret.
  cbn -[Qplus Qmult Qminus].
  destruct (signals w O); reflexivity.
Qed.

Lemma pause_facts w :
  (exists d, (1 <= d <= 3)%Q
             /\ trace (after_pause w) = (trace w ++ [EvSleep d])%list)
  /\ signals (after_pause w) = rest (signals w)
  /\ running (after_pause w) = (if signals w O then false else running w).
Proof.
  destruct (random_uniform_range 1 3 w ltac:(done)) as (d & Hd & Hrange).
  unfold after_pause. rewrite (bind_ok _ _ _ _ _ Hd).
  unfold time_sleep, signal_window, signal_handler, elapse, emit, modify,
    bind, ret.
  cbn -[Qplus Qmult Qminus].
  split; [exists d; split; [exact Hrange|]|];
    destruct (signals w O); done.
Qed.

(** *** One test of [running] *)

Lemma loop_stop fuel c w :
  running w = false -> mutation_loop (S fuel) tbl c w = (Ok c, w).
Proof. intros H. cbn [mutation_loop]. unfold bind, get. by rewrite H. Qed.

Lemma loop_step_raises fuel c e w w1 :
  running w = true ->
  update_random_record tbl w = (Raise e, w1) ->
  mutation_loop (S fuel) tbl c w = (Raise e, w1).
Proof.
  intros H Hstep. cbn [mutation_loop]. unfold bind at 1. unfold get.
  rewrite H. by rewrite (bind_raise _ _ _ _ _ Hstep).
Qed.

Lemma loop_step_returns fuel c r w w1 :
  running w = true ->
  update_random_record tbl w = (Ok r, w1) ->
  mutation_loop (S fuel) tbl c w
  = mutation_loop fuel tbl
      (match r with Some _ => c + 1 | None => c end) (after_pause w1).
Proof.
  intros H Hstep. cbn [mutation_loop]. unfold bind at 1. unfold get.
  rewrite H. rewrite (bind_ok _ _ _ _ _ Hstep).
  apply (pause_runs
           (mutation_loop fuel tbl
              (match r with Some _ => c + 1 | None => c end))).
Qed.

(** *** The loop until a signal

    A signal in the [n]-th window from now ends the loop after at most
    [n + 1] further steps, unless the connector's error ends it
    earlier; nothing but statements and sleeps happens meanwhile. *)
Lemma loop_until_signal n : forall fuel c w,
  signals w n = true -> (S (S n) <= fuel)%nat ->
  exists res w' body,
    mutation_loop fuel tbl c w = (res, w')
    /\ trace w' = (trace w ++ body)%list
    /\ (mutation_steps body <= S n)%nat
    /\ (running w = false -> body = [])
    /\ ((exists c', res = Ok c' /\ running w' = false)
        \/ (exists msg, res = Raise (MySQLError msg))).
Proof.
  induction n as [|n IH]; intros fuel c w Hsig Hfuel;
    (destruct fuel as [|fuel]; [lia|]);
    (destruct (running w) eqn:Hrun;
     [|exists (Ok c), w, []; rewrite (loop_stop _ _ _ Hrun), app_nil_r;
       split; [done|]; split; [done|]; split; [cbn; lia|];
       split; [done|]; left; by exists c]);
    destruct (update_outcome w)
      as (res & w1 & Hstep & evs & Htr & Hsteps & _ & Hsg & Hrn & Hres);
    destruct Hres as [[r ->]|[msg ->]].
  - rewrite (loop_step_returns _ _ _ _ _ Hrun Hstep).
    destruct (pause_facts w1) as ((d & _ & Htr2) & Hsg2 & Hrn2).
    rewrite Hsg, Hsig in Hrn2.
    destruct fuel as [|fuel]; [lia|].
    rewrite (loop_stop _ _ _ Hrn2).
    eexists _, _, (evs ++ [EvSleep d])%list. split; [reflexivity|].
    split; [by rewrite Htr2, Htr, <- app_assoc|].
    split; [rewrite mutation_steps_app, Hsteps; cbn; lia|].
    split; [done|]. left. eauto.
  - rewrite (loop_step_raises _ _ _ _ _ Hrun Hstep).
    eexists _, _, evs. split; [reflexivity|]. split; [done|].
    split; [lia|]. split; [done|]. right. eauto.
  - rewrite (loop_step_returns _ _ _ _ _ Hrun Hstep).
    destruct (pause_facts w1) as ((d & _ & Htr2) & Hsg2 & Hrn2).
    destruct (IH fuel (match r with Some _ => c + 1 | None => c end)
                (after_pause w1))
      as (res & w' & body & Hloop & Htr' & Hsteps' & _ & Hres).
    { rewrite Hsg2, Hsg. exact Hsig. }
    { lia. }
    exists res, w', (evs ++ EvSleep d :: body)%list.
    split; [exact Hloop|].
    split.
    { rewrite Htr', Htr2, Htr, <- !app_assoc. reflexivity. }
    split.
    { rewrite mutation_steps_app, Hsteps.
      change (EvSleep d :: body) with ([EvSleep d] ++ body)%list.
      rewrite mutation_steps_app. cbn. lia. }
    split; [done|exact Hres].
  - rewrite (loop_step_raises _ _ _ _ _ Hrun Hstep).
    eexists _, _, evs. split; [reflexivity|]. split; [done|].
    split; [lia|]. split; [done|]. right. eauto.
Qed.

(** *** The [try] block around the loop *)

Lemma updates_after_loop_returns fuel c w w1 :
  mutation_loop fuel tbl 0 w = (Ok c, w1) ->
  exists w', main_updates fuel tbl w = (Ok tt, w')
    /\ trace w' = (trace w1 ++ [EvCursorClose; EvConnectionClose])%list.
Proof.
  intros Hloop. unfold main_updates, try_finally, try_except.
  rewrite (bind_ok _ _ _ _ _ Hloop).
  unfold cursor_close, connection_close, emit, modify, bind, ret. cbn.
  eexists. split; [reflexivity|]. cbn. by rewrite <- app_assoc.
Qed.

Lemma updates_after_mysql_error fuel msg w w1 :
  mutation_loop fuel tbl 0 w = (Raise (MySQLError msg), w1) ->
  exists w', main_updates fuel tbl w = (Ok tt, w')
    /\ trace w' = (trace w1 ++ [EvCursorClose; EvConnectionClose])%list.
Proof.
  intros Hloop. unfold main_updates, try_finally, try_except.
  rewrite (bind_raise _ _ _ _ _ Hloop).
  unfold cursor_close, connection_close, emit, modify, bind, ret. cbn.
  eexists. split; [reflexivity|]. cbn. by rewrite <- app_assoc.
Qed.

Lemma main_after_setup fuel w0 w :
  main_setup w0 = (Ok tbl, w) ->
  main fuel w0 = main_updates fuel tbl w.
Proof. intros H. unfold main. by rewrite (bind_ok _ _ _ _ _ H). Qed.

End MutationLoop.

(** C8: once the running flag is false the loop takes no further step:
    a loop test that finds it false returns at once.  If a signal
    arrives in the [n]-th round from now, at most [n + 1] mutation steps
    are still started (none if the flag is already false), after which
    cursor and connection are closed, [main] returns and the process
    exits with status 0. *)
Theorem graceful_shutdown (tbl : string) (fuel n : nat) (w : World) :
  signals w n = true ->
  (S (S n) <= fuel)%nat ->
  (forall c f w1,
     running w1 = false ->
     update_mysql.mutation_loop (S f) tbl c w1 = (Ok c, w1))
  /\ exists w' body,
       update_mysql.main_updates fuel tbl w = (Ok tt, w')
       /\ trace w'
          = (trace w ++ body ++ [EvCursorClose; EvConnectionClose])%list
       /\ (mutation_steps body <= S n)%nat
       /\ (running w = false -> body = [])
       /\ forall w0,
            update_mysql.main_setup w0 = (Ok tbl, w) ->
            run_script (update_mysql.main fuel) w0 = (Some 0, w').
Proof.
  intros Hsig Hfuel. split.
  { intros c f w1 Hrun. by apply loop_stop. }
  destruct (loop_until_signal tbl n fuel 0 w Hsig Hfuel)
    as (res & w1 & body & Hloop & Htr & Hsteps & Hnone & Hres).
  assert (Hblock : exists w',
            update_mysql.main_updates fuel tbl w = (Ok tt, w')
            /\ trace w' = (trace w1 ++ [EvCursorClose; EvConnectionClose])%list).
  { destruct Hres as [(c' & -> & _)|(msg & ->)].
    - by eapply updates_after_loop_returns.
    - by eapply updates_after_mysql_error. }
  destruct Hblock as (w' & Hblock & Htr').
  exists w', body. split; [exact Hblock|].
  split; [by rewrite Htr', Htr, <- app_assoc|].
  split; [exact Hsteps|]. split; [exact Hnone|].
  intros w0 Hsetup. unfold run_script.
  by rewrite (main_after_setup tbl fuel w0 w Hsetup), Hblock.
Qed.

(** C8 with the signal arriving during the first round. *)
Lemma graceful_shutdown_witness :
  signals (set_signals (fun _ => true) seeded_world) 0%nat = true
  /\ exists w' body,
       update_mysql.main_updates 2 "items"
         (set_signals (fun _ => true) seeded_world) = (Ok tt, w')
       /\ (mutation_steps body <= 1)%nat
       /\ trace w' = (body ++ [EvCursorClose; EvConnectionClose])%list.
Proof.
  split; [reflexivity|].
  destruct (graceful_shutdown "items" 2 0
              (set_signals (fun _ => true) seeded_world))
    as (_ & w' & body & Hrun & Htr & Hsteps & _); [reflexivity|lia|].
  exists w', body. split; [exact Hrun|]. split; [exact Hsteps|exact Htr].
Defined.

(** C9 as stated fails: with a server that answers the first statement
    of the loop with an error, the driver exits with status 0, not 1. *)
Lemma db_error_exit_status_counterexample :
  fst (update_mysql.main_setup server_gone_world) = Ok "items"
  /\ running (snd (update_mysql.main_setup server_gone_world)) = true
  /\ fst (update_mysql.update_random_record "items"
            (snd (update_mysql.main_setup server_gone_world)))
     = Raise (MySQLError "MySQL server has gone away")
  /\ fst (run_script (update_mysql.main 1) server_gone_world) = Some 0
  /\ fst (run_script (update_mysql.main 1) server_gone_world) <> Some 1.
Proof.
  assert (H : fst (run_script (update_mysql.main 1) server_gone_world)
              = Some 0) by (vm_compute; reflexivity).
  split; [vm_compute; reflexivity|]. split; [vm_compute; reflexivity|].
  split; [vm_compute; reflexivity|]. split; [exact H|].
  rewrite H. discriminate.
Qed.

(** C9, amended: a database error in a mutation step ends the loop there
    and then, without a retry; cursor and connection are closed; [main]
    catches the error and returns, so the process exits with status 0.
    Status 1 is what an exception that escapes [main] gives, such as a
    failure of the setup before the loop. *)
Theorem db_error_stops_loop (tbl : string) (fuel : nat) (msg : string)
    (w w1 : World) :
  update_mysql.mutation_loop fuel tbl 0 w = (Raise (MySQLError msg), w1) ->
  (forall c f v v1 msg',
     running v = true ->
     update_mysql.update_random_record tbl v = (Raise (MySQLError msg'), v1) ->
     update_mysql.mutation_loop (S f) tbl c v = (Raise (MySQLError msg'), v1))
  /\ (exists w',
        update_mysql.main_updates fuel tbl w = (Ok tt, w')
        /\ trace w' = (trace w1 ++ [EvCursorClose; EvConnectionClose])%list
        /\ forall w0,
             update_mysql.main_setup w0 = (Ok tbl, w) ->
             run_script (update_mysql.main fuel) w0 = (Some 0, w'))
  /\ (forall w0 e v,
        update_mysql.main_setup w0 = (Raise e, v) ->
        is_Exception e = true ->
        run_script (update_mysql.main fuel) w0 = (Some 1, v)).
Proof.
  intros Hloop. split.
  { intros c f v v1 msg' Hrun Hstep. by apply loop_step_raises. }
  split.
  { destruct (updates_after_mysql_error tbl fuel msg w w1 Hloop)
      as (w' & Hblock & Htr).
    exists w'. split; [exact Hblock|]. split; [exact Htr|].
    intros w0 Hsetup. unfold run_script.
    by rewrite (main_after_setup tbl fuel w0 w Hsetup), Hblock. }
  intros w0 e v Hsetup He. unfold run_script, update_mysql.main.
  rewrite (bind_raise _ _ _ _ _ Hsetup). by destruct e.
Qed.

(** C9, amended, at the server that is gone. *)
Lemma db_error_stops_loop_witness :
  fst (update_mysql.mutation_loop 1 "items" 0
         (snd (update_mysql.main_setup server_gone_world)))
  = Raise (MySQLError "MySQL server has gone away")
  /\ exists w',
       update_mysql.main_updates 1 "items"
         (snd (update_mysql.main_setup server_gone_world)) = (Ok tt, w').
Proof.
  split; [vm_compute; reflexivity|].
  destruct (db_error_stops_loop "items" 1 "MySQL server has gone away"
              (snd (update_mysql.main_setup server_gone_world))
              (snd (update_mysql.mutation_loop 1 "items" 0
                      (snd (update_mysql.main_setup server_gone_world)))))
    as (_ & (w' & Hrun & _) & _).
  { vm_compute. reflexivity. }
  exists w'. exact Hrun.
Defined.

(** ** Programs that cannot succeed: missing settings *)

Section Running.
Context {P : Event -> bool}.

Lemma added_refl w : added_events P w w.
Proof. exists []. by rewrite app_nil_r. Qed.

Lemma added_trans w1 w2 w3 :
  added_events P w1 w2 -> added_events P w2 w3 -> added_events P w1 w3.
Proof.
  intros (e1 & H1 & F1) (e2 & H2 & F2). exists (e1 ++ e2)%list.
  rewrite H2, H1, <- app_assoc, forallb_app, F1, F2. done.
Qed.

Lemma runs_state {A : Type} (f : World -> A) (g : World -> World) :
  (forall w, trace (g w) = trace w) ->
  runs_within P (fun w => (Ok (f w), g w)).
Proof.
  intros Hg w. split; [|done]. exists []. cbn. by rewrite Hg, app_nil_r.
Qed.

Lemma runs_ret {A : Type} (a : A) : runs_within P (ret a).
Proof. by apply (runs_state (fun _ => a) (fun w => w)). Qed.

Lemma runs_get {A : Type} (f : World -> A) : runs_within P (get f).
Proof. by apply (runs_state f (fun w => w)). Qed.

Lemma runs_modify (g : World -> World) :
  (forall w, trace (g w) = trace w) -> runs_within P (modify g).
Proof. apply (runs_state (fun _ => tt) g). Qed.

Lemma runs_raise {A : Type} (e : exn) :
  is_Exception e = true -> runs_within P (@raise A e).
Proof. intros He w. split; [apply added_refl|exact He]. Qed.

Lemma runs_emit (e : Event) : P e = true -> runs_within P (emit e).
Proof.
  intros He w. split; [|done]. exists [e]. cbn. by rewrite He.
Qed.

Lemma runs_bind {A B : Type} (m : M A) (k : A -> M B) :
  runs_within P m -> (forall a, runs_within P (k a)) ->
  runs_within P (bind m k).
Proof.
  intros Hm Hk w. destruct (Hm w) as [Ha Hr]. unfold bind.
  destruct (m w) as [[a|e|] w1]; cbn in *; [|done..].
  destruct (Hk a w1) as [Ha' Hr']. split; [|exact Hr'].
  by eapply added_trans.
Qed.

Lemma fails_raise {A : Type} (e : exn) :
  is_Exception e = true -> fails_within P (@raise A e).
Proof. intros He w. split; [apply added_refl|by exists e]. Qed.

Lemma fails_bind_l {A B : Type} (m : M A) (k : A -> M B) :
  fails_within P m -> fails_within P (bind m k).
Proof.
  intros Hm w. destruct (Hm w) as [Ha (e & Hr & He)].
  unfold fails_at, bind.
  destruct (m w) as [[a|e'|] w1]; cbn in *; try done.
  injection Hr as ->. split; [done|]. by exists e.
Qed.

Lemma fails_bind_r {A B : Type} (m : M A) (k : A -> M B) :
  runs_within P m -> (forall a, fails_within P (k a)) ->
  fails_within P (bind m k).
Proof.
  intros Hm Hk w. destruct (Hm w) as [Ha Hr]. unfold fails_at, bind.
  destruct (m w) as [[a|e|] w1]; cbn in *; [|by split; [|exists e]|done].
  destruct (Hk a w1) as [Ha' Hr']. split; [|exact Hr'].
  by eapply added_trans.
Qed.

Lemma runs_conf_get config section key :
  runs_within P (conf_get config section key).
Proof.
  unfold conf_get. destruct (config !! section) as [sec|];
    [destruct (sec !! key)|]; by first [apply runs_ret|apply runs_raise].
Qed.

Lemma fails_conf_get config section key :
  missing config (section, key) ->
  fails_within P (conf_get config section key).
Proof.
  unfold missing, conf_get. cbn. intros H.
  destruct (config !! section) as [sec|]; cbn in H;
    [rewrite H|]; by apply fails_raise.
Qed.

End Running.

Lemma runs_weaken {A : Type} (P Q : Event -> bool) (m : M A) :
  (forall e, P e = true -> Q e = true) ->
  runs_within P m -> runs_within Q m.
Proof.
  intros HPQ Hm w. destruct (Hm w) as [(evs & Htr & Hall) Hr].
  split; [|exact Hr]. exists evs. split; [exact Htr|].
  apply forallb_forall. intros e He.
  apply HPQ. by eapply forallb_forall in Hall.
Qed.

Lemma fails_exit_status (P : Event -> bool) (m : M unit) (w : World) :
  fails_within P m ->
  fst (run_script m w) = Some 1
  /\ added_events P w (snd (run_script m w)).
Proof.
  intros Hm. destruct (Hm w) as [Ha (e & Hr & He)]. unfold run_script.
  destruct (m w) as [[a|e'|] w1]; cbn in *; try done.
  injection Hr as ->. by destruct e.
Qed.

Lemma fails_at_bind {A B : Type} (P : Event -> bool) (m : M A)
    (k : A -> M B) (w : World) :
  runs_within P m ->
  (forall a w', m w = (Ok a, w') -> fails_at P (k a) w') ->
  fails_at P (bind m k) w.
Proof.
  intros Hm Hk. destruct (Hm w) as [Ha Hr]. unfold fails_at, bind.
  destruct (m w) as [[a|e|] w1] eqn:E; cbn in *;
    [|by split; [|exists e]|done].
  destruct (Hk a w1 eq_refl) as [Ha' Hr']. split; [|exact Hr'].
  by eapply added_trans.
Qed.

Lemma fails_weaken {A : Type} (P Q : Event -> bool) (m : M A) :
  (forall e, P e = true -> Q e = true) ->
  fails_within P m -> fails_within Q m.
Proof.
  intros HPQ Hm w. destruct (Hm w) as [(evs & Htr & Hall) Hr].
  split; [|exact Hr]. exists evs. split; [exact Htr|].
  apply forallb_forall. intros e He.
  apply HPQ. by eapply forallb_forall in Hall.
Qed.

Lemma local_any {A : Type} (m : M A) :
  runs_within local_event m -> runs_within any_event m.
Proof. by apply runs_weaken. Qed.

Lemma fails_local_any {A : Type} (m : M A) :
  fails_within local_event m -> fails_within any_event m.
Proof. by apply fails_weaken. Qed.

Create HintDb runs discriminated.
Create HintDb fails discriminated.

(** Take a program apart along its binds and branches. *)
Ltac runs :=
  repeat first
    [ apply runs_ret | apply runs_get | apply runs_conf_get
    | apply runs_raise; reflexivity
    | apply runs_emit; reflexivity
    | apply runs_modify; intros; reflexivity
    | apply runs_state; intros; reflexivity
    | solve [auto 3 with runs]
    | apply runs_bind; [|intros ?]
    | match goal with
      | |- runs_within _ (if ?b then _ else _) => destruct b
      | |- runs_within _ (match ?x with _ => _ end) => destruct x
      end ].

Ltac fails :=
  repeat first
    [ apply fails_conf_get; assumption
    | solve [auto 3 with fails]
    | apply fails_bind_l;
      solve [apply fails_conf_get; assumption | auto 3 with fails]
    | apply fails_bind_r; [solve [runs]|intros ?] ].

Section Components.

(** *** Local steps *)

Lemma runs_activate_credentials config :
  runs_within local_event (activate_credentials config).
Proof. unfold activate_credentials, path_exists. runs. Qed.

Lemma fails_activate_credentials config :
  missing config ("gcp", "service_account_path") ->
  fails_within local_event (activate_credentials config).
Proof. intros H. unfold activate_credentials. fails. Qed.

Lemma runs_secrets_choice seq : runs_within local_event (secrets_choice seq).
Proof. unfold secrets_choice, next_secret. runs. Qed.

Lemma runs_join_choices n seq :
  runs_within local_event (init_mysql.join_choices n seq).
Proof.
  induction n as [|n IH]; cbn [init_mysql.join_choices].
  - runs.
  - apply runs_bind; [apply runs_secrets_choice|intros c].
    apply runs_bind; [exact IH|intros s]. runs.
Qed.

Lemma runs_generate_password n :
  runs_within local_event (init_mysql.generate_password n).
Proof.
  unfold init_mysql.generate_password.
  apply runs_bind; [apply runs_join_choices|intros s].
  repeat (apply runs_bind; [apply runs_secrets_choice|intros ?]). runs.
Qed.

Lemma runs_write_file path content :
  runs_within local_event (write_file path content).
Proof. unfold write_file. runs. Qed.

Lemma runs_os_chmod path mode : runs_within local_event (os_chmod path mode).
Proof. unfold os_chmod. runs. Qed.

Lemma runs_load_password : runs_within local_event update_mysql.load_password.
Proof. unfold update_mysql.load_password, path_exists, read_file. runs. Qed.

(** *** Steps that reach out *)

Lemma forallb_any evs : forallb any_event evs = true.
Proof. by induction evs. Qed.

Lemma runs_elapse : runs_within any_event elapse.
Proof. unfold elapse. runs. Qed.

Lemma runs_subprocess_run cmd : runs_within any_event (subprocess_run cmd).
Proof.
  unfold subprocess_run.
  apply runs_bind; [runs|intros _].
  apply runs_bind; [apply runs_elapse|intros _]. runs.
Qed.

Lemma runs_run_gcloud args check :
  runs_within any_event (init_mysql.run_gcloud args check).
Proof.
  unfold init_mysql.run_gcloud.
  apply runs_bind; [apply runs_subprocess_run|intros r]. runs.
Qed.

Lemma runs_time_sleep d : runs_within any_event (time_sleep d).
Proof.
  unfold time_sleep. apply runs_bind; [runs|intros _].
  apply runs_bind; [runs|intros _]. apply runs_elapse.
Qed.

Lemma runs_wait_for_instance_ready project_id instance_name :
  runs_within any_event
    (init_mysql.wait_for_instance_ready project_id instance_name
       init_mysql.default_max_wait).
Proof.
  intros w.
  destruct (poll_ready_correct project_id instance_name (clock w) 600 61 w)
    as (n & _ & _ & Hend).
  { change (inject_Z (Z.of_nat 61)) with 61%Q. lra. }
  change (init_mysql.wait_for_instance_ready project_id instance_name
            init_mysql.default_max_wait w)
    with (init_mysql.poll_ready 62 project_id instance_name (clock w) 600 w).
  destruct Hend as [(_ & _ & w' & -> & Htr)|(_ & ->)]; cbn [fst snd].
  - split; [|done]. eexists. split; [exact Htr|apply forallb_any].
  - split; [|done]. eexists.
    split; [apply trace_rounds|apply forallb_any].
Qed.

End Components.

#[local] Hint Resolve runs_activate_credentials runs_secrets_choice
  runs_join_choices runs_generate_password runs_write_file runs_os_chmod
  runs_load_password runs_elapse runs_subprocess_run runs_run_gcloud
  runs_time_sleep runs_wait_for_instance_ready : runs.
#[local] Hint Resolve local_any | 10 : runs.
#[local] Hint Resolve fails_activate_credentials : fails.
#[local] Hint Resolve fails_local_any | 10 : fails.

Lemma fails_at_bind_l {A B : Type} (P : Event -> bool) (m : M A)
    (k : A -> M B) (w : World) :
  fails_at P m w -> fails_at P (bind m k) w.
Proof.
  intros [Ha (e & Hr & He)]. unfold fails_at, bind.
  destruct (m w) as [[a|e'|] w1]; cbn in *; try done.
  injection Hr as ->. split; [done|]. by exists e.
Qed.

Lemma fails_at_exit_status (P : Event -> bool) (m : M unit) (w : World) :
  fails_at P m w ->
  fst (run_script m w) = Some 1 /\ added_events P w (snd (run_script m w)).
Proof.
  intros [Ha (e & Hr & He)]. unfold run_script.
  destruct (m w) as [[a|e'|] w1]; cbn in *; try done.
  injection Hr as ->. by destruct e.
Qed.

(** From a program started in a given world to the same program in any
    world, once the world no longer occurs in it. *)
Ltac to_within :=
  match goal with
  | |- fails_at ?P ?m ?w => generalize w; change (fails_within P m)
  end.

(** Split a hypothesis [sk ∈ [k1; ...; kn]] into its cases. *)
Ltac key_cases H :=
  repeat (apply elem_of_cons in H as [->|H]);
  [..|by apply elem_of_nil in H].

Section Provisioner.
Import init_mysql.

Lemma runs_check_instance_exists project_id instance_name :
  runs_within any_event (check_instance_exists project_id instance_name).
Proof. unfold check_instance_exists. runs. Qed.

Lemma runs_get_instance_ip project_id instance_name :
  runs_within any_event (get_instance_ip project_id instance_name).
Proof. unfold get_instance_ip. runs. Qed.

Hint Resolve runs_check_instance_exists runs_get_instance_ip : runs.






End Provisioner.

Section Driver.
Import update_mysql.

Lemma runs_update_get_instance_ip project_id instance_name :
  runs_within any_event (get_instance_ip project_id instance_name).
Proof. unfold get_instance_ip. runs. Qed.

Hint Resolve runs_update_get_instance_ip : runs.



End Driver.

Section Initializer.
Import init_bq.

Lemma init_bq_fails w sk :
  sk ∈ init_bq_keys ->
  missing (conf_yml w) sk ->
  fails_at local_event main w.
Proof.
  intros Hin Hmiss. unfold main, load_config.
  apply fails_at_bind; [runs|]. intros config w' [= <- <-].
  set (config := conf_yml w) in *. clearbody config. to_within.
  key_cases Hin; fails.
Qed.

End Initializer.

(** * Further properties of the programs *)

(** ** Missing settings *)

(** The warehouse initializer reads all its settings before it builds
    the client: with any of them missing it exits with status 1 and has
    made no call to BigQuery. *)
Theorem init_bq_missing_setting (w : World) (sk : string * string) :
  sk ∈ init_bq_keys ->
  missing (conf_yml w) sk ->
  fst (run_script init_bq.main w) = Some 1
  /\ added_events local_event w (snd (run_script init_bq.main w)).
Proof.
  intros Hin Hmiss. apply fails_at_exit_status. by eapply init_bq_fails.
Qed.

Lemma init_bq_missing_setting_witness :
  missing (conf_yml (set_conf_yml ∅ quiet_world)) ("bigquery", "location")
  /\ fst (run_script init_bq.main (set_conf_yml ∅ quiet_world)) = Some 1.
Proof.
  split; [reflexivity|].
  apply (init_bq_missing_setting (set_conf_yml ∅ quiet_world)
           ("bigquery", "location")); [|reflexivity].
  unfold init_bq_keys. set_solver.
Defined.





(** ** What the mutation driver leaves alone *)

Lemma rows_kept_refl rows : rows_kept rows rows.
Proof. intros i. destruct (rows !! i); by constructor. Qed.

Lemma tables_kept_refl ts : tables_kept ts ts.
Proof. intros t. destruct (ts !! t); constructor. apply rows_kept_refl. Qed.

Lemma server_kept_refl m : server_kept m m.
Proof. intros db. destruct (m !! db); constructor. apply tables_kept_refl. Qed.

Lemma rows_kept_trans r1 r2 r3 :
  rows_kept r1 r2 -> rows_kept r2 r3 -> rows_kept r1 r3.
Proof.
  intros H12 H23 i. specialize (H12 i). specialize (H23 i).
  destruct H12 as [a b [Hd Hc]|]; inversion H23 as [b' c [Hd' Hc'] E1 E2|];
    subst; constructor.
  split; congruence.
Qed.

Lemma tables_kept_trans t1 t2 t3 :
  tables_kept t1 t2 -> tables_kept t2 t3 -> tables_kept t1 t3.
Proof.
  intros H12 H23 t. specialize (H12 t). specialize (H23 t).
  destruct H12 as [a b Hab|]; inversion H23 as [b' c Hbc E1 E2|];
    subst; constructor.
  by eapply rows_kept_trans.
Qed.

Lemma server_kept_trans m1 m2 m3 :
  server_kept m1 m2 -> server_kept m2 m3 -> server_kept m1 m3.
Proof.
  intros H12 H23 db. specialize (H12 db). specialize (H23 db).
  destruct H12 as [a b Hab|]; inversion H23 as [b' c Hbc E1 E2|];
    subst; constructor.
  by eapply tables_kept_trans.
Qed.

(** Repricing the row of one id keeps the rows. *)
Lemma rows_kept_alter (rows : gmap Z Row) (i p now : Z) :
  rows_kept rows
    (alter (fun r => {| description := description r; price := p;
                        created_at := created_at r; updated_at := now |})
           i rows).
Proof.
  intros j. rewrite lookup_alter.
  destruct (decide (i = j)) as [->|_]; destruct (rows !! j); by constructor.
Qed.

Lemma server_kept_store (m : gmap string (gmap string (gmap Z Row)))
    (db t : string) ts rows rows' :
  m !! db = Some ts -> ts !! t = Some rows -> rows_kept rows rows' ->
  server_kept m (<[db := <[t := rows']> ts]> m).
Proof.
  intros Hdb Ht Hrows db'. destruct (decide (db = db')) as [<-|Hne].
  - rewrite lookup_insert_eq, Hdb. constructor. intros t'.
    destruct (decide (t = t')) as [<-|Hne'].
    + rewrite lookup_insert_eq, Ht. by constructor.
    + rewrite lookup_insert_ne by done.
      destruct (ts !! t'); constructor. apply rows_kept_refl.
  - rewrite lookup_insert_ne by done.
    destruct (m !! db'); constructor. apply tables_kept_refl.
Qed.

Section Keeping.

Lemma keeps_state {A : Type} (f : World -> A) (g : World -> World) :
  (forall w, mysql (g w) = mysql w) ->
  keeps_server (fun w => (Ok (f w), g w)).
Proof. intros Hg w. cbn. rewrite Hg. apply server_kept_refl. Qed.

Lemma keeps_ret {A : Type} (a : A) : keeps_server (ret a).
Proof. by apply (keeps_state (fun _ => a) (fun w => w)). Qed.

Lemma keeps_get {A : Type} (f : World -> A) : keeps_server (get f).
Proof. by apply (keeps_state f (fun w => w)). Qed.

Lemma keeps_modify (g : World -> World) :
  (forall w, mysql (g w) = mysql w) -> keeps_server (modify g).
Proof. apply (keeps_state (fun _ => tt) g). Qed.

Lemma keeps_raise {A : Type} (e : exn) : keeps_server (@raise A e).
Proof. intros w. apply server_kept_refl. Qed.

Lemma keeps_out_of_fuel {A : Type} : keeps_server (@out_of_fuel A).
Proof. intros w. apply server_kept_refl. Qed.

Lemma keeps_emit (e : Event) : keeps_server (emit e).
Proof. by apply keeps_modify. Qed.

Lemma keeps_bind {A B : Type} (m : M A) (k : A -> M B) :
  keeps_server m -> (forall a, keeps_server (k a)) -> keeps_server (bind m k).
Proof.
  intros Hm Hk w. specialize (Hm w). unfold bind.
  destruct (m w) as [[a|e|] w1]; cbn in *; try done.
  eapply server_kept_trans; [exact Hm|apply Hk].
Qed.

Lemma keeps_try_except {A : Type} (m : M A) (h : exn -> option (M A)) :
  keeps_server m ->
  (forall e m', h e = Some m' -> keeps_server m') ->
  keeps_server (try_except m h).
Proof.
  intros Hm Hh w. specialize (Hm w). unfold try_except.
  destruct (m w) as [[a|e|] w1]; cbn in *; try done.
  destruct (h e) as [m'|] eqn:E; [|done].
  eapply server_kept_trans; [exact Hm|by eapply Hh].
Qed.

Lemma keeps_try_finally {A : Type} (m : M A) (cleanup : M unit) :
  keeps_server m -> keeps_server cleanup -> keeps_server (try_finally m cleanup).
Proof.
  intros Hm Hc w. specialize (Hm w). unfold try_finally.
  destruct (m w) as [[a|e|] w1]; cbn in *; try done.
  - eapply server_kept_trans; [exact Hm|].
    apply (keeps_bind cleanup (fun _ => ret a) Hc (fun _ => keeps_ret a)).
  - eapply server_kept_trans; [exact Hm|].
    apply (keeps_bind cleanup (fun _ => raise e) Hc (fun _ => keeps_raise e)).
Qed.

End Keeping.

Ltac keeps :=
  repeat first
    [ apply keeps_ret | apply keeps_get | apply keeps_raise | apply keeps_emit
    | apply keeps_modify; intros; reflexivity
    | apply keeps_state; intros; reflexivity
    | solve [auto 3 with keeps]
    | apply keeps_bind; [|intros ?]
    | match goal with
      | |- keeps_server (if ?b then _ else _) => destruct b
      | |- keeps_server (match ?x with _ => _ end) => destruct x
      end ].

Create HintDb keeps discriminated.

(** The selected table is a table of the server. *)
Lemma selected_table_inv t v db rows v' :
  selected_table t v = (Ok (db, rows), v') ->
  v' = v /\ exists tables, mysql v !! db = Some tables /\ tables !! t = Some rows.
Proof.
  unfold selected_table, selected_tables, bind, get, ret, raise.
  destruct (current_db v) as [d|]; [|done].
  destruct (mysql v !! d) as [tables|] eqn:E; [|done].
  destruct (tables !! t) as [rs|] eqn:E'; [|done].
  intros [= <- <- <-]. eauto.
Qed.

Lemma keeps_select_price t i :
  keeps_server (mysql_run (SelectPriceDescription t i)).
Proof.
  intros v. cbn [mysql_run].
  destruct (selected_table_cases t v) as [(db & rows & H)|(msg & H)].
  - rewrite (bind_ok _ _ _ _ _ H). cbn beta iota.
    destruct (rows !! i); apply server_kept_refl.
  - rewrite (bind_raise _ _ _ _ _ H). apply server_kept_refl.
Qed.

Lemma keeps_update_price t p i :
  keeps_server (mysql_run (UpdatePriceNow t p i)).
Proof.
  intros v. cbn [mysql_run].
  destruct (selected_table_cases t v) as [(db & rows & H)|(msg & H)].
  - rewrite (bind_ok _ _ _ _ _ H). cbn beta iota.
    destruct (selected_table_inv _ _ _ _ _ H) as (_ & tables & Hdb & Ht).
    unfold server_now, store_table, bind, get, modify, ret. cbn.
    rewrite Hdb. cbn. by eapply server_kept_store, rows_kept_alter.
  - rewrite (bind_raise _ _ _ _ _ H). apply server_kept_refl.
Qed.

Lemma keeps_elapse : keeps_server elapse.
Proof. unfold elapse. keeps. Qed.

Lemma keeps_execute stmt :
  keeps_server (mysql_run stmt) -> keeps_server (cursor_execute stmt).
Proof.
  intros H. unfold cursor_execute, pop_sql_fault.
  apply keeps_bind; [keeps|intros _].
  apply keeps_bind; [apply keeps_elapse|intros _].
  apply keeps_bind; [keeps|intros fault].
  destruct fault; [keeps|].
  apply keeps_bind; [exact H|intros rows]. keeps.
Qed.

Lemma keeps_update_random_record tbl :
  keeps_server (update_mysql.update_random_record tbl).
Proof.
  unfold update_mysql.update_random_record, random_randint, random_uniform,
    random_random, next_random, cursor_fetchone, time_time.
  pose proof (fun i => keeps_execute _ (keeps_select_price tbl i)) as Hs.
  pose proof (fun p i => keeps_execute _ (keeps_update_price tbl p i)) as Hu.
  keeps.
Qed.

Lemma keeps_time_sleep d : keeps_server (time_sleep d).
Proof.
  unfold time_sleep. apply keeps_bind; [keeps|intros _].
  apply keeps_bind; [keeps|intros _]. apply keeps_elapse.
Qed.

Lemma keeps_signal_window : keeps_server update_mysql.signal_window.
Proof. unfold update_mysql.signal_window, update_mysql.signal_handler. keeps. Qed.

Lemma keeps_mutation_loop tbl fuel : forall c,
  keeps_server (update_mysql.mutation_loop fuel tbl c).
Proof.
  induction fuel as [|fuel IH]; intros c; cbn [update_mysql.mutation_loop].
  - apply keeps_out_of_fuel.
  - apply keeps_bind; [keeps|intros go]. destruct go; [|keeps].
    apply keeps_bind; [apply keeps_update_random_record|intros r].
    unfold random_uniform, random_random, next_random.
    apply keeps_bind; [keeps|intros d].
    apply keeps_bind; [apply keeps_time_sleep|intros _].
    apply keeps_bind; [apply keeps_signal_window|intros _].
    apply IH.
Qed.

Lemma keeps_main_updates fuel tbl :
  keeps_server (update_mysql.main_updates fuel tbl).
Proof.
  unfold update_mysql.main_updates.
  apply keeps_try_finally.
  - apply keeps_try_except.
    + apply keeps_bind; [apply keeps_mutation_loop|intros c]. keeps.
    + intros e m' H. destruct e; inversion H. keeps.
  - unfold cursor_close, connection_close. keeps.
Qed.

Lemma keeps_conf_get config section key :
  keeps_server (conf_get config section key).
Proof. unfold conf_get. keeps. Qed.

Lemma keeps_subprocess_run cmd : keeps_server (subprocess_run cmd).
Proof.
  unfold subprocess_run. apply keeps_bind; [keeps|intros _].
  apply keeps_bind; [apply keeps_elapse|intros _]. keeps.
Qed.

Lemma keeps_mysql_connect host user password database :
  keeps_server (mysql_connect host user password database).
Proof.
  unfold mysql_connect, pop_connect_reply.
  apply keeps_bind; [keeps|intros _].
  apply keeps_bind; [apply keeps_elapse|intros _]. keeps.
Qed.

Lemma keeps_main_setup : keeps_server update_mysql.main_setup.
Proof.
  unfold update_mysql.main_setup, load_config, activate_credentials,
    path_exists, update_mysql.get_instance_ip, update_mysql.load_password,
    read_file.
  pose proof keeps_conf_get. pose proof keeps_subprocess_run.
  pose proof keeps_mysql_connect. pose proof keeps_signal_window.
  keeps.
Qed.

(** Whatever the server, the cloud and the signals do, the mutation
    driver leaves every database, table and row of the server in place:
    it adds none and removes none, and every row keeps its id, its
    description and its creation time.  Only prices and update times can
    differ after a run. *)
Theorem mutation_driver_keeps_items (fuel : nat) (w : World) :
  server_kept (mysql w) (mysql (snd (update_mysql.main fuel w)))
  /\ forall db tn t rows i r,
       mysql w !! db = Some t -> t !! tn = Some rows -> rows !! i = Some r ->
       exists t' rows' r',
         mysql (snd (update_mysql.main fuel w)) !! db = Some t'
         /\ t' !! tn = Some rows'
         /\ rows' !! i = Some r'
         /\ dom rows' = dom rows
         /\ description r' = description r
         /\ created_at r' = created_at r.
Proof.
  assert (Hkept : server_kept (mysql w) (mysql (snd (update_mysql.main fuel w)))).
  { unfold update_mysql.main.
    apply (keeps_bind update_mysql.main_setup
             (fun tbl => update_mysql.main_updates fuel tbl)
             keeps_main_setup (keeps_main_updates fuel)). }
  split; [exact Hkept|].
  intros db tn t rows i r Hdb Ht Hi.
  specialize (Hkept db). rewrite Hdb in Hkept.
  inversion Hkept as [a t' Htabs E1 E2|]; subst.
  specialize (Htabs tn). rewrite Ht in Htabs.
  inversion Htabs as [a rows' Hrows E3 E4|]; subst.
  pose proof (Hrows i) as Hrow. rewrite Hi in Hrow.
  inversion Hrow as [a r' [Hd Hc] E5 E6|]; subst.
  exists t', rows', r'. repeat split; try done.
  apply set_eq. intros j. rewrite !elem_of_dom.
  specialize (Hrows j). destruct Hrows; split; intros [? ?]; eauto; done.
Qed.

(** The one row of [seeded_world] after a run with the password file in
    place. *)
Lemma mutation_driver_keeps_items_witness :
  exists t' rows' r',
    mysql (snd (update_mysql.main 3
                  (set_files {[ password_file := "pw" ]} seeded_world)))
      !! "shop" = Some t'
    /\ t' !! "items" = Some rows'
    /\ rows' !! 1 = Some r'
    /\ description r' = "Wireless Mouse".
Proof.
  destruct (mutation_driver_keeps_items 3
              (set_files {[ password_file := "pw" ]} seeded_world))
    as [_ H].
  destruct (H "shop" "items"
              {[ "items" :=
                   {[ 1 := {| description := "Wireless Mouse"; price := 2599;
                              created_at := 0; updated_at := 0 |} ]} ]}
              {[ 1 := {| description := "Wireless Mouse"; price := 2599;
                         created_at := 0; updated_at := 0 |} ]}
              1 {| description := "Wireless Mouse"; price := 2599;
                   created_at := 0; updated_at := 0 |})
    as (t' & rows' & r' & Hdb & Ht & Hi & _ & Hd & _);
    [reflexivity..|].
  exists t', rows', r'.
  split; [exact Hdb|]. split; [exact Ht|]. split; [exact Hi|exact Hd].
Defined.

(** ** The seeding step releases what it opened *)

Section SeedRuns.
Context {P : Event -> bool}.
Hypothesis P_execute : forall stmt, P (EvExecute stmt) = true.
Hypothesis P_commit : P EvCommit = true.

Lemma runs_mysql_run stmt : runs_within P (mysql_run stmt).
Proof.
  destruct stmt; cbn [mysql_run];
    unfold selected_table, selected_tables, store_table, server_now; runs.
Qed.

Lemma runs_cursor_execute stmt : runs_within P (cursor_execute stmt).
Proof.
  unfold cursor_execute, pop_sql_fault, elapse.
  apply runs_bind; [apply runs_emit, P_execute|intros _].
  apply runs_bind; [runs|intros _].
  apply runs_bind; [runs|intros fault]. destruct fault; [runs|].
  apply runs_bind; [apply runs_mysql_run|intros rows]. runs.
Qed.

Lemma runs_for_each {A : Type} (xs : list A) (body : A -> M unit) :
  (forall x, runs_within P (body x)) -> runs_within P (for_each xs body).
Proof.
  intros Hbody. induction xs as [|x xs IH]; cbn [for_each]; [runs|].
  apply runs_bind; [apply Hbody|intros _]. exact IH.
Qed.

Lemma runs_insert_sample tbl i : runs_within P (init_mysql.insert_sample tbl i).
Proof.
  unfold init_mysql.insert_sample, random_uniform, random_random, next_random.
  apply runs_bind; [runs|intros x].
  destruct (init_mysql.descriptions !! Z.to_nat (i - 1)); [|runs].
  apply runs_cursor_execute.
Qed.

Lemma runs_seed db tbl : runs_within P (init_mysql.seed db tbl).
Proof.
  unfold init_mysql.seed, cursor_fetchone, cursor_fetchall, connection_commit,
    elapse.
  pose proof runs_cursor_execute as Hexec.
  do 4 (apply runs_bind; [apply Hexec|intros _]).
  apply runs_bind; [runs|intros first].
  destruct first as [[|[count| | |] rest]|]; try (runs; fail).
  apply runs_bind; [destruct (0 <? count); [apply Hexec|runs]|intros _].
  apply runs_bind;
    [apply runs_for_each; intros i; apply runs_insert_sample|intros _].
  apply runs_bind;
    [apply runs_bind; [apply runs_emit, P_commit|intros _]; runs|intros _].
  apply runs_bind; [apply Hexec|intros _]. runs.
Qed.

End SeedRuns.

(** [create_database_and_table] releases what it holds once it holds a
    cursor.  With connection and cursor in hand it closes the cursor and
    then the connection as the last thing it does, whether the seeding
    returned or raised, and gives the seeding's outcome.  When no
    connection could be made it closes nothing.  When the connection
    was made but [connection.cursor()] raises, it closes nothing
    either (the call is outside the [try]): the error goes to the
    caller and the connection is left open. *)
Theorem seeding_releases_connection (host user password : string)
    (config : gmap string (gmap string string)) (sec : gmap string string)
    (db_name table_name : string) (w : World) :
  config !! "mysql" = Some sec ->
  sec !! "db_name" = Some db_name ->
  sec !! "table_name" = Some table_name ->
  let loop :=
    init_mysql.connect_with_retries (range 0 init_mysql.max_retries)
      host user password w in
  let opened := connection_cursor (snd loop) in
  let whole :=
    init_mysql.create_database_and_table host user password config w in
  match fst loop with
  | Ok _ =>
      match fst opened with
      | Ok _ =>
          exists body,
            trace (snd whole)
            = (trace (snd loop) ++ body
               ++ [EvCursorClose; EvConnectionClose])%list
            /\ forallb not_release body = true
            /\ fst whole
               = fst (init_mysql.seed db_name table_name (snd opened))
            /\ fst whole <> OutOfFuel
      | _ =>
          whole = opened
          /\ (exists msg, fst whole = Raise (MySQLError msg))
          /\ trace (snd whole) = trace (snd loop)
      end
  | _ =>
      whole = (fst loop, snd loop)
      /\ exists attempts,
           trace (snd whole) = (trace w ++ attempts)%list
           /\ forallb not_release attempts = true
  end.
Proof.
  intros Hsec Hdb Htbl loop opened whole.
  assert (Hwhole : whole
    = (init_mysql.connect_with_retries (range 0 init_mysql.max_retries)
         host user password ;;
       connection_cursor ;;
       try_finally (init_mysql.seed db_name table_name)
         (cursor_close ;; connection_close)) w).
  { unfold whole, init_mysql.create_database_and_table.
    rewrite (bind_ok _ _ _ _ _ (conf_get_ok _ _ _ _ _ w Hsec Hdb)).
    by rewrite (bind_ok _ _ _ _ _ (conf_get_ok _ _ _ _ _ w Hsec Htbl)). }
  destruct (retries_from host user password 9 0 w eq_refl)
    as (n & _ & _ & Htr & _).
  change (init_mysql.connect_with_retries _ host user password w)
    with loop in Htr.
  assert (Hattempts : forall n, forallb not_release
            (retries_trace host user password n
             ++ [EvConnect host user password None]) = true).
  { clear. induction n as [|n IH]; [reflexivity|exact IH]. }
  unfold bind at 1 in Hwhole. fold loop in Hwhole. subst opened.
  destruct loop as [[[]|e|] w1]; cbn [fst snd] in *.
  - assert (Hopen : (exists w2, connection_cursor w1 = (Ok tt, w2)
                                /\ trace w2 = trace w1)
                    \/ (exists msg w2,
                          connection_cursor w1 = (Raise (MySQLError msg), w2)
                          /\ trace w2 = trace w1)).
    { unfold connection_cursor, pop_sql_fault, bind. cbn.
      destruct (sql_faults w1 0%nat) as [msg|]; [right|left]; eauto. }
    destruct Hopen as [(w2 & Hopen & Htr2)|(msg & w2 & Hopen & Htr2)].
    + rewrite Hopen. cbn [fst snd].
      rewrite (bind_ok _ _ _ _ _ Hopen) in Hwhole.
      destruct (runs_seed (P := not_release) (fun _ => eq_refl) eq_refl
                  db_name table_name w2) as [(body & Hbody & Hall) Hres].
      exists body. rewrite Hwhole. unfold try_finally.
      destruct (init_mysql.seed db_name table_name w2) as [[[]|e|] w3];
        cbn [fst snd] in *; [| |done];
        (split; [cbn; by rewrite Hbody, Htr2, <- !app_assoc|]);
        (split; [exact Hall|]); done.
    + rewrite Hopen. cbn [fst snd].
      rewrite (bind_raise _ _ _ _ _ Hopen) in Hwhole.
      rewrite Hwhole. cbn [fst snd]. eauto.
  - split; [exact Hwhole|]. rewrite Hwhole. cbn [snd]. eauto.
  - split; [exact Hwhole|]. rewrite Hwhole. cbn [snd]. eauto.
Qed.

(** In [quiet_world] the first attempt connects, the cursor is there
    and the seeding returns. *)
Lemma seeding_releases_connection_witness :
  exists body,
    trace (snd (init_mysql.create_database_and_table "10.0.0.1" "root"
                  "secret" (conf_yml quiet_world) quiet_world))
    = ([EvConnect "10.0.0.1" "root" "secret" None] ++ body
       ++ [EvCursorClose; EvConnectionClose])%list.
Proof.
  pose proof (seeding_releases_connection "10.0.0.1" "root" "secret"
                (conf_yml quiet_world)
                {[ "instance_name" := "cdc-mysql"; "tier" := "db-f1-micro";
                   "version" := "MYSQL_8_0"; "db_name" := "shop";
                   "table_name" := "items"; "root_user" := "root" ]}
                "shop" "items" quiet_world eq_refl eq_refl eq_refl) as H.
  cbv zeta in H.
  assert (Hloop : fst (init_mysql.connect_with_retries
                         (range 0 init_mysql.max_retries)
                         "10.0.0.1" "root" "secret" quiet_world) = Ok tt)
    by (vm_compute; reflexivity).
  assert (Hopen : fst (connection_cursor
                         (snd (init_mysql.connect_with_retries
                                 (range 0 init_mysql.max_retries)
                                 "10.0.0.1" "root" "secret" quiet_world)))
                  = Ok tt)
    by (vm_compute; reflexivity).
  rewrite Hloop, Hopen in H. destruct H as (body & Htr & _).
  exists body. exact Htr.
Defined.

(** ** The mutation driver without its password file *)

Lemma files_state {A : Type} (f : World -> A) (g : World -> World) :
  (forall w, files (g w) = files w) -> keeps_files (fun w => (Ok (f w), g w)).
Proof. intros Hg w. apply Hg. Qed.

Lemma files_raise {A : Type} (e : exn) : keeps_files (@raise A e).
Proof. by intros w. Qed.

Lemma files_bind {A B : Type} (m : M A) (k : A -> M B) :
  keeps_files m -> (forall a, keeps_files (k a)) -> keeps_files (bind m k).
Proof.
  intros Hm Hk w. specialize (Hm w). unfold bind.
  destruct (m w) as [[a|e|] w1]; cbn in *; try done.
  by rewrite Hk.
Qed.

Ltac keeps_files :=
  repeat first
    [ apply files_raise
    | apply (files_state (fun _ => _) (fun w => w)); intros; reflexivity
    | apply files_state; intros; reflexivity
    | apply files_bind; [|intros ?]
    | match goal with
      | |- keeps_files (if ?b then _ else _) => destruct b
      | |- keeps_files (match ?x with _ => _ end) => destruct x
      end ].

Lemma files_conf_get config section key :
  keeps_files (conf_get config section key).
Proof. unfold conf_get, ret. keeps_files. Qed.

Lemma files_activate_credentials config :
  keeps_files (activate_credentials config).
Proof.
  unfold activate_credentials.
  apply files_bind; [apply files_conf_get|intros sa_path].
  unfold path_exists, emit, modify, get, ret. keeps_files.
Qed.

Lemma files_update_get_instance_ip project_id instance_name :
  keeps_files (update_mysql.get_instance_ip project_id instance_name).
Proof.
  unfold update_mysql.get_instance_ip, subprocess_run, elapse, emit, modify,
    ret.
  keeps_files.
Qed.

Lemma fails_at_bind_files {A B : Type} (P : Event -> bool) (m : M A)
    (k : A -> M B) (w : World) :
  runs_within P m -> keeps_files m ->
  (forall a w', files w' = files w -> fails_at P (k a) w') ->
  fails_at P (bind m k) w.
Proof.
  intros Hm Hf Hk. apply fails_at_bind; [exact Hm|].
  intros a w' E. apply Hk. specialize (Hf w). by rewrite E in Hf.
Qed.

Lemma load_password_missing (P : Event -> bool) (w : World) :
  files w !! password_file = None ->
  fails_at P update_mysql.load_password w.
Proof.
  intros H. unfold fails_at, update_mysql.load_password, path_exists, bind,
    get, ret, raise.
  cbn. rewrite H. cbn. split; [apply added_refl|eauto].
Qed.

Lemma setup_without_password_file (w : World) :
  files w !! password_file = None ->
  fails_at not_database update_mysql.main_setup w.
Proof.
  intros Hmissing. unfold update_mysql.main_setup, load_config.
  apply fails_at_bind_files; [runs|unfold emit, modify; keeps_files|].
  intros _ w1 E1.
  apply fails_at_bind_files; [runs|unfold emit, modify; keeps_files|].
  intros _ w2 E2.
  apply fails_at_bind_files; [runs|unfold get; keeps_files|].
  intros config w3 E3.
  apply fails_at_bind_files;
    [unfold activate_credentials, path_exists; runs
    |apply files_activate_credentials|].
  intros _ w4 E4.
  apply fails_at_bind_files; [runs|apply files_conf_get|].
  intros project_id w5 E5.
  apply fails_at_bind_files; [runs|apply files_conf_get|].
  intros instance_name w6 E6.
  apply fails_at_bind_files;
    [unfold update_mysql.get_instance_ip, subprocess_run, elapse; runs
    |apply files_update_get_instance_ip|].
  intros host w7 E7.
  apply fails_at_bind_l, load_password_missing.
  by rewrite E7, E6, E5, E4, E3, E2, E1.
Qed.

(** Without the password file the mutation driver exits with status 1
    and has neither connected to the database nor sent it a statement. *)
Theorem driver_needs_password_file (fuel : nat) (w : World) :
  files w !! password_file = None ->
  fst (run_script (update_mysql.main fuel) w) = Some 1
  /\ added_events not_database w (snd (run_script (update_mysql.main fuel) w)).
Proof.
  intros Hmissing. apply fails_at_exit_status. unfold update_mysql.main.
  by apply fails_at_bind_l, setup_without_password_file.
Qed.

Lemma driver_needs_password_file_witness :
  files quiet_world !! password_file = None
  /\ fst (run_script (update_mysql.main 1) quiet_world) = Some 1.
Proof.
  split; [reflexivity|].
  by apply (driver_needs_password_file 1 quiet_world).
Defined.

(** ** The warehouse initializer from any state of the warehouse *)

Lemma activate_credentials_ok config sec sa_path w :
  config !! "gcp" = Some sec ->
  sec !! "service_account_path" = Some sa_path ->
  activate_credentials config w
  = (Ok tt,
     if bool_decide (is_Some (files w !! sa_path))
     then set_trace (trace w ++ [EvSetEnv "GOOGLE_APPLICATION_CREDENTIALS"
                                   sa_path]) w
     else w).
Proof.
  intros Hsec Hkey. unfold activate_credentials.
  rewrite (bind_ok _ _ _ _ _ (conf_get_ok _ _ _ _ _ w Hsec Hkey)).
  unfold path_exists, bind, get, ret. cbn.
  by destruct (bool_decide (is_Some (files w !! sa_path))).
Qed.

Section Ensure.
Import init_bq.
Variables project_id dataset_id table_id location : string.

Local Abbreviation dataset_ref := (project_id ++ "." ++ dataset_id).
Local Abbreviation table_ref :=
  (project_id ++ "." ++ dataset_id ++ "." ++ table_id).

Lemma ensure_dataset_runs w :
  bq_faults w 0%nat = None ->
  (dataset_ref ∉ bq_datasets w -> bq_faults w 1%nat = None) ->
  exists w',
    create_dataset_if_not_exists project_id dataset_id location w
    = (Ok true, w')
    /\ trace w'
       = (trace w ++ EvGetDataset dataset_ref
          :: if decide (dataset_ref ∈ bq_datasets w) then []
             else [EvCreateDataset dataset_ref location])%list
    /\ bq_datasets w' = {[dataset_ref]} ∪ bq_datasets w
    /\ bq_tables w' = bq_tables w
    /\ bq_faults w'
       = (if decide (dataset_ref ∈ bq_datasets w) then rest (bq_faults w)
          else rest (rest (bq_faults w))).
Proof.
  intros H0 H1. destruct (decide (dataset_ref ∈ bq_datasets w)) as [Hin|Hout].
  - destruct (get_dataset_present dataset_ref w H0 Hin)
      as (w1 & Hget & Htr & Hds & Hts & Hf).
    exists w1. rewrite (dataset_found _ _ _ _ _ Hget).
    split; [done|]. split; [done|]. split; [|done].
    rewrite Hds. symmetry. by apply subseteq_union_1_L, singleton_subseteq_l.
  - destruct (get_dataset_absent dataset_ref w H0 Hout)
      as (w1 & msg & Hget & Htr & Hds & Hts & Hf).
    destruct (create_dataset_absent dataset_ref location w1)
      as (w2 & Hcreate & Htr2 & Hds2 & Hts2 & Hf2).
    { rewrite Hf. by apply H1. }
    { by rewrite Hds. }
    exists w2. rewrite (dataset_created _ _ _ _ _ _ _ Hget Hcreate).
    split; [done|]. split; [by rewrite Htr2, Htr, <- app_assoc|].
    split; [by rewrite Hds2, Hds|]. split; [by rewrite Hts2|].
    by rewrite Hf2, Hf.
Qed.

Lemma ensure_table_runs w :
  dataset_ref ∈ bq_datasets w ->
  bq_faults w 0%nat = None ->
  (table_ref ∉ bq_tables w -> bq_faults w 1%nat = None) ->
  exists w',
    create_table_if_not_exists project_id dataset_id table_id w = (Ok true, w')
    /\ trace w'
       = (trace w ++ EvGetTable table_ref
          :: if decide (table_ref ∈ bq_tables w) then []
             else [EvQueryCreateTable dataset_ref table_ref])%list
    /\ bq_datasets w' = bq_datasets w
    /\ bq_tables w' = {[table_ref]} ∪ bq_tables w
    /\ bq_faults w'
       = (if decide (table_ref ∈ bq_tables w) then rest (bq_faults w)
          else rest (rest (bq_faults w))).
Proof.
  intros Hds H0 H1. destruct (decide (table_ref ∈ bq_tables w)) as [Hin|Hout].
  - destruct (get_table_present table_ref w H0 Hin)
      as (w1 & Hget & Htr & Hds1 & Hts & Hf).
    exists w1. rewrite (table_found _ _ _ _ _ Hget).
    split; [done|]. split; [done|]. split; [done|].
    split; [|done].
    rewrite Hts. symmetry. by apply subseteq_union_1_L, singleton_subseteq_l.
  - destruct (get_table_absent table_ref w H0 Hout)
      as (w1 & msg & Hget & Htr & Hds1 & Hts & Hf).
    destruct (create_table_absent dataset_ref table_ref w1)
      as (w2 & Hcreate & Htr2 & Hds2 & Hts2 & Hf2).
    { rewrite Hf. by apply H1. }
    { by rewrite Hds1. }
    { by rewrite Hts. }
    exists w2. rewrite (table_created _ _ _ _ _ _ _ Hget Hcreate).
    split; [done|]. split; [by rewrite Htr2, Htr, <- app_assoc|].
    split; [by rewrite Hds2|]. split; [by rewrite Hts2, Hts|].
    by rewrite Hf2, Hf.
Qed.

(** [verify_table] looks the table up and nothing else. *)
Lemma verify_table_runs w :
  exists w',
    trace w' = (trace w ++ [EvGetTable table_ref])%list
    /\ bq_datasets w' = bq_datasets w
    /\ bq_tables w' = bq_tables w
    /\ verify_table project_id dataset_id table_id w
       = (match bq_faults w 0%nat with
          | None => Ok (bool_decide (table_ref ∈ bq_tables w))
          | Some (NotFound _) => Ok false
          | Some e => Raise e
          end, w').
Proof.
  unfold verify_table, try_except.
  destruct (bq_faults w 0%nat) as [e|] eqn:Hf.
  - destruct (get_table_fault table_ref e w Hf)
      as (w1 & Hget & Htr & Hds & Hts & _).
    exists w1. rewrite (bind_raise _ _ _ _ _ Hget).
    split; [done|]. split; [done|]. split; [done|]. by destruct e.
  - destruct (decide (table_ref ∈ bq_tables w)) as [Hin|Hout].
    + destruct (get_table_present table_ref w Hf Hin)
        as (w1 & Hget & Htr & Hds & Hts & _).
      exists w1. rewrite (bind_ok _ _ _ _ _ Hget).
      rewrite bool_decide_eq_true_2 by done. done.
    + destruct (get_table_absent table_ref w Hf Hout)
        as (w1 & msg & Hget & Htr & Hds & Hts & _).
      exists w1. rewrite (bind_raise _ _ _ _ _ Hget).
      rewrite bool_decide_eq_false_2 by done. done.
Qed.

(** With complete settings and no API error before the verification,
    the warehouse initializer leaves the dataset and the table in
    place, whatever was there before; it sends a creation call exactly
    for what was missing (so a second run sends none); and the
    verification at the end is advisory: a table it cannot find does
    not change the exit status 0. *)
Theorem init_bq_ensures_warehouse (w : World)
    (gcp bq : gmap string string) (sa_path : string) :
  conf_yml w !! "gcp" = Some gcp ->
  gcp !! "service_account_path" = Some sa_path ->
  gcp !! "project_id" = Some project_id ->
  conf_yml w !! "bigquery" = Some bq ->
  bq !! "dataset" = Some dataset_id ->
  bq !! "table_name" = Some table_id ->
  bq !! "location" = Some location ->
  let make_dataset :=
    if decide (dataset_ref ∈ bq_datasets w) then []
    else [EvCreateDataset dataset_ref location] in
  let make_table :=
    if decide (table_ref ∈ bq_tables w) then []
    else [EvQueryCreateTable dataset_ref table_ref] in
  let calls := (2 + length make_dataset + length make_table)%nat in
  (forall k, (k < calls)%nat -> bq_faults w k = None) ->
  let run := run_script init_bq.main w in
  bq_datasets (snd run) = {[dataset_ref]} ∪ bq_datasets w
  /\ bq_tables (snd run) = {[table_ref]} ∪ bq_tables w
  /\ trace (snd run)
     = (trace w
        ++ (if bool_decide (is_Some (files w !! sa_path))
            then [EvSetEnv "GOOGLE_APPLICATION_CREDENTIALS" sa_path] else [])
        ++ [EvGetDataset dataset_ref] ++ make_dataset
        ++ [EvGetTable table_ref] ++ make_table
        ++ [EvGetTable table_ref])%list
  /\ fst run
     = match bq_faults w calls with
       | None | Some (NotFound _) => Some 0
       | Some (SystemExit code) => Some code
       | Some _ => Some 1
       end.
Proof.
  intros Hgcp Hsa Hproject Hbq Hdataset Htable Hlocation
    make_dataset make_table calls Hquiet run.
  set (w1 := if bool_decide (is_Some (files w !! sa_path))
             then set_trace (trace w ++ [EvSetEnv
                    "GOOGLE_APPLICATION_CREDENTIALS" sa_path]) w
             else w).
  assert (Hw1 : bq_faults w1 = bq_faults w /\ bq_datasets w1 = bq_datasets w
                /\ bq_tables w1 = bq_tables w
                /\ trace w1
                   = (trace w
                      ++ if bool_decide (is_Some (files w !! sa_path))
                         then [EvSetEnv "GOOGLE_APPLICATION_CREDENTIALS"
                                 sa_path] else [])%list).
  { unfold w1. destruct (bool_decide _); cbn; [done|].
    by rewrite app_nil_r. }
  destruct Hw1 as (Hf1 & Hds1 & Hts1 & Htr1).
  destruct (ensure_dataset_runs w1)
    as (w2 & Hrun2 & Htr2 & Hds2 & Hts2 & Hf2).
  { rewrite Hf1. apply Hquiet. unfold calls. lia. }
  { rewrite Hf1, Hds1. intros Hout. apply Hquiet. unfold calls, make_dataset.
    destruct (decide (dataset_ref ∈ bq_datasets w)); [done|]. cbn. lia. }
  destruct (ensure_table_runs w2)
    as (w3 & Hrun3 & Htr3 & Hds3 & Hts3 & Hf3).
  { rewrite Hds2. by apply elem_of_union_l, elem_of_singleton. }
  { rewrite Hf2, Hds1, Hf1. unfold rest.
    destruct (decide (dataset_ref ∈ bq_datasets w)) as [Hin|Hout];
      apply Hquiet; unfold calls, make_dataset; cbn; lia. }
  { rewrite Hts2, Hts1, Hf2, Hds1, Hf1. unfold rest. intros Hout.
    destruct (decide (table_ref ∈ bq_tables w)); [done|].
    destruct (decide (dataset_ref ∈ bq_datasets w));
      apply Hquiet; unfold calls, make_dataset, make_table; cbn; lia. }
  destruct (verify_table_runs w3)
    as (w4 & Htr4 & Hds4 & Hts4 & Hrun4).
  assert (Hf3' : bq_faults w3 0%nat = bq_faults w calls).
  { rewrite Hf3, Hts2, Hts1, Hf2, Hds1, Hf1.
    unfold calls, make_dataset, make_table, rest.
    destruct (decide (dataset_ref ∈ bq_datasets w));
      destruct (decide (table_ref ∈ bq_tables w)); reflexivity. }
  rewrite Hf3' in Hrun4.
  assert (Hmain : init_bq.main w
    = (match bq_faults w calls with
       | None => Ok tt
       | Some (NotFound _) => Ok tt
       | Some e => Raise e
       end, w4)).
  { unfold init_bq.main, load_config.
    rewrite (bind_ok _ _ _ _ _ (eq_refl : get conf_yml w = (Ok (conf_yml w), w))).
    rewrite (bind_ok _ _ _ _ _ (activate_credentials_ok _ _ _ w Hgcp Hsa)).
    fold w1.
    rewrite (bind_ok _ _ _ _ _ (conf_get_ok _ _ _ _ _ w1 Hgcp Hproject)).
    rewrite (bind_ok _ _ _ _ _ (conf_get_ok _ _ _ _ _ w1 Hbq Hdataset)).
    rewrite (bind_ok _ _ _ _ _ (conf_get_ok _ _ _ _ _ w1 Hbq Htable)).
    rewrite (bind_ok _ _ _ _ _ (conf_get_ok _ _ _ _ _ w1 Hbq Hlocation)).
    rewrite (bind_ok _ _ _ _ _ Hrun2). cbn [negb].
    rewrite (bind_ok _ _ _ _ _ (eq_refl : ret tt w2 = (Ok tt, w2))).
    rewrite (bind_ok _ _ _ _ _ Hrun3). cbn [negb].
    rewrite (bind_ok _ _ _ _ _ (eq_refl : ret tt w3 = (Ok tt, w3))).
    unfold bind. rewrite Hrun4.
    destruct (bq_faults w calls) as [[]|]; reflexivity. }
  unfold run, run_script. rewrite Hmain.
  assert (Hsnd : forall (r : Res unit),
            snd (match r with
                 | Ok _ => (Some 0, w4)
                 | Raise (SystemExit code) => (Some code, w4)
                 | Raise _ => (Some 1, w4)
                 | OutOfFuel => (None, w4)
                 end) = w4).
  { by intros [[]|[]|]. }
  rewrite Hsnd.
  split; [by rewrite Hds4, Hds3, Hds2, Hds1|].
  split; [by rewrite Hts4, Hts3, Hts2, Hts1|].
  split.
  { rewrite Htr4, Htr3, Htr2, Htr1, Hts2, Hts1, Hds1.
    fold make_dataset make_table. by rewrite <- !app_assoc. }
  by destruct (bq_faults w calls) as [[]|].
Qed.

End Ensure.

(** From the empty warehouse of [quiet_world] both are created. *)
Lemma init_bq_ensures_warehouse_witness :
  fst (run_script init_bq.main quiet_world) = Some 0
  /\ bq_tables (snd (run_script init_bq.main quiet_world))
     = {[ "demo-project.cdc_demo.items" ]} ∪ ∅.
Proof.
  pose proof (init_bq_ensures_warehouse
                "demo-project" "cdc_demo" "items" "US" quiet_world
                {[ "project_id" := "demo-project"; "region" := "us-central1";
                   "service_account_path" := "~/sa.json" ]}
                {[ "dataset" := "cdc_demo"; "table_name" := "items";
                   "location" := "US" ]}
                "~/sa.json"
                eq_refl eq_refl eq_refl eq_refl eq_refl eq_refl eq_refl) as H.
  cbv zeta in H. destruct H as (_ & Hts & _ & Hst); [intros k _; reflexivity|].
  split; [exact Hst|exact Hts].
Defined.

(** ** The provisioner creates an instance only when there is none *)

Section Commands.
Import init_mysql.
Context {P : Event -> bool}.
Hypothesis P_sleep : forall d, P (EvSleep d) = true.

Lemma within_elapse : runs_within P elapse.
Proof. unfold elapse. runs. Qed.

Lemma within_subprocess_run cmd :
  P (EvSubprocess cmd) = true -> runs_within P (subprocess_run cmd).
Proof.
  intros Hcmd. unfold subprocess_run.
  apply runs_bind; [by apply runs_emit|intros _].
  apply runs_bind; [apply within_elapse|intros _]. runs.
Qed.

Lemma within_run_gcloud args check :
  P (EvSubprocess ("gcloud" :: args)) = true ->
  runs_within P (run_gcloud args check).
Proof.
  intros Hcmd. unfold run_gcloud.
  apply runs_bind; [by apply within_subprocess_run|intros r]. runs.
Qed.

Lemma within_time_sleep d : runs_within P (time_sleep d).
Proof.
  unfold time_sleep. apply runs_bind; [by apply runs_emit|intros _].
  apply runs_bind; [runs|intros _]. apply within_elapse.
Qed.

Lemma within_rounds project_id instance_name n :
  P (EvSubprocess (describe_state_cmd project_id instance_name)) = true ->
  forallb P (rounds_trace project_id instance_name n) = true.
Proof.
  intros Hcmd. induction n as [|n IH]; [done|].
  cbn [rounds_trace forallb]. by rewrite Hcmd, P_sleep, IH.
Qed.

Lemma within_wait_for_instance_ready project_id instance_name :
  P (EvSubprocess (describe_state_cmd project_id instance_name)) = true ->
  runs_within P
    (wait_for_instance_ready project_id instance_name default_max_wait).
Proof.
  intros Hcmd w.
  destruct (poll_ready_correct project_id instance_name (clock w) 600 61 w)
    as (n & _ & _ & Hend).
  { change (inject_Z (Z.of_nat 61)) with 61%Q. lra. }
  change (wait_for_instance_ready project_id instance_name default_max_wait w)
    with (poll_ready 62 project_id instance_name (clock w) 600 w).
  destruct Hend as [(_ & _ & w' & -> & Htr)|(_ & ->)]; cbn [fst snd].
  - split; [|done]. eexists. split; [exact Htr|].
    rewrite forallb_app, within_rounds by done. cbn. by rewrite Hcmd.
  - split; [|done]. eexists.
    split; [apply trace_rounds|by apply within_rounds].
Qed.

Lemma within_get_instance_ip project_id instance_name :
  P (EvSubprocess ["gcloud"; "sql"; "instances"; "describe"; instance_name;
                   "--project"; project_id;
                   "--format"; "value(ipAddresses[0].ipAddress)"]) = true ->
  runs_within P (get_instance_ip project_id instance_name).
Proof.
  intros Hcmd. unfold get_instance_ip.
  apply runs_bind; [by apply within_run_gcloud|intros r]. runs.
Qed.

Lemma within_try_except {A : Type} (m : M A) (h : exn -> option (M A)) :
  runs_within P m ->
  (forall e m', h e = Some m' -> runs_within P m') ->
  runs_within P (try_except m h).
Proof.
  intros Hm Hh w. destruct (Hm w) as [Ha Hr]. unfold try_except.
  destruct (m w) as [[a|e|] w1]; cbn in *; [done| |done].
  destruct (h e) as [m'|] eqn:E; [|done].
  destruct (Hh e m' E w1) as [Ha' Hr']. split; [|exact Hr'].
  by eapply added_trans.
Qed.

Lemma within_try_finally {A : Type} (m : M A) (cleanup : M unit) :
  runs_within P m -> runs_within P cleanup ->
  runs_within P (try_finally m cleanup).
Proof.
  intros Hm Hc w. destruct (Hm w) as [Ha Hr]. unfold try_finally.
  destruct (m w) as [[a|e|] w1]; cbn [fst snd] in *; [| |done].
  - destruct (runs_bind cleanup (fun _ => ret a) Hc (fun _ => runs_ret a) w1)
      as [Ha' Hr'].
    split; [by eapply added_trans|exact Hr'].
  - destruct (runs_bind cleanup (fun _ => @raise A e) Hc
                (fun _ => runs_raise e Hr) w1) as [Ha' Hr'].
    split; [by eapply added_trans|exact Hr'].
Qed.

End Commands.

Section Creation.
Import init_mysql.

Local Abbreviation quiet := no_instance_create.

Lemma quiet_sleep d : quiet (EvSleep d) = true.
Proof. reflexivity. Qed.

Lemma trace_run_gcloud args check w :
  trace (snd (run_gcloud args check w))
  = (trace w ++ [EvSubprocess ("gcloud" :: args)])%list.
Proof.
  unfold run_gcloud, subprocess_run, bind. cbn.
  by destruct (check && negb (returncode (subprocess_replies w 0%nat) =? 0)).
Qed.

Lemma check_instance_exists_step project_id instance_name w :
  exists w',
    check_instance_exists project_id instance_name w
    = (Ok (returncode (subprocess_replies w 0%nat) =? 0), w')
    /\ trace w'
       = (trace w
          ++ [EvSubprocess ["gcloud"; "sql"; "instances"; "describe";
                            instance_name; "--project"; project_id;
                            "--format"; "value(name)"]])%list.
Proof. eexists. split; reflexivity. Qed.

(** Whether [m] returns or raises, what follows it adds only what the
    continuation may add. *)
Lemma added_then {A B : Type} (P : Event -> bool) (m : M A) (k : A -> M B) w :
  (forall a, runs_within P (k a)) ->
  added_events P (snd (m w)) (snd (bind m k w)).
Proof.
  intros Hk. unfold bind. destruct (m w) as [[a|e|] w1]; cbn [snd].
  - apply Hk.
  - apply added_refl.
  - apply added_refl.
Qed.

(** With its five settings in place, the provisioner first asks whether
    the instance exists.  If the answer is yes, its next command resets
    the root password to the given one and no instance is created; if
    the answer is no, its next command creates the instance with that
    password, and it creates none after that. *)
Theorem provisioner_creates_only_missing
    (config : gmap string (gmap string string)) (gcp mysql_ : gmap string string)
    (password project_id region instance_name tier version : string)
    (w : World) :
  config !! "gcp" = Some gcp ->
  gcp !! "project_id" = Some project_id ->
  gcp !! "region" = Some region ->
  config !! "mysql" = Some mysql_ ->
  mysql_ !! "instance_name" = Some instance_name ->
  mysql_ !! "tier" = Some tier ->
  mysql_ !! "version" = Some version ->
  exists evs,
    trace (snd (create_mysql_instance config password w))
    = (trace w
       ++ EvSubprocess ["gcloud"; "sql"; "instances"; "describe";
                        instance_name; "--project"; project_id;
                        "--format"; "value(name)"]
       :: EvSubprocess
            (if returncode (subprocess_replies w 0%nat) =? 0
             then ["gcloud"; "sql"; "users"; "set-password"; "root";
                   "--host"; "%"; "--instance"; instance_name;
                   "--project"; project_id; "--password"; password]
             else ["gcloud"; "sql"; "instances"; "create"; instance_name;
                   "--project"; project_id; "--region"; region;
                   "--database-version"; version; "--tier"; tier;
                   "--root-password"; password;
                   "--edition"; "enterprise";
                   "--availability-type"; "zonal";
                   "--storage-type"; "HDD"; "--storage-size"; "10";
                   "--no-assign-ip"; "--network";
                   ("projects/" ++ project_id
                    ++ "/global/networks/default")%string])
       :: evs)%list
    /\ forallb no_instance_create evs = true.
Proof.
  intros Hgcp Hproject Hregion Hmysql Hinstance Htier Hversion.
  unfold create_mysql_instance.
  rewrite (bind_ok _ _ _ _ _ (conf_get_ok _ _ _ _ _ w Hgcp Hproject)).
  rewrite (bind_ok _ _ _ _ _ (conf_get_ok _ _ _ _ _ w Hgcp Hregion)).
  rewrite (bind_ok _ _ _ _ _ (conf_get_ok _ _ _ _ _ w Hmysql Hinstance)).
  rewrite (bind_ok _ _ _ _ _ (conf_get_ok _ _ _ _ _ w Hmysql Htier)).
  rewrite (bind_ok _ _ _ _ _ (conf_get_ok _ _ _ _ _ w Hmysql Hversion)).
  destruct (check_instance_exists_step project_id instance_name w)
    as (w1 & Hcheck & Htr1).
  rewrite (bind_ok _ _ _ _ _ Hcheck).
  match goal with
  | |- context [bind ?m ?k w1] =>
      assert (Htail : forall a, runs_within quiet (k a));
      [|pose proof (added_then quiet m k w1 Htail) as (evs2 & Htr2 & Hq2)]
  end.
  { intros _.
    apply runs_bind; [by apply within_run_gcloud|intros _].
    apply runs_bind; [apply (within_time_sleep quiet_sleep)|intros _].
    apply runs_bind; [by apply within_run_gcloud|intros _].
    apply runs_bind;
      [by apply (within_wait_for_instance_ready quiet_sleep)|intros _].
    by apply within_get_instance_ip. }
  destruct (returncode (subprocess_replies w 0%nat) =? 0).
  - exists evs2. split; [|exact Hq2]. rewrite Htr2.
    match goal with
    | |- context [snd (bind ?m ?k w1)] =>
        replace (snd (bind m k w1)) with (snd (m w1))
          by (unfold bind; destruct (m w1) as [[]]; reflexivity)
    end.
    by rewrite trace_run_gcloud, Htr1, <- !app_assoc.
  - match type of Htr2 with
    | context [snd (bind (run_gcloud ?args ?check) ?k w1)] =>
        destruct (added_then quiet (run_gcloud args check) k w1)
          as (evs1 & Htr3 & Hq1)
    end.
    { intros _.
      apply runs_bind;
        [by apply (within_wait_for_instance_ready quiet_sleep)|].
      intros _. apply runs_ret. }
    exists (evs1 ++ evs2)%list. split; [|by rewrite forallb_app, Hq1, Hq2].
    rewrite Htr2, Htr3, trace_run_gcloud, Htr1, <- !app_assoc. reflexivity.
Qed.

End Creation.

(** In [quiet_world] the instance is reported to exist. *)
Lemma provisioner_creates_only_missing_witness :
  exists evs,
    trace (snd (init_mysql.create_mysql_instance (conf_yml quiet_world)
                  "Pa55word!" quiet_world))
    = EvSubprocess ["gcloud"; "sql"; "instances"; "describe"; "cdc-mysql";
                    "--project"; "demo-project"; "--format"; "value(name)"]
      :: EvSubprocess ["gcloud"; "sql"; "users"; "set-password"; "root";
                       "--host"; "%"; "--instance"; "cdc-mysql";
                       "--project"; "demo-project";
                       "--password"; "Pa55word!"]
      :: evs
    /\ forallb no_instance_create evs = true.
Proof.
  exact (provisioner_creates_only_missing (conf_yml quiet_world)
           {[ "project_id" := "demo-project"; "region" := "us-central1";
              "service_account_path" := "~/sa.json" ]}
           {[ "instance_name" := "cdc-mysql"; "tier" := "db-f1-micro";
              "version" := "MYSQL_8_0"; "db_name" := "shop";
              "table_name" := "items"; "root_user" := "root" ]}
           "Pa55word!" "demo-project" "us-central1" "cdc-mysql"
           "db-f1-micro" "MYSQL_8_0" quiet_world
           eq_refl eq_refl eq_refl eq_refl eq_refl eq_refl eq_refl).
Defined.

(** ** Prices stay catalogue prices *)

Section Pricing.

Lemma prices_state {A : Type} (f : World -> A) (g : World -> World) :
  (forall w, mysql (g w) = mysql w) ->
  keeps_prices (fun w => (Ok (f w), g w)).
Proof. intros Hg w H. unfold catalogue_prices. cbn. by rewrite Hg. Qed.

Lemma prices_ret {A : Type} (a : A) : keeps_prices (ret a).
Proof. by apply (prices_state (fun _ => a) (fun w => w)). Qed.

Lemma prices_get {A : Type} (f : World -> A) : keeps_prices (get f).
Proof. by apply (prices_state f (fun w => w)). Qed.

Lemma prices_modify (g : World -> World) :
  (forall w, mysql (g w) = mysql w) -> keeps_prices (modify g).
Proof. apply (prices_state (fun _ => tt) g). Qed.

Lemma prices_raise {A : Type} (e : exn) : keeps_prices (@raise A e).
Proof. by intros w H. Qed.

Lemma prices_out_of_fuel {A : Type} : keeps_prices (@out_of_fuel A).
Proof. by intros w H. Qed.

Lemma prices_emit (e : Event) : keeps_prices (emit e).
Proof. by apply prices_modify. Qed.

Lemma prices_bind {A B : Type} (m : M A) (k : A -> M B) :
  keeps_prices m -> (forall a, keeps_prices (k a)) -> keeps_prices (bind m k).
Proof.
  intros Hm Hk w H. specialize (Hm w H). unfold bind.
  destruct (m w) as [[a|e|] w1]; cbn in *; try done.
  by apply Hk.
Qed.

Lemma prices_try_except {A : Type} (m : M A) (h : exn -> option (M A)) :
  keeps_prices m ->
  (forall e m', h e = Some m' -> keeps_prices m') ->
  keeps_prices (try_except m h).
Proof.
  intros Hm Hh w H. specialize (Hm w H). unfold try_except.
  destruct (m w) as [[a|e|] w1]; cbn in *; try done.
  destruct (h e) as [m'|] eqn:E; [|done].
  by eapply Hh.
Qed.

Lemma prices_try_finally {A : Type} (m : M A) (cleanup : M unit) :
  keeps_prices m -> keeps_prices cleanup ->
  keeps_prices (try_finally m cleanup).
Proof.
  intros Hm Hc w H. specialize (Hm w H). unfold try_finally.
  destruct (m w) as [[a|e|] w1]; cbn in *; try done.
  - by apply (prices_bind cleanup (fun _ => ret a) Hc (fun _ => prices_ret a)).
  - by apply (prices_bind cleanup (fun _ => raise e) Hc
                (fun _ => prices_raise e)).
Qed.

Lemma prices_for_each {A : Type} (xs : list A) (body : A -> M unit) :
  (forall x, keeps_prices (body x)) -> keeps_prices (for_each xs body).
Proof.
  intros Hbody. induction xs as [|x xs IH]; cbn [for_each].
  - apply prices_ret.
  - apply prices_bind; [apply Hbody|intros _; exact IH].
Qed.

End Pricing.

Create HintDb prices discriminated.

Ltac prices :=
  repeat first
    [ apply prices_ret | apply prices_get | apply prices_raise
    | apply prices_emit | apply prices_out_of_fuel
    | apply prices_modify; intros; reflexivity
    | apply prices_state; intros; reflexivity
    | solve [auto 3 with prices]
    | apply prices_bind; [|intros ?]
    | match goal with
      | |- keeps_prices (if ?b then _ else _) => destruct b
      | |- keeps_prices (match ?x with _ => _ end) => destruct x
      end ].

Section ServerPrices.
Variables lo hi : Z.

Lemma prices_within_store (m : gmap string (gmap string (gmap Z Row)))
    (db t : string) (rows : gmap Z Row) :
  prices_within lo hi m ->
  (forall i r, rows !! i = Some r -> lo <= price r <= hi) ->
  prices_within lo hi (<[db := <[t := rows]> (default ∅ (m !! db))]> m).
Proof.
  intros Hm Hrows db' ts' t' rows' i r Hdb Ht Hi.
  destruct (decide (db = db')) as [<-|Hne].
  - rewrite lookup_insert_eq in Hdb. injection Hdb as <-.
    destruct (decide (t = t')) as [<-|Hne'].
    + rewrite lookup_insert_eq in Ht. injection Ht as <-. by eapply Hrows.
    + rewrite lookup_insert_ne in Ht by done.
      destruct (m !! db) as [ts|] eqn:E; cbn in Ht.
      * by eapply Hm.
      * by rewrite lookup_empty in Ht.
  - rewrite lookup_insert_ne in Hdb by done. by eapply Hm.
Qed.

Lemma prices_within_new_database (m : gmap string (gmap string (gmap Z Row)))
    (db : string) :
  prices_within lo hi m -> prices_within lo hi (<[db := ∅]> m).
Proof.
  intros Hm db' ts' t' rows' i r Hdb Ht Hi.
  destruct (decide (db = db')) as [<-|Hne].
  - rewrite lookup_insert_eq in Hdb. injection Hdb as <-.
    by rewrite lookup_empty in Ht.
  - rewrite lookup_insert_ne in Hdb by done. by eapply Hm.
Qed.

End ServerPrices.

Section StatementPrices.

Lemma prices_store db t rows :
  (forall i r, rows !! i = Some r -> 1000 <= price r <= 50000) ->
  keeps_prices (store_table db t rows).
Proof. intros Hrows w H. cbn. by apply prices_within_store. Qed.

Lemma prices_store_empty db t : keeps_prices (store_table db t ∅).
Proof. apply prices_store. intros i r. by rewrite lookup_empty. Qed.

Lemma prices_selected_tables : keeps_prices selected_tables.
Proof. unfold selected_tables. prices. Qed.

Lemma prices_selected_table t : keeps_prices (selected_table t).
Proof.
  unfold selected_table.
  apply prices_bind; [apply prices_selected_tables|intros [db tables]].
  prices.
Qed.

Lemma prices_server_now : keeps_prices server_now.
Proof. unfold server_now. prices. Qed.

(** The rows of the selected table are rows of the server. *)
Lemma selected_rows_priced t w db rows w' :
  catalogue_prices w ->
  selected_table t w = (Ok (db, rows), w') ->
  forall i r, rows !! i = Some r -> 1000 <= price r <= 50000.
Proof.
  intros H Hsel i r Hi.
  destruct (selected_table_inv _ _ _ _ _ Hsel) as (_ & tables & Hdb & Ht).
  by eapply H.
Qed.

Lemma prices_mysql_run stmt :
  priced_in_range stmt -> keeps_prices (mysql_run stmt).
Proof.
  destruct stmt as [db|db|t|t|t|t i desc p|t|t i|t p i]; intros Hp;
    cbn [mysql_run].
  - apply prices_bind; [prices|intros server].
    destruct (server !! db); [prices|].
    apply prices_bind; [|prices].
    intros w H. cbn. by apply prices_within_new_database.
  - prices.
  - apply prices_bind; [apply prices_selected_tables|intros [db tables]].
    destruct (tables !! t); [prices|].
    apply prices_bind; [apply prices_store_empty|prices].
  - apply prices_bind; [apply prices_selected_table|intros [db rows]]. prices.
  - apply prices_bind; [apply prices_selected_table|intros [db rows]].
    apply prices_bind; [apply prices_store_empty|prices].
  - intros w H.
    destruct (selected_table_cases t w) as [(db & rows & Hsel)|(msg & Hsel)].
    + rewrite (bind_ok _ _ _ _ _ Hsel). cbn beta iota.
      pose proof (selected_rows_priced _ _ _ _ _ H Hsel) as Hrows.
      refine (prices_bind server_now _ prices_server_now _ w H).
      intros now.
      destruct (rows !! i) eqn:E; [prices|].
      apply prices_bind; [|prices]. apply prices_store.
      intros j r Hj. destruct (decide (i = j)) as [<-|Hne].
      * rewrite lookup_insert_eq in Hj. by injection Hj as <-.
      * rewrite lookup_insert_ne in Hj by done. by eapply Hrows.
    + rewrite (bind_raise _ _ _ _ _ Hsel). exact H.
  - apply prices_bind; [apply prices_selected_table|intros [db rows]]. prices.
  - apply prices_bind; [apply prices_selected_table|intros [db rows]]. prices.
  - intros w H.
    destruct (selected_table_cases t w) as [(db & rows & Hsel)|(msg & Hsel)].
    + rewrite (bind_ok _ _ _ _ _ Hsel). cbn beta iota.
      pose proof (selected_rows_priced _ _ _ _ _ H Hsel) as Hrows.
      refine (prices_bind server_now _ prices_server_now _ w H).
      intros now.
      apply prices_bind; [|prices]. apply prices_store.
      intros j r Hj. rewrite lookup_alter in Hj.
      destruct (decide (i = j)) as [<-|Hne].
      * destruct (rows !! i); [|done]. by injection Hj as <-.
      * by eapply Hrows.
    + rewrite (bind_raise _ _ _ _ _ Hsel). exact H.
Qed.

Lemma prices_elapse : keeps_prices elapse.
Proof. unfold elapse. prices. Qed.

Lemma prices_execute stmt :
  priced_in_range stmt -> keeps_prices (cursor_execute stmt).
Proof.
  intros Hp. unfold cursor_execute, pop_sql_fault.
  apply prices_bind; [prices|intros _].
  apply prices_bind; [apply prices_elapse|intros _].
  apply prices_bind; [prices|intros fault].
  destruct fault; [prices|].
  apply prices_bind; [by apply prices_mysql_run|intros rows]. prices.
Qed.

(** What follows the drawing of a price may count on a catalogue price. *)
Lemma prices_drawn {A : Type} (k : Q -> M A) :
  (forall x, 1000 <= round2 x <= 50000 -> keeps_prices (k x)) ->
  keeps_prices (x <- random_uniform 10 500 ;; k x).
Proof.
  intros Hk w H. destruct (random_price w) as (x & Hx & Hr).
  rewrite (bind_ok _ _ _ _ _ Hx). by apply (Hk x Hr).
Qed.

Lemma prices_time_sleep d : keeps_prices (time_sleep d).
Proof.
  unfold time_sleep. apply prices_bind; [prices|intros _].
  apply prices_bind; [prices|intros _]. apply prices_elapse.
Qed.

Lemma prices_subprocess_run cmd : keeps_prices (subprocess_run cmd).
Proof.
  unfold subprocess_run. apply prices_bind; [prices|intros _].
  apply prices_bind; [apply prices_elapse|intros _]. prices.
Qed.

Lemma prices_conf_get config section key :
  keeps_prices (conf_get config section key).
Proof. unfold conf_get. prices. Qed.

Lemma prices_mysql_connect host user password database :
  keeps_prices (mysql_connect host user password database).
Proof.
  unfold mysql_connect, pop_connect_reply.
  apply prices_bind; [prices|intros _].
  apply prices_bind; [apply prices_elapse|intros _]. prices.
Qed.

Lemma prices_activate_credentials config :
  keeps_prices (activate_credentials config).
Proof.
  unfold activate_credentials, path_exists.
  apply prices_bind; [apply prices_conf_get|intros sa_path]. prices.
Qed.

Lemma prices_release : keeps_prices (cursor_close ;; connection_close).
Proof. unfold cursor_close, connection_close. prices. Qed.

End StatementPrices.

Section DriverPrices.
Import update_mysql.

Lemma prices_update_random_record tbl :
  keeps_prices (update_random_record tbl).
Proof.
  unfold update_random_record, random_randint, next_random.
  apply prices_bind; [prices|intros i].
  apply prices_bind; [by apply prices_execute|intros _].
  apply prices_bind; [unfold cursor_fetchone; prices|intros result].
  destruct result as [[|[] [|[] [|]]]|]; try solve [prices].
  apply prices_drawn. intros x Hx.
  apply prices_bind; [by apply prices_execute|intros _].
  unfold time_time. prices.
Qed.

Lemma prices_signal_window : keeps_prices signal_window.
Proof. unfold signal_window, signal_handler. prices. Qed.

Lemma prices_mutation_loop tbl fuel : forall c,
  keeps_prices (mutation_loop fuel tbl c).
Proof.
  induction fuel as [|fuel IH]; intros c; cbn [mutation_loop].
  - apply prices_out_of_fuel.
  - apply prices_bind; [prices|intros go]. destruct go; [|prices].
    apply prices_bind; [apply prices_update_random_record|intros r].
    unfold random_uniform, random_random, next_random.
    apply prices_bind; [prices|intros d].
    apply prices_bind; [apply prices_time_sleep|intros _].
    apply prices_bind; [apply prices_signal_window|intros _].
    apply IH.
Qed.

Lemma prices_main_updates fuel tbl : keeps_prices (main_updates fuel tbl).
Proof.
  unfold main_updates.
  apply prices_try_finally; [|apply prices_release].
  apply prices_try_except.
  - apply prices_bind; [apply prices_mutation_loop|intros c]. prices.
  - intros e m' H. destruct e; inversion H. prices.
Qed.

Lemma prices_main_setup : keeps_prices main_setup.
Proof.
  unfold main_setup, load_config, get_instance_ip, load_password,
    path_exists, read_file.
  pose proof prices_conf_get. pose proof prices_subprocess_run.
  pose proof prices_mysql_connect. pose proof prices_signal_window.
  pose proof prices_activate_credentials.
  prices.
Qed.

(** Every price the mutation driver writes is a catalogue price: on a
    server whose prices all lie between 10.00 and 500.00, they still do
    after a run of the driver, however the run ends. *)
Theorem mutation_driver_prices_in_range (fuel : nat) (w : World) :
  prices_within 1000 50000 (mysql w) ->
  prices_within 1000 50000 (mysql (snd (run_script (main fuel) w))).
Proof.
  intros H.
  assert (Hmain : catalogue_prices (snd (main fuel w))).
  { apply (prices_bind main_setup (fun tbl => main_updates fuel tbl)
             prices_main_setup (prices_main_updates fuel)). exact H. }
  unfold run_script. by destruct (main fuel w) as [[[]|[]|] w'].
Qed.

End DriverPrices.

(** The one row of [seeded_world], priced 25.99, after a run of three
    rounds with the password file in place: the run reprices the row,
    to 10.00. *)
Lemma mutation_driver_prices_in_range_witness :
  prices_within 1000 50000
    (mysql (set_files {[ password_file := "pw" ]} seeded_world))
  /\ prices_within 1000 50000
       (mysql (snd (run_script (update_mysql.main 3)
                      (set_files {[ password_file := "pw" ]} seeded_world))))
  /\ price <$> (table_rows (set_files {[ password_file := "pw" ]} seeded_world)
                  "shop" "items" ≫= lookup 1) = Some 2599
  /\ price <$> (table_rows
                  (snd (run_script (update_mysql.main 3)
                          (set_files {[ password_file := "pw" ]} seeded_world)))
                  "shop" "items" ≫= lookup 1) = Some 1000.
Proof.
  assert (H : prices_within 1000 50000
                (mysql (set_files {[ password_file := "pw" ]} seeded_world))).
  { intros db tables t rows i r Hdb Ht Hi. cbn in Hdb.
    apply lookup_singleton_Some in Hdb as [_ <-].
    apply lookup_singleton_Some in Ht as [_ <-].
    apply lookup_singleton_Some in Hi as [_ <-]. cbn. lia. }
  split; [exact H|].
  split;
    [exact (mutation_driver_prices_in_range 3
              (set_files {[ password_file := "pw" ]} seeded_world) H)|].
  split; vm_compute; reflexivity.
Defined.

Section SeederPrices.
Import init_mysql.

Lemma prices_secrets_choice seq : keeps_prices (secrets_choice seq).
Proof. unfold secrets_choice, next_secret. prices. Qed.

Lemma prices_join_choices n seq : keeps_prices (join_choices n seq).
Proof.
  induction n as [|n IH]; cbn [join_choices]; [prices|].
  apply prices_bind; [apply prices_secrets_choice|intros c].
  apply prices_bind; [exact IH|intros s]. prices.
Qed.

Lemma prices_generate_password n : keeps_prices (generate_password n).
Proof.
  unfold generate_password.
  apply prices_bind; [apply prices_join_choices|intros s].
  repeat (apply prices_bind; [apply prices_secrets_choice|intros ?]).
  prices.
Qed.

Lemma prices_run_gcloud args check : keeps_prices (run_gcloud args check).
Proof.
  unfold run_gcloud.
  apply prices_bind; [apply prices_subprocess_run|intros r]. prices.
Qed.

Lemma prices_poll_ready project_id instance_name start_time max_wait fuel :
  keeps_prices (poll_ready fuel project_id instance_name start_time max_wait).
Proof.
  induction fuel as [|fuel IH]; cbn [poll_ready]; [prices|].
  apply prices_bind; [unfold time_time; prices|intros now].
  destruct (negb _); [|prices].
  apply prices_bind; [apply prices_run_gcloud|intros r].
  destruct (String.eqb _ _); [prices|].
  apply prices_bind; [apply prices_time_sleep|intros _]. exact IH.
Qed.

Lemma prices_wait_for_instance_ready project_id instance_name max_wait :
  keeps_prices (wait_for_instance_ready project_id instance_name max_wait).
Proof.
  unfold wait_for_instance_ready.
  apply prices_bind; [unfold time_time; prices|intros start].
  apply prices_poll_ready.
Qed.

Lemma prices_create_mysql_instance config password :
  keeps_prices (create_mysql_instance config password).
Proof.
  unfold create_mysql_instance, check_instance_exists, get_instance_ip.
  pose proof prices_conf_get. pose proof prices_run_gcloud.
  pose proof prices_wait_for_instance_ready. pose proof prices_time_sleep.
  prices.
Qed.

Lemma prices_connect_with_retries host user password attempts :
  keeps_prices (connect_with_retries attempts host user password).
Proof.
  induction attempts as [|attempt attempts IH]; cbn [connect_with_retries].
  - prices.
  - apply prices_try_except; [apply prices_mysql_connect|].
    intros e m' H. destruct e; inversion H.
    destruct (attempt <? max_retries - 1); [|prices].
    apply prices_bind; [apply prices_time_sleep|intros _]. exact IH.
Qed.

Lemma prices_insert_sample tbl i : keeps_prices (insert_sample tbl i).
Proof.
  unfold insert_sample. apply prices_drawn. intros x Hx.
  destruct (descriptions !! Z.to_nat (i - 1)); [|prices].
  by apply prices_execute.
Qed.

Lemma prices_seed db tbl : keeps_prices (seed db tbl).
Proof.
  unfold seed.
  repeat (apply prices_bind; [by apply prices_execute|intros _]).
  apply prices_bind; [unfold cursor_fetchone; prices|intros first].
  destruct first as [[|[] ?]|]; try solve [prices].
  apply prices_bind.
  { destruct (0 <? _); [by apply prices_execute|prices]. }
  intros _.
  apply prices_bind;
    [apply prices_for_each; intros i; apply prices_insert_sample|intros _].
  apply prices_bind; [unfold connection_commit|intros _].
  { apply prices_bind; [prices|intros _]. apply prices_elapse. }
  apply prices_bind; [by apply prices_execute|intros _].
  unfold cursor_fetchall. prices.
Qed.

Lemma prices_create_database_and_table host user password config :
  keeps_prices (create_database_and_table host user password config).
Proof.
  unfold create_database_and_table.
  apply prices_bind; [apply prices_conf_get|intros db].
  apply prices_bind; [apply prices_conf_get|intros tbl].
  apply prices_bind; [apply prices_connect_with_retries|intros _].
  apply prices_bind; [unfold connection_cursor, pop_sql_fault; prices|].
  intros _.
  apply prices_try_finally; [apply prices_seed|apply prices_release].
Qed.

(** Every price the provisioner seeds is a catalogue price: on a server
    whose prices all lie between 10.00 and 500.00, they still do after a
    run of the provisioner, however the run ends. *)
Theorem provisioner_prices_in_range (w : World) :
  prices_within 1000 50000 (mysql w) ->
  prices_within 1000 50000 (mysql (snd (run_script main w))).
Proof.
  intros H.
  assert (Hmain : keeps_prices main).
  { unfold main, load_config, write_file, os_chmod.
    pose proof prices_conf_get. pose proof prices_run_gcloud.
    pose proof prices_activate_credentials.
    pose proof prices_generate_password.
    pose proof prices_create_mysql_instance.
    pose proof prices_create_database_and_table.
    prices. }
  specialize (Hmain w H).
  unfold run_script. by destruct (main w) as [[[]|[]|] w'].
Qed.

End SeederPrices.

(** From the empty server of [quiet_world]. *)
Lemma provisioner_prices_in_range_witness :
  prices_within 1000 50000 (mysql quiet_world)
  /\ prices_within 1000 50000
       (mysql (snd (run_script init_mysql.main quiet_world))).
Proof.
  assert (H : prices_within 1000 50000 (mysql quiet_world)).
  { intros db tables t rows i r Hdb. cbn in Hdb.
    by rewrite lookup_empty in Hdb. }
  split; [exact H|]. exact (provisioner_prices_in_range quiet_world H).
Defined.

(** ** One password: saved first, then used everywhere *)

Lemma run_script_world (m : M unit) (w : World) :
  snd (run_script m w) = snd (m w).
Proof. unfold run_script. by destruct (m w) as [[[]|[]|] w']. Qed.

Lemma password_first_bind {A B : Type} (m : M A) (k : A -> M B) (w : World) :
  runs_within password_free m ->
  (forall a w1, password_first w1 (snd (k a w1))) ->
  password_first w (snd (bind m k w)).
Proof.
  intros Hm Hk. destruct (Hm w) as [(evs & Htr & Hevs) _]. unfold bind.
  destruct (m w) as [[a|e|] w1]; cbn [snd] in *.
  - destruct (Hk a w1) as (pre & post & Htr' & Hpre & Hpost).
    exists (evs ++ pre)%list, post.
    split; [by rewrite Htr', Htr, <- !app_assoc|].
    split; [by rewrite forallb_app, Hevs, Hpre|exact Hpost].
  - exists evs, []. rewrite app_nil_r. eauto.
  - exists evs, []. rewrite app_nil_r. eauto.
Qed.

Section Secrets.
Import init_mysql.

Lemma trace_secrets_choice seq w :
  trace (snd (secrets_choice seq w)) = trace w.
Proof.
  unfold secrets_choice. destruct (String.length seq); [done|].
  unfold bind, next_secret. cbn. by destruct (String.get _ seq).
Qed.

Lemma trace_join_choices seq n : forall w,
  trace (snd (join_choices n seq w)) = trace w.
Proof.
  induction n as [|n IH]; intros w; cbn [join_choices]; [done|].
  unfold bind. pose proof (trace_secrets_choice seq w) as Hc.
  destruct (secrets_choice seq w) as [[c|e|] w1]; cbn [snd] in *; [|done..].
  pose proof (IH w1) as Hj.
  destruct (join_choices n seq w1) as [[s|e|] w2]; unfold ret;
    cbn [snd] in *; congruence.
Qed.

Lemma trace_generate_password n w :
  trace (snd (generate_password n w)) = trace w.
Proof.
  unfold generate_password, bind.
  pose proof (trace_join_choices alphabet n w) as H0.
  destruct (join_choices n alphabet w) as [[s|e|] w0]; cbn [snd] in *;
    [|done..].
  pose proof (trace_secrets_choice pystr.ascii_uppercase w0) as H1.
  destruct (secrets_choice pystr.ascii_uppercase w0) as [[c1|e|] w1];
    cbn [snd] in *; [|congruence..].
  pose proof (trace_secrets_choice pystr.ascii_lowercase w1) as H2.
  destruct (secrets_choice pystr.ascii_lowercase w1) as [[c2|e|] w2];
    cbn [snd] in *; [|congruence..].
  pose proof (trace_secrets_choice pystr.digits w2) as H3.
  destruct (secrets_choice pystr.digits w2) as [[c3|e|] w3];
    cbn [snd] in *; [|congruence..].
  pose proof (trace_secrets_choice symbols w3) as H4.
  destruct (secrets_choice symbols w3) as [[c4|e|] w4]; unfold ret;
    cbn [snd] in *; congruence.
Qed.

End Secrets.

Section OnePassword.
Import init_mysql.
Variable pw : string.

Local Abbreviation same := (uses_password pw).

Lemma same_sleep d : same (EvSleep d) = true.
Proof. reflexivity. Qed.

Lemma same_execute stmt : same (EvExecute stmt) = true.
Proof. reflexivity. Qed.

Lemma same_connect host user database :
  same (EvConnect host user pw database) = true.
Proof. by apply bool_decide_eq_true_2. Qed.

Lemma same_set_password instance_name project_id :
  same (EvSubprocess ["gcloud"; "sql"; "users"; "set-password"; "root";
                      "--host"; "%"; "--instance"; instance_name;
                      "--project"; project_id; "--password"; pw]) = true.
Proof. by apply bool_decide_eq_true_2. Qed.

Lemma same_create instance_name project_id region version tier rest :
  same (EvSubprocess ("gcloud" :: "sql" :: "instances" :: "create"
                      :: instance_name :: "--project" :: project_id
                      :: "--region" :: region
                      :: "--database-version" :: version
                      :: "--tier" :: tier
                      :: "--root-password" :: pw :: rest)) = true.
Proof. by apply bool_decide_eq_true_2. Qed.

Lemma same_create_mysql_instance config :
  runs_within same (create_mysql_instance config pw).
Proof.
  unfold create_mysql_instance, check_instance_exists.
  do 5 (apply runs_bind; [apply runs_conf_get|intros ?]).
  apply runs_bind.
  { apply runs_bind; [by apply within_run_gcloud|intros r]. runs. }
  intros found. apply runs_bind.
  { destruct found.
    - apply runs_bind; [|intros _; apply runs_ret].
      apply within_run_gcloud, same_set_password.
    - apply runs_bind; [apply within_run_gcloud, same_create|intros _].
      apply runs_bind; [|intros _; apply runs_ret].
      by apply (within_wait_for_instance_ready same_sleep). }
  intros _.
  apply runs_bind; [by apply within_run_gcloud|intros _].
  apply runs_bind; [apply (within_time_sleep same_sleep)|intros _].
  apply runs_bind; [by apply within_run_gcloud|intros _].
  apply runs_bind;
    [by apply (within_wait_for_instance_ready same_sleep)|intros _].
  by apply within_get_instance_ip.
Qed.

Lemma same_mysql_connect host user database :
  runs_within same (mysql_connect host user pw database).
Proof.
  unfold mysql_connect, pop_connect_reply.
  apply runs_bind; [apply runs_emit, same_connect|intros _].
  apply runs_bind; [apply within_elapse|intros _]. runs.
Qed.

Lemma same_connect_with_retries host user attempts :
  runs_within same (connect_with_retries attempts host user pw).
Proof.
  induction attempts as [|attempt attempts IH]; cbn [connect_with_retries].
  - runs.
  - apply within_try_except; [apply same_mysql_connect|].
    intros e m' H. destruct e; inversion H.
    destruct (attempt <? max_retries - 1); [|runs].
    apply runs_bind; [apply (within_time_sleep same_sleep)|intros _].
    exact IH.
Qed.

Lemma same_create_database_and_table host user config :
  runs_within same (create_database_and_table host user pw config).
Proof.
  unfold create_database_and_table.
  apply runs_bind; [apply runs_conf_get|intros db].
  apply runs_bind; [apply runs_conf_get|intros tbl].
  apply runs_bind; [apply same_connect_with_retries|intros _].
  apply runs_bind; [unfold connection_cursor, pop_sql_fault; runs|intros _].
  apply within_try_finally.
  - by apply (runs_seed same_execute).
  - unfold cursor_close, connection_close. runs.
Qed.

Lemma same_after_saving config :
  runs_within same
    (host <- create_mysql_instance config pw ;;
     user <- conf_get config "mysql" "root_user" ;;
     create_database_and_table host user pw config ;;
     conf_get config "mysql" "instance_name" ;;
     conf_get config "mysql" "db_name" ;;
     conf_get config "mysql" "table_name" ;;
     ret tt).
Proof.
  apply runs_bind; [apply same_create_mysql_instance|intros host].
  apply runs_bind; [apply runs_conf_get|intros user].
  apply runs_bind; [apply same_create_database_and_table|intros _].
  do 3 (apply runs_bind; [apply runs_conf_get|intros _]).
  apply runs_ret.
Qed.

End OnePassword.

(** The provisioner handles one password.  Whatever the CLI and the
    server answer: before anything else that has to do with a password
    or a file, it writes a 24-character password to [mysql.password]
    and sets the file's mode to 0600; after that it writes no file, and
    every password it hands out (to [gcloud sql users set-password], to
    [gcloud sql instances create] as root password, and on every
    connection attempt) is that password. *)
Theorem provisioner_one_password (w : World) :
  exists pre post,
    trace (snd (run_script init_mysql.main w)) = (trace w ++ pre ++ post)%list
    /\ forallb password_free pre = true
    /\ (post = []
        \/ exists pw rest,
             String.length pw = 24%nat
             /\ post = EvWriteFile password_file pw
                       :: EvChmod password_file 384 :: rest
             /\ forallb (uses_password pw) rest = true).
Proof.
  rewrite run_script_world.
  change (password_first w (snd (init_mysql.main w))).
  unfold init_mysql.main, load_config.
  apply password_first_bind; [runs|intros config w1].
  apply password_first_bind.
  { unfold activate_credentials, path_exists.
    apply runs_bind; [apply runs_conf_get|intros sa_path]. runs. }
  intros _ w2.
  apply password_first_bind; [apply runs_conf_get|intros project_id w3].
  apply password_first_bind; [by apply within_run_gcloud|intros _ w4].
  destruct (generate_password_shape 24 w4)
    as (original & w0 & c1 & c2 & c3 & c4 & w5 & _ & Hl & _ & Hg & _).
  pose proof (trace_generate_password 24 w4) as Htr.
  unfold init_mysql.default_length.
  rewrite Hg in Htr. cbn [snd] in Htr.
  rewrite (bind_ok _ _ _ _ _ Hg).
  set (pw := String c1 (String c2 (String c3 (String c4
               (pystr.drop 4 original))))).
  assert (Hlen : String.length pw = 24%nat).
  { unfold pw. cbn [String.length]. rewrite length_drop, Hl. reflexivity. }
  clearbody pw.
  rewrite (bind_ok _ _ _ _ _
             (eq_refl : write_file password_file pw w5
                        = (Ok tt, snd (write_file password_file pw w5)))).
  set (w6 := snd (write_file password_file pw w5)).
  rewrite (bind_ok _ _ _ _ _
             (eq_refl : os_chmod password_file 384 w6
                        = (Ok tt, snd (os_chmod password_file 384 w6)))).
  set (w7 := snd (os_chmod password_file 384 w6)).
  assert (Htr7 : trace w7
                 = (trace w4 ++ [EvWriteFile password_file pw;
                                 EvChmod password_file 384])%list).
  { unfold w7, w6. cbn. by rewrite Htr, <- app_assoc. }
  clearbody w7. clear w6.
  destruct (same_after_saving pw config w7) as [(rest & Hrest & Hsame) _].
  exists [], (EvWriteFile password_file pw :: EvChmod password_file 384 :: rest).
  split.
  { rewrite Hrest, Htr7, <- app_assoc. reflexivity. }
  split; [reflexivity|]. right. exists pw, rest. done.
Qed.

(** ** The mutation driver connects once *)

Section Emitting.
Context {P : Event -> bool}.

Lemma emits_runs {A : Type} (m : M A) : runs_within P m -> emits P m.
Proof. intros H w. apply H. Qed.

Lemma emits_out_of_fuel {A : Type} : emits P (@out_of_fuel A).
Proof. intros w. apply added_refl. Qed.

Lemma emits_bind {A B : Type} (m : M A) (k : A -> M B) :
  emits P m -> (forall a, emits P (k a)) -> emits P (bind m k).
Proof.
  intros Hm Hk w. specialize (Hm w). unfold bind.
  destruct (m w) as [[a|e|] w1]; cbn [snd] in *; [|done..].
  eapply added_trans; [exact Hm|apply Hk].
Qed.

Lemma emits_try_except {A : Type} (m : M A) (h : exn -> option (M A)) :
  emits P m -> (forall e m', h e = Some m' -> emits P m') ->
  emits P (try_except m h).
Proof.
  intros Hm Hh w. specialize (Hm w). unfold try_except.
  destruct (m w) as [[a|e|] w1]; cbn [snd] in *; [done| |done].
  destruct (h e) as [m'|] eqn:E; [|done].
  eapply added_trans; [exact Hm|by eapply Hh].
Qed.

Lemma emits_try_finally {A : Type} (m : M A) (cleanup : M unit) :
  emits P m -> runs_within P cleanup -> emits P (try_finally m cleanup).
Proof.
  intros Hm Hc w. specialize (Hm w). unfold try_finally.
  destruct (m w) as [[a|e|] w1]; cbn [snd] in *; [| |done].
  - eapply added_trans; [exact Hm|].
    apply (emits_bind cleanup (fun _ => ret a) (emits_runs _ Hc)
             (fun _ => emits_runs _ (runs_ret a))).
  - eapply added_trans; [exact Hm|].
    apply (emits_bind cleanup (fun _ => @raise A e) (emits_runs _ Hc)).
    intros _ w'. apply added_refl.
Qed.

End Emitting.

Section DriverTrace.
Import update_mysql.

Local Abbreviation calm := no_connect.

Lemma calm_execute stmt : calm (EvExecute stmt) = true.
Proof. reflexivity. Qed.

Lemma calm_sleep d : calm (EvSleep d) = true.
Proof. reflexivity. Qed.

Lemma calm_update_random_record tbl :
  runs_within calm (update_random_record tbl).
Proof.
  unfold update_random_record, random_randint, random_uniform, random_random,
    next_random, cursor_fetchone, time_time.
  pose proof (runs_cursor_execute calm_execute) as Hexec.
  runs.
Qed.

Lemma calm_signal_window : runs_within calm signal_window.
Proof. unfold signal_window, signal_handler. runs. Qed.

Lemma calm_mutation_loop tbl fuel : forall c,
  emits calm (mutation_loop fuel tbl c).
Proof.
  induction fuel as [|fuel IH]; intros c; cbn [mutation_loop].
  - apply emits_out_of_fuel.
  - apply emits_bind; [apply emits_runs; runs|intros go].
    destruct go; [|apply emits_runs; runs].
    apply emits_bind;
      [apply emits_runs, calm_update_random_record|intros r].
    apply emits_bind.
    { apply emits_runs. unfold random_uniform, random_random, next_random.
      runs. }
    intros d.
    apply emits_bind;
      [apply emits_runs, (within_time_sleep calm_sleep)|intros _].
    apply emits_bind; [apply emits_runs, calm_signal_window|intros _].
    apply IH.
Qed.

Lemma calm_main_updates fuel tbl : emits calm (main_updates fuel tbl).
Proof.
  unfold main_updates. apply emits_try_finally.
  - apply emits_try_except.
    + apply emits_bind; [apply calm_mutation_loop|intros c].
      apply emits_runs, runs_ret.
    + intros e m' H. destruct e; inversion H. apply emits_runs, runs_ret.
  - unfold cursor_close, connection_close. runs.
Qed.

Lemma get_instance_ip_ok project_id instance_name w :
  returncode (subprocess_replies w 0%nat) = 0 ->
  exists w',
    get_instance_ip project_id instance_name w
    = (Ok (pystr.strip (stdout (subprocess_replies w 0%nat))), w')
    /\ trace w'
       = (trace w
          ++ [EvSubprocess ["gcloud"; "sql"; "instances"; "describe";
                            instance_name; "--project"; project_id;
                            "--format";
                            "value(ipAddresses[0].ipAddress)"]])%list
    /\ files w' = files w.
Proof.
  intros Hcode. unfold get_instance_ip, subprocess_run, bind. cbn.
  rewrite Hcode. cbn. eexists. split; [reflexivity|]. split; reflexivity.
Qed.

Lemma load_password_present w content :
  files w !! password_file = Some content ->
  load_password w
  = (Ok (pystr.strip (pystr.universal_newlines content)), w).
Proof.
  intros Hfile. unfold load_password, path_exists, read_file, bind, get, ret.
  cbn -[lookup bool_decide]. rewrite Hfile.
  rewrite bool_decide_eq_true_2 by eauto. cbn -[lookup]. by rewrite Hfile.
Qed.

Lemma mysql_connect_attempt host user password database w :
  exists res w',
    mysql_connect host user password database w = (res, w')
    /\ trace w' = (trace w ++ [EvConnect host user password database])%list
    /\ (res = Ok tt \/ exists e, res = Raise e).
Proof.
  unfold mysql_connect, pop_connect_reply, bind. cbn.
  destruct (connect_replies w 0%nat); cbn.
  - destruct database as [db|]; cbn; [destruct (mysql w !! db); cbn|];
      (eexists _, _; split; [reflexivity|]; split; [reflexivity|]; eauto).
  - eexists _, _. split; [reflexivity|]. split; [reflexivity|]. eauto.
  - eexists _, _. split; [reflexivity|]. split; [reflexivity|]. eauto.
Qed.

Lemma signal_window_quiet w :
  exists w', signal_window w = (Ok tt, w') /\ trace w' = trace w.
Proof.
  unfold signal_window, signal_handler, bind. cbn.
  destruct (signals w 0%nat); cbn; (eexists; split; reflexivity).
Qed.

End DriverTrace.

(** With its six settings and the password file in place, and a gcloud
    call that succeeds, the mutation driver installs its two signal
    handlers, asks gcloud for the instance's address and then makes one
    connection attempt: to the address gcloud printed, as the configured
    root user, with the content of the password file (stripped) as
    password and the configured database selected.  It never makes a
    second attempt, however long the loop runs and however it ends. *)
Theorem driver_connects_once (fuel : nat) (w : World)
    (gcp mysql_ : gmap string string)
    (sa_path project_id instance_name db_name table_name user content : string) :
  conf_yml w !! "gcp" = Some gcp ->
  gcp !! "service_account_path" = Some sa_path ->
  gcp !! "project_id" = Some project_id ->
  conf_yml w !! "mysql" = Some mysql_ ->
  mysql_ !! "instance_name" = Some instance_name ->
  mysql_ !! "db_name" = Some db_name ->
  mysql_ !! "table_name" = Some table_name ->
  mysql_ !! "root_user" = Some user ->
  files w !! password_file = Some content ->
  returncode (subprocess_replies w 0%nat) = 0 ->
  exists rest,
    trace (snd (run_script (update_mysql.main fuel) w))
    = (trace w
       ++ [EvSignal "SIGINT"; EvSignal "SIGTERM"]
       ++ (if bool_decide (is_Some (files w !! sa_path))
           then [EvSetEnv "GOOGLE_APPLICATION_CREDENTIALS" sa_path] else [])
       ++ [EvSubprocess ["gcloud"; "sql"; "instances"; "describe";
                         instance_name; "--project"; project_id;
                         "--format"; "value(ipAddresses[0].ipAddress)"];
           EvConnect (pystr.strip (stdout (subprocess_replies w 0%nat))) user
             (pystr.strip (pystr.universal_newlines content))
             (Some db_name)]
       ++ rest)%list
    /\ forallb no_connect rest = true.
Proof.
  intros Hgcp Hsa Hproject Hmysql Hinstance Hdb Htable Huser Hfile Hcode.
  rewrite run_script_world.
  set (w2 := snd (emit (EvSignal "SIGTERM")
                    (snd (emit (EvSignal "SIGINT") w)))).
  set (w3 := if bool_decide (is_Some (files w2 !! sa_path))
             then set_trace (trace w2 ++ [EvSetEnv
                    "GOOGLE_APPLICATION_CREDENTIALS" sa_path]) w2
             else w2).
  assert (H3 : files w3 = files w
               /\ subprocess_replies w3 = subprocess_replies w
               /\ trace w3
                  = (trace w ++ [EvSignal "SIGINT"; EvSignal "SIGTERM"]
                     ++ if bool_decide (is_Some (files w !! sa_path))
                        then [EvSetEnv "GOOGLE_APPLICATION_CREDENTIALS"
                                sa_path] else [])%list).
  { unfold w3. change (files w2) with (files w).
    destruct (bool_decide _); cbn; rewrite <- !app_assoc; done. }
  destruct H3 as (Hf3 & Hs3 & Htr3).
  destruct (get_instance_ip_ok project_id instance_name w3)
    as (w4 & Hip & Htr4 & Hf4); [by rewrite Hs3|].
  rewrite Hs3 in Hip.
  set (host := pystr.strip (stdout (subprocess_replies w 0%nat))) in *.
  set (password := pystr.strip (pystr.universal_newlines content)).
  destruct (mysql_connect_attempt host user password (Some db_name) w4)
    as (res & w5 & Hconnect & Htr5 & Hres).
  assert (Htrace : trace w5
            = (trace w
               ++ [EvSignal "SIGINT"; EvSignal "SIGTERM"]
               ++ (if bool_decide (is_Some (files w !! sa_path))
                   then [EvSetEnv "GOOGLE_APPLICATION_CREDENTIALS" sa_path]
                   else [])
               ++ [EvSubprocess ["gcloud"; "sql"; "instances"; "describe";
                                 instance_name; "--project"; project_id;
                                 "--format";
                                 "value(ipAddresses[0].ipAddress)"];
                   EvConnect host user password (Some db_name)])%list).
  { rewrite Htr5, Htr4, Htr3, <- !app_assoc. reflexivity. }
  assert (Hsetup : forall (k : string -> M string),
    (emit (EvSignal "SIGINT") ;; emit (EvSignal "SIGTERM") ;;
     config <- load_config ;;
     activate_credentials config ;;
     project_id <- conf_get config "gcp" "project_id" ;;
     instance_name <- conf_get config "mysql" "instance_name" ;;
     host <- update_mysql.get_instance_ip project_id instance_name ;;
     password <- update_mysql.load_password ;;
     db_name <- conf_get config "mysql" "db_name" ;;
     table_name <- conf_get config "mysql" "table_name" ;;
     user <- conf_get config "mysql" "root_user" ;;
     mysql_connect host user password (Some db_name) ;;
     k table_name) w
    = (mysql_connect host user password (Some db_name) ;; k table_name) w4).
  { intros k.
    rewrite (bind_ok _ _ _ _ _
               (eq_refl : emit (EvSignal "SIGINT") w
                          = (Ok tt, snd (emit (EvSignal "SIGINT") w)))).
    rewrite (bind_ok _ _ _ _ _
               (eq_refl : emit (EvSignal "SIGTERM")
                            (snd (emit (EvSignal "SIGINT") w))
                          = (Ok tt, w2))).
    rewrite (bind_ok _ _ _ _ _
               (eq_refl : load_config w2 = (Ok (conf_yml w), w2))).
    rewrite (bind_ok _ _ _ _ _ (activate_credentials_ok _ _ _ w2 Hgcp Hsa)).
    fold w3.
    rewrite (bind_ok _ _ _ _ _ (conf_get_ok _ _ _ _ _ w3 Hgcp Hproject)).
    rewrite (bind_ok _ _ _ _ _ (conf_get_ok _ _ _ _ _ w3 Hmysql Hinstance)).
    rewrite (bind_ok _ _ _ _ _ Hip).
    rewrite (bind_ok _ _ _ _ _ (load_password_present w4 content
                                  ltac:(by rewrite Hf4, Hf3))).
    rewrite (bind_ok _ _ _ _ _ (conf_get_ok _ _ _ _ _ w4 Hmysql Hdb)).
    rewrite (bind_ok _ _ _ _ _ (conf_get_ok _ _ _ _ _ w4 Hmysql Htable)).
    rewrite (bind_ok _ _ _ _ _ (conf_get_ok _ _ _ _ _ w4 Hmysql Huser)).
    reflexivity. }
  destruct Hres as [->|(e & ->)].
  - destruct (signal_window_quiet w5) as (w6 & Hwin & Htr6).
    assert (Hmain : update_mysql.main_setup w = (Ok table_name, w6)).
    { unfold update_mysql.main_setup.
      rewrite (Hsetup (fun t => update_mysql.signal_window ;; ret t)).
      rewrite (bind_ok _ _ _ _ _ Hconnect).
      by rewrite (bind_ok _ _ _ _ _ Hwin). }
    unfold update_mysql.main. rewrite (bind_ok _ _ _ _ _ Hmain).
    destruct (calm_main_updates fuel table_name w6) as (rest & Hrest & Hcalm).
    exists rest. split; [|exact Hcalm].
    rewrite Hrest, Htr6, Htrace, <- !app_assoc. reflexivity.
  - assert (Hmain : update_mysql.main_setup w = (Raise e, w5)).
    { unfold update_mysql.main_setup.
      rewrite (Hsetup (fun t => update_mysql.signal_window ;; ret t)).
      by rewrite (bind_raise _ _ _ _ _ Hconnect). }
    unfold update_mysql.main. rewrite (bind_raise _ _ _ _ _ Hmain).
    exists []. split; [|done]. cbn [snd].
    rewrite Htrace, app_nil_r. reflexivity.
Qed.

(** In [quiet_world] with a password file. *)
Lemma driver_connects_once_witness :
  exists rest,
    trace (snd (run_script (update_mysql.main 2)
                  (set_files {[ password_file := "Pa55word!" ]} quiet_world)))
    = ([EvSignal "SIGINT"; EvSignal "SIGTERM";
        EvSubprocess ["gcloud"; "sql"; "instances"; "describe";
                      "cdc-mysql"; "--project"; "demo-project";
                      "--format"; "value(ipAddresses[0].ipAddress)"];
        EvConnect "RUNNABLE" "root" "Pa55word!" (Some "shop")]
       ++ rest)%list
    /\ forallb no_connect rest = true.
Proof.
  exact (driver_connects_once 2
           (set_files {[ password_file := "Pa55word!" ]} quiet_world)
           {[ "project_id" := "demo-project"; "region" := "us-central1";
              "service_account_path" := "~/sa.json" ]}
           {[ "instance_name" := "cdc-mysql"; "tier" := "db-f1-micro";
              "version" := "MYSQL_8_0"; "db_name" := "shop";
              "table_name" := "items"; "root_user" := "root" ]}
           "~/sa.json" "demo-project" "cdc-mysql" "shop" "items" "root"
           "Pa55word!"
           eq_refl eq_refl eq_refl eq_refl eq_refl eq_refl eq_refl eq_refl
           eq_refl eq_refl).
Defined.

(** ** The password file, from the provisioner to the mutation driver *)

Section FilesKept.




Lemma files_for_each {A : Type} (xs : list A) (body : A -> M unit) :
  (forall x, keeps_files (body x)) -> keeps_files (for_each xs body).
Proof.
  intros Hbody. induction xs as [|x xs IH]; cbn [for_each]; [by intros w|].
  apply files_bind; [apply Hbody|intros _; exact IH].
Qed.

Lemma files_elapse : keeps_files elapse.
Proof. unfold elapse, modify. keeps_files. Qed.

Lemma files_emit e : keeps_files (emit e).
Proof. unfold emit, modify. keeps_files. Qed.




Lemma files_mysql_run stmt : keeps_files (mysql_run stmt).
Proof.
  destruct stmt; cbn [mysql_run];
    unfold selected_table, selected_tables, store_table, server_now,
      get, modify, ret;
    keeps_files.
Qed.

Lemma files_cursor_execute stmt : keeps_files (cursor_execute stmt).
Proof.
  unfold cursor_execute, pop_sql_fault.
  apply files_bind; [apply files_emit|intros _].
  apply files_bind; [apply files_elapse|intros _].
  apply files_bind; [keeps_files|intros fault].
  destruct fault; [keeps_files|].
  apply files_bind; [apply files_mysql_run|intros rows].
  unfold modify. keeps_files.
Qed.

End FilesKept.

Section ProvisionerFiles.
Import init_mysql.






Lemma files_insert_sample tbl i : keeps_files (insert_sample tbl i).
Proof.
  unfold insert_sample.
  apply files_bind.
  { unfold random_uniform, random_random, next_random, ret.
    apply files_bind; [|intros u; keeps_files].
    apply files_bind; [|intros r]; keeps_files. }
  intros x. destruct (descriptions !! Z.to_nat (i - 1)); [|keeps_files].
  apply files_cursor_execute.
Qed.







End ProvisionerFiles.



(** ** Missing settings, for the three programs together *)



